(** * Identity bounded context: authentication service, token codec and
    user aggregate of the game-configuration backend.

    The development embeds [apps/identity/domain/services/auth_service.py],
    [apps/identity/domain/models/user.py], [apps/identity/domain/user_events.py],
    [apps/identity/api/auth_endpoints.py], [apps/identity/api/auth.py] and the
    admin actions and the change form of [apps/identity/admin.py] as
    functions over an explicit database state and an explicit clock, and
    proves properties of them.

    Conventions.
    - A [datetime] is an integer number of microseconds since the Unix epoch
      (always timezone-aware, UTC); a [timedelta] is a number of microseconds.
    - A Python [str] is a [string]; every character of the model stands for
      one character of the program (exact for ASCII text).
    - A function that can raise returns a [result]; the exception classes are
      the constructors of [exn].
    - What a call draws from its environment (the clock, the salt of the
      hasher, the identifier of [uuid4]) is an argument of the function.
    - The program's own code is written out, and so is the control flow of
      the library functions it calls: [authenticate] with Django's
      [ModelBackend], [validate_password] with the four configured
      validators, [AbstractBaseUser.check_password] with the re-encoding of
      an outdated hash, [Model.save] with one reading of the clock for each
      [auto_now] or [auto_now_add] column, [jwt.encode] and [jwt.decode] of
      PyJWT (2.10 or later: a token is expired from its expiry second on, an
      [iat] in the future is refused, [sub] and [jti] must be strings),
      [uuid.UUID], [hashlib.sha256], [datetime.isoformat].
    - What lies behind those (the password hashes, the HMAC, the table of
      common passwords, the column types of PostgreSQL, the field checks of
      a Django form) is a field of the class [Framework].
    - The claims of a token are JSON strings, booleans and integers, the
      values the program itself writes; tokens that carry [null], a float,
      an array or an object under a claim are not represented.
    - A write that precedes a failure stays written (the settings do not
      wrap requests in transactions): a function that can fail after a
      write returns the table beside its outcome. *)

From Stdlib Require Import ZArith NArith Lia Ascii List Bool.
From Stdlib Require String.
From stdpp Require Import base option strings gmap list.
Import ListNotations.

Local Open Scope Z_scope.

(* ===================================================================== *)
(** ** Python built-ins on [str] *)
(* ===================================================================== *)

Module Py.

Abbreviation chars := String.list_ascii_of_string.
Abbreviation of_chars := String.string_of_list_ascii.

Definition code (c : ascii) : Z := Z.of_N (N_of_ascii c).
Definition chr (z : Z) : ascii := ascii_of_N (Z.to_N z).

(** [c.isspace()] for the ASCII range: TAB, LF, VT, FF, CR, FS, GS, RS, US
    and the space. *)
Definition isspace (c : ascii) : bool :=
  let n := code c in
  ((9 <=? n) && (n <=? 13)) || ((28 <=? n) && (n <=? 32)).

Definition is_digit (c : ascii) : bool :=
  let n := code c in (48 <=? n) && (n <=? 57).

Definition is_upper (c : ascii) : bool :=
  let n := code c in (65 <=? n) && (n <=? 90).

Definition is_lower (c : ascii) : bool :=
  let n := code c in (97 <=? n) && (n <=? 122).

(** A word character of the [re] module: [[A-Za-z0-9_]]. *)
Definition is_word (c : ascii) : bool :=
  is_digit c || is_upper c || is_lower c || (code c =? 95).

Definition lower_char (c : ascii) : ascii :=
  if is_upper c then chr (code c + 32) else c.

(** [s.lower()] *)
Definition lower (s : string) : string :=
  of_chars (map lower_char (chars s)).

Fixpoint lstrip_chars (l : list ascii) : list ascii :=
  match l with
  | c :: l' => if isspace c then lstrip_chars l' else l
  | [] => []
  end.

Definition strip_chars (l : list ascii) : list ascii :=
  rev (lstrip_chars (rev (lstrip_chars l))).

(** [s.strip()] *)
Definition strip (s : string) : string := of_chars (strip_chars (chars s)).

(** [len(s)] *)
Definition len (s : string) : Z := Z.of_nat (String.length s).

(** [s.isdigit()]: non-empty and made of digits only. *)
Definition isdigit (s : string) : bool :=
  match chars s with
  | [] => false
  | l => forallb is_digit l
  end.

(** The white space that [int] skips at both ends of a text: TAB, LF, VT,
    FF, CR and the space. *)
Definition int_space (c : ascii) : bool :=
  let n := code c in ((9 <=? n) && (n <=? 13)) || (n =? 32).

Fixpoint lstrip_space (l : list ascii) : list ascii :=
  match l with
  | c :: l' => if int_space c then lstrip_space l' else l
  | [] => []
  end.

Definition int_strip (l : list ascii) : list ascii :=
  rev (lstrip_space (rev (lstrip_space l))).

(** [not s]: the falsiness of a string. *)
Definition falsy (s : string) : bool :=
  match s with EmptyString => true | _ => false end.

(** [s[:n]] for [n >= 0]. *)
Definition prefix (n : nat) (s : string) : string :=
  String.substring 0 n s.

(** [c in s] *)
Definition contains_char (c : ascii) (s : string) : bool :=
  existsb (fun d => bool_decide (d = c)) (chars s).

(** Lower-case hexadecimal digit of a value in [0, 15]. *)
Definition hex_digit (d : Z) : ascii :=
  if d <? 10 then chr (48 + d) else chr (87 + d).

(** [width] lower-case hexadecimal digits of [z], most significant first. *)
Fixpoint hex_fixed (width : nat) (z : Z) : list ascii :=
  match width with
  | O => []
  | S w => hex_digit (Z.land (Z.shiftr z (4 * Z.of_nat w)) 15) :: hex_fixed w z
  end.

(** [width] decimal digits of [z], zero padded (the [%0wd] format). *)
Fixpoint dec_fixed (width : nat) (z : Z) : list ascii :=
  match width with
  | O => []
  | S w => chr (48 + (z / 10 ^ Z.of_nat w) mod 10) :: dec_fixed w z
  end.

End Py.

(* ===================================================================== *)
(** ** [hashlib.sha256]: FIPS 180-4 on byte strings *)
(* ===================================================================== *)

Module SHA256.

Definition mask32 : Z := 4294967295.
Definition add32 (x y : Z) : Z := Z.land (x + y) mask32.
Definition rotr (n x : Z) : Z :=
  Z.lor (Z.shiftr x n) (Z.land (Z.shiftl x (32 - n)) mask32).
Definition not32 (x : Z) : Z := Z.lxor x mask32.

Definition Ch (x y z : Z) : Z := Z.lxor (Z.land x y) (Z.land (not32 x) z).
Definition Maj (x y z : Z) : Z :=
  Z.lxor (Z.lxor (Z.land x y) (Z.land x z)) (Z.land y z).
Definition Sigma0 (x : Z) : Z := Z.lxor (Z.lxor (rotr 2 x) (rotr 13 x)) (rotr 22 x).
Definition Sigma1 (x : Z) : Z := Z.lxor (Z.lxor (rotr 6 x) (rotr 11 x)) (rotr 25 x).
Definition sigma0 (x : Z) : Z := Z.lxor (Z.lxor (rotr 7 x) (rotr 18 x)) (Z.shiftr x 3).
Definition sigma1 (x : Z) : Z := Z.lxor (Z.lxor (rotr 17 x) (rotr 19 x)) (Z.shiftr x 10).

(** The first primes, by trial division. *)
Definition is_prime (n : Z) : bool :=
  forallb (fun d => negb (n mod Z.of_nat d =? 0) || (n <=? Z.of_nat d)) (seq 2 18).

Definition primes : list Z :=
  Eval vm_compute in filter is_prime (map Z.of_nat (seq 2 310)).

(** The largest [r] below [2 ^ bits] with [r ^ 3 <= n]. *)
Fixpoint cube_root (bits : nat) (n r : Z) : Z :=
  match bits with
  | O => r
  | S b =>
      let r' := r + 2 ^ Z.of_nat b in
      cube_root b n (if r' * r' * r' <=? n then r' else r)
  end.

(** The round constants: the first 32 bits of the fractional parts of the
    cube roots of the first 64 primes. *)
Definition K : list Z :=
  Eval vm_compute in
    map (fun p => Z.land (cube_root 36 (p * 2 ^ 96) 0) mask32) (firstn 64 primes).

Record state := State { ha : Z; hb : Z; hc : Z; hd : Z; he : Z; hf : Z; hg : Z; hh : Z }.

(** The initial hash value: the first 32 bits of the fractional parts of the
    square roots of the first 8 primes. *)
Definition frac_sqrt (p : Z) : Z := Z.land (Z.sqrt (p * 2 ^ 64)) mask32.

Definition H0 : state :=
  Eval vm_compute in
    State (frac_sqrt 2) (frac_sqrt 3) (frac_sqrt 5) (frac_sqrt 7)
          (frac_sqrt 11) (frac_sqrt 13) (frac_sqrt 17) (frac_sqrt 19).

(** The padded message: the bytes, 0x80, zeros up to 56 modulo 64, and the
    bit length as a 64-bit big-endian integer. *)
Definition be_bytes (n : nat) (z : Z) : list Z :=
  map (fun i => Z.land (Z.shiftr z (8 * Z.of_nat i)) 255) (rev (seq 0 n)).

Definition pad (msg : list Z) : list Z :=
  let l := Z.of_nat (length msg) in
  let k := Z.to_nat ((55 - l) mod 64) in
  msg ++ [128] ++ repeat 0 k ++ be_bytes 8 (8 * l).

Fixpoint words (fuel : nat) (bytes : list Z) : list Z :=
  match fuel, bytes with
  | S f, b0 :: b1 :: b2 :: b3 :: rest =>
      (b0 * 16777216 + b1 * 65536 + b2 * 256 + b3) :: words f rest
  | _, _ => []
  end.

(** The message schedule, most recent word first. *)
Fixpoint schedule (n : nat) (w_rev : list Z) : list Z :=
  match n with
  | O => w_rev
  | S n' =>
      let w := add32 (add32 (sigma1 (nth 1 w_rev 0)) (nth 6 w_rev 0))
                     (add32 (sigma0 (nth 14 w_rev 0)) (nth 15 w_rev 0)) in
      schedule n' (w :: w_rev)
  end.

Definition round (s : state) (kw : Z * Z) : state :=
  let t1 := add32 (add32 (add32 (hh s) (Sigma1 (he s))) (Ch (he s) (hf s) (hg s)))
                  (add32 (fst kw) (snd kw)) in
  let t2 := add32 (Sigma0 (ha s)) (Maj (ha s) (hb s) (hc s)) in
  State (add32 t1 t2) (ha s) (hb s) (hc s) (add32 (hd s) t1) (he s) (hf s) (hg s).

Definition compress (h : state) (block : list Z) : state :=
  let w := rev (schedule 48 (rev block)) in
  let s := fold_left round (combine K w) h in
  State (add32 (ha h) (ha s)) (add32 (hb h) (hb s)) (add32 (hc h) (hc s))
        (add32 (hd h) (hd s)) (add32 (he h) (he s)) (add32 (hf h) (hf s))
        (add32 (hg h) (hg s)) (add32 (hh h) (hh s)).

Fixpoint blocks (fuel : nat) (h : state) (ws : list Z) : state :=
  match fuel with
  | O => h
  | S f =>
      match ws with
      | [] => h
      | _ => blocks f (compress h (firstn 16 ws)) (skipn 16 ws)
      end
  end.

Definition digest (msg : string) : state :=
  let bytes := pad (map Py.code (Py.chars msg)) in
  let ws := words (length bytes) bytes in
  blocks (length ws) H0 ws.

(** [hashlib.sha256(data).hexdigest()] *)
Definition hexdigest (msg : string) : string :=
  let s := digest msg in
  Py.of_chars
    (Py.hex_fixed 8 (ha s) ++ Py.hex_fixed 8 (hb s) ++ Py.hex_fixed 8 (hc s) ++
     Py.hex_fixed 8 (hd s) ++ Py.hex_fixed 8 (he s) ++ Py.hex_fixed 8 (hf s) ++
     Py.hex_fixed 8 (hg s) ++ Py.hex_fixed 8 (hh s)).

End SHA256.




(* ===================================================================== *)
(** ** [datetime] and [uuid] renderings *)
(* ===================================================================== *)

Module Datetime.

Definition microsecond : Z := 1.
Definition second : Z := 1000000.
Definition hours (n : Z) : Z := n * 3600 * second.
Definition days (n : Z) : Z := n * 86400 * second.

(** [timedelta.total_seconds()] truncated by [int(...)]. *)
Definition total_seconds_int (delta : Z) : Z := Z.quot delta second.

(** [calendar.timegm(dt.utctimetuple())]: whole seconds since the epoch, the
    microseconds dropped. *)
Definition timegm (dt : Z) : Z := dt / second.

(** Proleptic Gregorian date of a day number counted from 1970-01-01. *)
Definition civil_from_days (d : Z) : Z * Z * Z :=
  let z := d + 719468 in
  let era := z / 146097 in
  let doe := z - era * 146097 in
  let yoe := (doe - doe / 1460 + doe / 36524 - doe / 146096) / 365 in
  let doy := doe - (365 * yoe + yoe / 4 - yoe / 100) in
  let mp := (5 * doy + 2) / 153 in
  let day := doy - (153 * mp + 2) / 5 + 1 in
  let month := if mp <? 10 then mp + 3 else mp - 9 in
  let year := yoe + era * 400 + (if month <=? 2 then 1 else 0) in
  (year, month, day).

(** [dt.isoformat()] of an aware UTC datetime:
    [YYYY-MM-DDTHH:MM:SS[.ffffff]+00:00]. *)
Definition isoformat (dt : Z) : string :=
  let secs := dt / second in
  let us := dt mod second in
  let '(y, m, d) := civil_from_days (secs / 86400) in
  let sod := secs mod 86400 in
  Py.of_chars
    (Py.dec_fixed 4 y ++ ["-"%char] ++ Py.dec_fixed 2 m ++ ["-"%char] ++
     Py.dec_fixed 2 d ++ ["T"%char] ++ Py.dec_fixed 2 (sod / 3600) ++ [":"%char] ++
     Py.dec_fixed 2 ((sod / 60) mod 60) ++ [":"%char] ++ Py.dec_fixed 2 (sod mod 60) ++
     (if us =? 0 then [] else "."%char :: Py.dec_fixed 6 us))
  +:+ "+00:00".

End Datetime.

Module Uuid.

(** [str(u)] of a [uuid.UUID] whose 128-bit integer value is [u]:
    32 lower-case hexadecimal digits grouped 8-4-4-4-12. *)
Definition str (u : N) : string :=
  let h := Py.hex_fixed 32 (Z.of_N u) in
  Py.of_chars
    (firstn 8 h ++ ["-"%char] ++ firstn 4 (skipn 8 h) ++ ["-"%char] ++
     firstn 4 (skipn 12 h) ++ ["-"%char] ++ firstn 4 (skipn 16 h) ++ ["-"%char] ++
     skipn 20 h).

Definition hex_value (c : ascii) : option Z :=
  let n := Py.code c in
  if Py.is_digit c then Some (n - 48)
  else if (97 <=? n) && (n <=? 102) then Some (n - 87)
  else if (65 <=? n) && (n <=? 70) then Some (n - 55)
  else None.

(** The digits that [int(_, 16)] reads: hexadecimal digits with single
    underscores between them, none at the end. *)
Fixpoint digits16 (acc : Z) (after_underscore : bool) (l : list ascii) : option Z :=
  match l with
  | [] => if after_underscore then None else Some acc
  | c :: l' =>
      if bool_decide (c = "_"%char)
      then if after_underscore then None else digits16 acc true l'
      else
        match hex_value c with
        | Some d => digits16 (16 * acc + d) false l'
        | None => None
        end
  end.

(** [int(s, 16)]: white space at both ends, a sign, a [0x] or [0X] prefix
    and one underscore after it are allowed before the digits; [None]
    stands for [ValueError]. *)
Definition int16 (l : list ascii) : option Z :=
  let l := Py.int_strip l in
  let (negative, l) :=
    match l with
    | c :: l' =>
        if bool_decide (c = "+"%char) then (false, l')
        else if bool_decide (c = "-"%char) then (true, l')
        else (false, l)
    | [] => (false, l)
    end in
  let l :=
    match l with
    | z :: x :: l' =>
        if bool_decide (z = "0"%char)
           && (bool_decide (x = "x"%char) || bool_decide (x = "X"%char))
        then match l' with
             | u :: l'' => if bool_decide (u = "_"%char) then l'' else l'
             | [] => l'
             end
        else l
    | _ => l
    end in
  match l with
  | [] => None
  | c :: _ =>
      if bool_decide (c = "_"%char) then None
      else (fun v => if negative then - v else v) <$> digits16 0 false l
  end.

Fixpoint strip_prefix (p l : list ascii) : option (list ascii) :=
  match p, l with
  | [], _ => Some l
  | a :: p', b :: l' => if bool_decide (a = b) then strip_prefix p' l' else None
  | _ :: _, [] => None
  end.

(** [s.replace(old, "")] for a non-empty [old]. *)
Fixpoint remove_all (fuel : nat) (old l : list ascii) : list ascii :=
  match fuel with
  | O => l
  | S f =>
      match strip_prefix old l with
      | Some rest => remove_all f old rest
      | None =>
          match l with
          | [] => []
          | c :: l' => c :: remove_all f old l'
          end
      end
  end.

Fixpoint lstrip_braces (l : list ascii) : list ascii :=
  match l with
  | c :: l' =>
      if bool_decide (c = "{"%char) || bool_decide (c = "}"%char)
      then lstrip_braces l' else l
  | [] => []
  end.

(** [uuid.UUID(hex=s)] as the model field's [to_python] calls it: the
    [urn:] and [uuid:] markers, surrounding braces and hyphens are dropped,
    32 characters must remain, and [int(_, 16)] reads them; the value must
    be a 128-bit one.  [None] stands for [ValueError]. *)
Definition of_hex (s : string) : option N :=
  let l := Py.chars s in
  let l := remove_all (S (length l)) (Py.chars "urn:") l in
  let l := remove_all (S (length l)) (Py.chars "uuid:") l in
  let l := rev (lstrip_braces (rev (lstrip_braces l))) in
  let l := filter (fun c => negb (bool_decide (c = "-"%char))) l in
  if bool_decide (length l = 32%nat)
  then
    match int16 l with
    | Some v => if (0 <=? v) && (v <? 2 ^ 128) then Some (Z.to_N v) else None
    | None => None
    end
  else None.

End Uuid.

(* ===================================================================== *)
(** ** Exceptions and results *)
(* ===================================================================== *)

(** The exception classes of PyJWT that [jwt.decode] raises.  All of them
    are subclasses of [jwt.InvalidTokenError]. *)
Inductive jwt_exn :=
| ExpiredSignatureError (msg : string)
| ImmatureSignatureError (msg : string)
| InvalidIssuedAtError (msg : string)
| InvalidAudienceError (msg : string)
| InvalidSubjectError (msg : string)
| InvalidJTIError (msg : string)
| InvalidAlgorithmError (msg : string)
| InvalidSignatureError (msg : string)
| DecodeError (msg : string).

Inductive exn :=
| AuthenticationError (msg : string)     (* auth_service.py *)
| TokenError (msg : string)              (* auth_service.py *)
| ValidationError (messages : list string) (* django.core.exceptions *)
| DoesNotExist                            (* User.DoesNotExist *)
| IntegrityError (msg : string)           (* django.db *)
| DataError (msg : string)                (* django.db *)
| DatabaseError (msg : string)            (* django.db *)
| ValueError (msg : string)
| TypeError (msg : string)
| KeyError (key : string)
| JwtError (e : jwt_exn).

Inductive result (A : Type) : Type :=
| Ok (a : A)
| Raise (e : exn).
Arguments Ok {A} a.
Arguments Raise {A} e.

#[global] Instance result_ret : MRet result := fun A a => Ok a.
#[global] Instance result_bind : MBind result := fun A B f m =>
  match m with
  | Ok a => f a
  | Raise e => Raise e
  end.

Definition jwt_str (e : jwt_exn) : string :=
  match e with
  | ExpiredSignatureError m | ImmatureSignatureError m | InvalidIssuedAtError m
  | InvalidAudienceError m | InvalidSubjectError m | InvalidJTIError m
  | InvalidAlgorithmError m | InvalidSignatureError m | DecodeError m => m
  end.

(** [repr(s)] of a string without quotes or backslashes. *)
Definition repr_str (s : string) : string := "'" +:+ s +:+ "'".

Fixpoint join (sep : string) (l : list string) : string :=
  match l with
  | [] => ""
  | [s] => s
  | s :: l' => s +:+ sep +:+ join sep l'
  end.

(** [str(e)] *)
Definition exn_str (e : exn) : string :=
  match e with
  | AuthenticationError m | TokenError m | IntegrityError m | DataError m
  | DatabaseError m | ValueError m | TypeError m => m
  | ValidationError ms => "[" +:+ join ", " (map repr_str ms) +:+ "]"
  | DoesNotExist => "User matching query does not exist."
  | KeyError k => repr_str k
  | JwtError e => jwt_str e
  end.

(* ===================================================================== *)
(** ** The user aggregate: [apps/identity/domain/models/user.py] *)
(* ===================================================================== *)

Module User.

(** A row of [identity_user], which is also the in-memory model instance.
    [password] holds the encoded hash. *)
Record t := mk {
  id : N;
  password : string;
  email : string;
  email_verified : bool;
  username : string;
  first_name : string;
  last_name : string;
  avatar_url : option string;
  is_active : bool;
  is_staff : bool;
  is_superuser : bool;
  created_at : Z;
  updated_at : Z;
  last_login_ip : option string
}.

#[global] Instance eq_dec : EqDecision t.
Proof. solve_decision. Defined.

(** The columns that the program names in [update_fields]. *)
Inductive field :=
| f_password | f_email_verified | f_first_name | f_last_name | f_avatar_url
| f_updated_at | f_last_login_ip.

#[global] Instance field_eq_dec : EqDecision field.
Proof. solve_decision. Defined.

(** Attribute assignments on an instance. *)
Definition set_password_hash (h : string) (u : t) : t :=
  mk (id u) h (email u) (email_verified u) (username u) (first_name u)
     (last_name u) (avatar_url u) (is_active u) (is_staff u) (is_superuser u)
     (created_at u) (updated_at u) (last_login_ip u).
Definition set_email (s : string) (u : t) : t :=
  mk (id u) (password u) s (email_verified u) (username u) (first_name u)
     (last_name u) (avatar_url u) (is_active u) (is_staff u) (is_superuser u)
     (created_at u) (updated_at u) (last_login_ip u).
Definition set_username (s : string) (u : t) : t :=
  mk (id u) (password u) (email u) (email_verified u) s (first_name u)
     (last_name u) (avatar_url u) (is_active u) (is_staff u) (is_superuser u)
     (created_at u) (updated_at u) (last_login_ip u).
Definition set_email_verified (b : bool) (u : t) : t :=
  mk (id u) (password u) (email u) b (username u) (first_name u)
     (last_name u) (avatar_url u) (is_active u) (is_staff u) (is_superuser u)
     (created_at u) (updated_at u) (last_login_ip u).
Definition set_first_name (s : string) (u : t) : t :=
  mk (id u) (password u) (email u) (email_verified u) (username u) s
     (last_name u) (avatar_url u) (is_active u) (is_staff u) (is_superuser u)
     (created_at u) (updated_at u) (last_login_ip u).
Definition set_last_name (s : string) (u : t) : t :=
  mk (id u) (password u) (email u) (email_verified u) (username u) (first_name u)
     s (avatar_url u) (is_active u) (is_staff u) (is_superuser u)
     (created_at u) (updated_at u) (last_login_ip u).
Definition set_avatar_url (a : option string) (u : t) : t :=
  mk (id u) (password u) (email u) (email_verified u) (username u) (first_name u)
     (last_name u) a (is_active u) (is_staff u) (is_superuser u)
     (created_at u) (updated_at u) (last_login_ip u).
Definition set_is_active (b : bool) (u : t) : t :=
  mk (id u) (password u) (email u) (email_verified u) (username u) (first_name u)
     (last_name u) (avatar_url u) b (is_staff u) (is_superuser u)
     (created_at u) (updated_at u) (last_login_ip u).
Definition set_is_staff (b : bool) (u : t) : t :=
  mk (id u) (password u) (email u) (email_verified u) (username u) (first_name u)
     (last_name u) (avatar_url u) (is_active u) b (is_superuser u)
     (created_at u) (updated_at u) (last_login_ip u).
Definition set_is_superuser (b : bool) (u : t) : t :=
  mk (id u) (password u) (email u) (email_verified u) (username u) (first_name u)
     (last_name u) (avatar_url u) (is_active u) (is_staff u) b
     (created_at u) (updated_at u) (last_login_ip u).
Definition set_created_at (dt : Z) (u : t) : t :=
  mk (id u) (password u) (email u) (email_verified u) (username u) (first_name u)
     (last_name u) (avatar_url u) (is_active u) (is_staff u) (is_superuser u)
     dt (updated_at u) (last_login_ip u).
Definition set_updated_at (dt : Z) (u : t) : t :=
  mk (id u) (password u) (email u) (email_verified u) (username u) (first_name u)
     (last_name u) (avatar_url u) (is_active u) (is_staff u) (is_superuser u)
     (created_at u) dt (last_login_ip u).
Definition set_last_login_ip (ip : option string) (u : t) : t :=
  mk (id u) (password u) (email u) (email_verified u) (username u) (first_name u)
     (last_name u) (avatar_url u) (is_active u) (is_staff u) (is_superuser u)
     (created_at u) (updated_at u) ip.

(** [UPDATE ... SET column = obj.column]: one column of [obj] written to [row]. *)
Definition assign (obj row : t) (f : field) : t :=
  match f with
  | f_password => set_password_hash (password obj) row
  | f_email_verified => set_email_verified (email_verified obj) row
  | f_first_name => set_first_name (first_name obj) row
  | f_last_name => set_last_name (last_name obj) row
  | f_avatar_url => set_avatar_url (avatar_url obj) row
  | f_updated_at => set_updated_at (updated_at obj) row
  | f_last_login_ip => set_last_login_ip (last_login_ip obj) row
  end.

End User.

(** The table [identity_user]. *)
Abbreviation table := (list User.t).

(** A JSON value under a claim of a token: the strings, booleans and
    integers that the program writes. *)
Inductive json :=
| JStr (s : string)
| JBool (b : bool)
| JInt (z : Z).

#[global] Instance json_eq_dec : EqDecision json.
Proof. solve_decision. Defined.

(** ** The libraries behind the program

    [make_password] and [check_password] are Django's password hashers (the
    salt that [make_password] draws is an argument, [check_password raw
    encoded] is the verdict of [hashers.check_password] without a setter);
    [must_update encoded] is what [hashers.verify_password] reports beside
    the verdict: the hash was made by another hasher than the preferred one
    or with outdated parameters; [form_invalid obj] holds when the fields of
    the admin's change form refuse the values that [obj] carries (a required
    field left empty, a text too long, a malformed URL); [common_password] is
    membership in the list of [CommonPasswordValidator]; [jws_sign alg key]
    is the signature PyJWT computes over the claims with the algorithm named
    in the header ([HS256], an HMAC with SHA-256, in this program);
    [column_error] is PostgreSQL's check of a row against the column types
    ([varchar(n)] lengths, [inet] syntax), [None] when the row is storable. *)
Class Framework := {
  make_password : string -> string -> string;
  check_password : string -> string -> bool;
  must_update : string -> bool;
  form_invalid : User.t -> bool;
  common_password : string -> bool;
  jws_sign : string -> string -> gmap string json -> string;
  column_error : User.t -> option string
}.

(* ===================================================================== *)
(** ** The object-relational layer: queries and [Model.save] *)
(* ===================================================================== *)

Module Db.
Section WithFramework.
Context `{Framework}.

Definition quote : string := String (Ascii.ascii_of_nat 34) "".

Definition unique_violation (constraint : string) : exn :=
  IntegrityError
    ("duplicate key value violates unique constraint " +:+ quote +:+ constraint +:+ quote).

(** [UUIDField.to_python]: the lookup value turned into a UUID (the message
    is written with straight quotes). *)
Definition to_uuid (v : json) : result N :=
  match v with
  | JStr s =>
      match Uuid.of_hex s with
      | Some u => Ok u
      | None => Raise (ValidationError [quote +:+ s +:+ quote +:+ " is not a valid UUID."])
      end
  | JInt z =>
      if (0 <=? z) && (z <? 2 ^ 128) then Ok (Z.to_N z)
      else Raise (ValidationError ["The value is not a valid UUID."])
  | JBool b => Ok (if b then 1%N else 0%N)
  end.

(** [User.objects.get(id=v)] *)
Definition get (db : table) (v : json) : result User.t :=
  u ← to_uuid v;
  match find (fun row => N.eqb (User.id row) u) db with
  | Some row => Ok row
  | None => Raise DoesNotExist
  end.

(** [User.objects.filter(email=email).exists()] *)
Definition exists_email (db : table) (email : string) : bool :=
  existsb (fun row => String.eqb (User.email row) email) db.

(** [UserManager.get_by_natural_key]: the row whose [USERNAME_FIELD], the
    email, is the given text. *)
Definition get_by_natural_key (db : table) (username : string) : result User.t :=
  match find (fun row => String.eqb (User.email row) username) db with
  | Some row => Ok row
  | None => Raise DoesNotExist
  end.

(** [obj.save()] of an instance that is not yet stored: an INSERT, checked
    against the column types and the three unique indexes. *)
Definition insert (db : table) (obj : User.t) : result table :=
  match column_error obj with
  | Some m => Raise (DataError m)
  | None =>
      if existsb (fun row => N.eqb (User.id row) (User.id obj)) db
      then Raise (unique_violation "identity_user_pkey")
      else if existsb (fun row => String.eqb (User.email row) (User.email obj)) db
      then Raise (unique_violation "identity_user_email_key")
      else if existsb (fun row => String.eqb (User.username row) (User.username obj)) db
      then Raise (unique_violation "identity_user_username_key")
      else Ok (db ++ [obj])
  end.

(** The row after [UPDATE ... SET fields] from [obj]. *)
Definition updated_row (obj : User.t) (fields : list User.field) (row : User.t) : User.t :=
  fold_left (User.assign obj) fields row.

(** [obj.save(update_fields=fields)] at time [now].  The [auto_now] column
    [updated_at] is refreshed on the instance when it is among [fields];
    then the listed columns of the row with the instance's primary key are
    overwritten.  Returns the instance and the table. *)
Definition save (db : table) (obj : User.t) (fields : list User.field) (now : Z)
  : result (User.t * table) :=
  let obj := if bool_decide (User.f_updated_at ∈ fields)
             then User.set_updated_at now obj else obj in
  match find (fun row => N.eqb (User.id row) (User.id obj)) db with
  | None => Raise (DatabaseError "Save with update_fields did not affect any rows.")
  | Some row =>
      match column_error (updated_row obj fields row) with
      | Some m => Raise (DataError m)
      | None =>
          Ok (obj,
              map (fun row => if N.eqb (User.id row) (User.id obj)
                              then updated_row obj fields row else row) db)
      end
  end.

(** [obj.save()] of an instance that was read from the table: the UPDATE of
    every column of the row under the instance's key, checked against the
    column types and the unique indexes on [email] and [username]. *)
Definition update_all (db : table) (obj : User.t) : result table :=
  match column_error obj with
  | Some m => Raise (DataError m)
  | None =>
      if existsb (fun row => negb (N.eqb (User.id row) (User.id obj))
                             && String.eqb (User.email row) (User.email obj)) db
      then Raise (unique_violation "identity_user_email_key")
      else if existsb (fun row => negb (N.eqb (User.id row) (User.id obj))
                                  && String.eqb (User.username row) (User.username obj)) db
      then Raise (unique_violation "identity_user_username_key")
      else Ok (map (fun row => if N.eqb (User.id row) (User.id obj) then obj else row) db)
  end.

(** [queryset.update(...)] over the rows selected by [sel]. *)
Definition update (db : table) (sel : User.t -> bool) (f : User.t -> User.t) : table :=
  map (fun row => if sel row then f row else row) db.

End WithFramework.
End Db.

Module UserQuerySet.

(** [active]: [filter(is_active=True)] *)
Definition active (qs : table) : table := filter (fun u => User.is_active u) qs.

(** [by_email]: [filter(email__iexact=email)] *)
Definition by_email (qs : table) (email : string) : table :=
  filter (fun u => String.eqb (Py.lower (User.email u)) (Py.lower email)) qs.

(** [verified]: [filter(email_verified=True)] *)
Definition verified (qs : table) : table := filter (fun u => User.email_verified u) qs.

End UserQuerySet.

(** Keyword arguments forwarded to the model constructor through
    [**extra_fields]: a field of the model with its value, or a name that is
    no field of [User]. *)
Inductive kwarg :=
| kw_username (v : string)
| kw_email_verified (v : bool)
| kw_is_active (v : bool)
| kw_is_staff (v : bool)
| kw_is_superuser (v : bool)
| kw_avatar_url (v : option string)
| kw_unknown (name : string).

Module UserModel.
Section WithFramework.
Context `{Framework}.

(** [AbstractBaseUser.set_password]; [salt] is the salt the hasher draws. *)
Definition set_password (salt raw_password : string) (self : User.t) : User.t :=
  User.set_password_hash (make_password salt raw_password) self.

(** [AbstractBaseUser.check_password]: the verdict of the hasher on the
    stored hash.  It hands the hasher a setter: when the password is right
    and the hash is outdated, the password is hashed again ([salt] is the
    salt drawn) and the instance saved with [update_fields=["password"]].
    Returns the verdict, the instance and the table. *)
Definition check_password (db : table) (raw_password : string) (self : User.t)
    (salt : string) (now : Z) : result (bool * User.t * table) :=
  let is_correct := check_password raw_password (User.password self) in
  if is_correct && must_update (User.password self)
  then
    match Db.save db (set_password salt raw_password self) [User.f_password] now with
    | Ok (self, db) => Ok (true, self, db)
    | Raise e => Raise e
    end
  else Ok (is_correct, self, db).

(** [AbstractUser.get_full_name] *)
Definition get_full_name (self : User.t) : string :=
  Py.strip (User.first_name self +:+ " " +:+ User.last_name self).

Definition full_name (self : User.t) : string :=
  let n := get_full_name self in
  if Py.falsy n then User.username self else n.

Definition verify_email (db : table) (self : User.t) (now : Z)
  : result (User.t * table) :=
  let self := User.set_email_verified true self in
  Db.save db self [User.f_email_verified; User.f_updated_at] now.

Definition update_last_login_ip (db : table) (self : User.t) (ip_address : string)
    (now : Z) : result (User.t * table) :=
  let self := User.set_last_login_ip (Some ip_address) self in
  Db.save db self [User.f_last_login_ip; User.f_updated_at] now.

Definition can_access_admin (self : User.t) : bool :=
  User.is_active self && User.is_staff self.

(** [User(email=..., username=..., first_name=..., last_name=..., **extra)]:
    the field defaults, then the keyword arguments.  [fresh_id] is the value
    that the [uuid.uuid4] default draws. *)
Definition is_kw_username (k : kwarg) : bool :=
  match k with kw_username _ => true | _ => false end.

Definition apply_kwarg (u : result User.t) (k : kwarg) : result User.t :=
  u ← u;
  match k with
  | kw_username v => Ok u
  | kw_email_verified v => Ok (User.set_email_verified v u)
  | kw_is_active v => Ok (User.set_is_active v u)
  | kw_is_staff v => Ok (User.set_is_staff v u)
  | kw_is_superuser v => Ok (User.set_is_superuser v u)
  | kw_avatar_url v => Ok (User.set_avatar_url v u)
  | kw_unknown name =>
      Raise (TypeError ("User() got unexpected keyword arguments: '" +:+ name +:+ "'"))
  end.

(** A [username] among [extra_fields] collides with the [username=email]
    that [create_user_with_profile] passes itself: the call raises before the
    constructor runs. *)
Definition init (fresh_id : N) (email username first_name last_name : string)
    (extra_fields : list kwarg) : result User.t :=
  if existsb is_kw_username extra_fields
  then Raise (TypeError "User() got multiple values for keyword argument 'username'")
  else
    fold_left apply_kwarg extra_fields
      (Ok (User.mk fresh_id "" email false username first_name last_name None
             true false false 0 0 None)).

End WithFramework.
End UserModel.

Module UserManager.
Section WithFramework.
Context `{Framework}.

Definition get_queryset (db : table) : table := db.
Definition active (db : table) : table := UserQuerySet.active (get_queryset db).
Definition by_email (db : table) (email : string) : table :=
  UserQuerySet.by_email (get_queryset db) email.

(** [s.rsplit("@", 1)]: the text before and after the last [@]. *)
Fixpoint rsplit_at (l : list ascii) : option (list ascii * list ascii) :=
  match l with
  | [] => None
  | c :: l' =>
      match rsplit_at l' with
      | Some (name, domain) => Some (c :: name, domain)
      | None => if bool_decide (c = "@"%char) then Some ([], l') else None
      end
  end.

(** [BaseUserManager.normalize_email]: the domain part lower-cased. *)
Definition normalize_email (email : string) : string :=
  match rsplit_at (Py.chars (Py.strip email)) with
  | Some (email_name, domain_part) =>
      Py.of_chars email_name +:+ "@" +:+ Py.lower (Py.of_chars domain_part)
  | None => email
  end.

(** [fresh_id] and [salt] are what [uuid4] and the hasher draw from the
    environment.  The INSERT of [user.save] reads the clock once for each
    dated column, in the order of the columns: [now] for [created_at]
    ([auto_now_add]), then [now_updated] for [updated_at] ([auto_now]). *)
Definition create_user_with_profile (db : table) (email password first_name last_name : string)
    (extra_fields : list kwarg) (fresh_id : N) (salt : string) (now now_updated : Z)
  : result (User.t * table) :=
  if Py.falsy email then Raise (ValueError "Users must have an email address")
  else
    let email := normalize_email email in
    user ← UserModel.init fresh_id email email first_name last_name extra_fields;
    let user := UserModel.set_password salt password user in
    let user := User.set_updated_at now_updated (User.set_created_at now user) in
    db' ← Db.insert db user;
    Ok (user, db').

End WithFramework.
End UserManager.

(* ===================================================================== *)
(** ** [django.contrib.auth.password_validation] with the validators of
       [AUTH_PASSWORD_VALIDATORS] in [core/settings/base.py] *)
(* ===================================================================== *)

Module PasswordValidation.
Section WithFramework.
Context `{Framework}.

(** [re.split(r"\W+", s)]: the pieces between maximal runs of non-word
    characters; a separator at either end leaves an empty piece there. *)
Fixpoint split_nonword (l cur : list ascii) (in_sep : bool) : list string :=
  match l with
  | [] => [Py.of_chars (rev cur)]
  | c :: l' =>
      if Py.is_word c then split_nonword l' (c :: cur) false
      else if in_sep then split_nonword l' cur true
      else Py.of_chars (rev cur) :: split_nonword l' [] true
  end.

Fixpoint remove_one (c : ascii) (l : list ascii) : option (list ascii) :=
  match l with
  | [] => None
  | d :: l' =>
      if bool_decide (d = c) then Some l'
      else cons d <$> remove_one c l'
  end.

(** The match count of [SequenceMatcher.quick_ratio]: the characters of [a]
    that still have an unused occurrence in [b]. *)
Fixpoint quick_matches (a avail : list ascii) : Z :=
  match a with
  | [] => 0
  | c :: a' =>
      match remove_one c avail with
      | Some avail' => 1 + quick_matches a' avail'
      | None => quick_matches a' avail
      end
  end.

(** [SequenceMatcher(a=a, b=b).quick_ratio() >= 0.7], that is
    [2 * matches / (len a + len b) >= 7 / 10], the ratio of two empty
    strings being 1. *)
Definition quick_ratio_ge_max_similarity (a b : string) : bool :=
  let total := Py.len a + Py.len b in
  if total =? 0 then true
  else 7 * total <=? 20 * quick_matches (Py.chars a) (Py.chars b).

(** [exceeds_maximum_length_ratio(password, 0.7, value)] *)
Definition exceeds_maximum_length_ratio (password value : string) : bool :=
  let pwd_len := Py.len password in
  let value_len := Py.len value in
  (10 * value_len <=? pwd_len) && (20 * value_len <? 7 * pwd_len).

Definition similar_to_value (password value : string) : bool :=
  if Py.falsy value then false
  else
    let value_lower := Py.lower value in
    let value_parts := split_nonword (Py.chars value_lower) [] false ++ [value_lower] in
    existsb (fun value_part =>
               negb (exceeds_maximum_length_ratio password value_part)
               && quick_ratio_ge_max_similarity password value_part)
            value_parts.

(** [UserAttributeSimilarityValidator.validate]: the attributes [username],
    [first_name], [last_name], [email] in this order; without a user the
    validator accepts. *)
Definition UserAttributeSimilarityValidator (password : string) (user : option User.t)
  : option string :=
  match user with
  | None => None
  | Some user =>
      let password := Py.lower password in
      let hit :=
        find (fun av => similar_to_value password (snd av))
             [("username", User.username user); ("first name", User.first_name user);
              ("last name", User.last_name user); ("email", User.email user)] in
      match hit with
      | Some (verbose_name, _) =>
          Some ("The password is too similar to the " +:+ verbose_name +:+ ".")
      | None => None
      end
  end.

Definition MinimumLengthValidator (password : string) : option string :=
  if Py.len password <? 8
  then Some "This password is too short. It must contain at least 8 characters."
  else None.

Definition CommonPasswordValidator (password : string) : option string :=
  if common_password (Py.strip (Py.lower password))
  then Some "This password is too common."
  else None.

Definition NumericPasswordValidator (password : string) : option string :=
  if Py.isdigit password then Some "This password is entirely numeric." else None.

(** [validate_password(password, user)]: every validator runs, the messages
    are collected, and one [ValidationError] carries them all. *)
Definition validate_password (password : string) (user : option User.t) : result unit :=
  let errors :=
    omap id [ UserAttributeSimilarityValidator password user;
              MinimumLengthValidator password;
              CommonPasswordValidator password;
              NumericPasswordValidator password ] in
  match errors with
  | [] => Ok tt
  | _ => Raise (ValidationError errors)
  end.

End WithFramework.
End PasswordValidation.

(* ===================================================================== *)
(** ** [django.contrib.auth.authenticate] with the default backend *)
(* ===================================================================== *)

Module Backend.
Section WithFramework.
Context `{Framework}.

(** [ModelBackend.user_can_authenticate]: inactive users are rejected. *)
Definition user_can_authenticate (user : User.t) : bool := User.is_active user.

(** [ModelBackend.authenticate(request, username, password)]:
    [user.check_password(password) and self.user_can_authenticate(user)],
    the password first.  Returns the user, if any, and the table, which the
    check may have written. *)
Definition ModelBackend_authenticate (db : table) (username password salt : string)
    (now : Z) : result (option User.t * table) :=
  match Db.get_by_natural_key db username with
  | Raise _ => Ok (None, db)
  | Ok user =>
      match UserModel.check_password db password user salt now with
      | Raise e => Raise e
      | Ok (is_correct, user, db) =>
          if is_correct && user_can_authenticate user
          then Ok (Some user, db) else Ok (None, db)
      end
  end.

(** [authenticate(username=..., password=...)]: the settings name no
    [AUTHENTICATION_BACKENDS], so the one backend is [ModelBackend]. *)
Definition authenticate (db : table) (username password salt : string) (now : Z)
  : result (option User.t * table) :=
  ModelBackend_authenticate db username password salt now.

End WithFramework.
End Backend.

(* ===================================================================== *)
(** ** The token codec: [jwt.encode] and [jwt.decode] of PyJWT *)
(* ===================================================================== *)

(** The values the program puts in a payload dictionary. *)
Inductive pyvalue :=
| PStr (s : string)
| PBool (b : bool)
| PInt (z : Z)
| PDatetime (dt : Z).

Module Jwt.

(** A token string is either the compact serialisation of a header, a JSON
    object of claims and a signature, or text that does not parse as one;
    [why] is the message of the [DecodeError] PyJWT gives for it. *)
Record jws := Jws { alg : string; claims : gmap string json; signature : string }.

Inductive token :=
| Malformed (why : string)
| Compact (j : jws).

Section WithFramework.
Context `{Framework}.

Definition to_json (v : pyvalue) : option json :=
  match v with
  | PStr s => Some (JStr s)
  | PBool b => Some (JBool b)
  | PInt z => Some (JInt z)
  | PDatetime _ => None
  end.

(** A [datetime] under a registered time claim becomes its [timegm]. *)
Definition time_claim (k : string) (payload : gmap string pyvalue) : gmap string pyvalue :=
  match payload !! k with
  | Some (PDatetime dt) => <[k := PInt (Datetime.timegm dt)]> payload
  | _ => payload
  end.

Definition json_dumps (payload : gmap string pyvalue) : result (gmap string json) :=
  if bool_decide (map_Forall (fun _ v => is_Some (to_json v)) payload)
  then Ok (omap to_json payload)
  else Raise (TypeError "Object of type datetime is not JSON serializable").

(** [jwt.encode(payload, key, algorithm=algorithm)] *)
Definition encode (payload : gmap string pyvalue) (key algorithm : string) : result token :=
  let payload := time_claim "nbf" (time_claim "iat" (time_claim "exp" payload)) in
  match payload !! "iss" with
  | Some (PBool _) | Some (PInt _) | Some (PDatetime _) =>
      Raise (TypeError "Issuer (iss) must be a string.")
  | _ =>
      claims ← json_dumps payload;
      Ok (Compact (Jws algorithm claims (jws_sign algorithm key claims)))
  end.

(** The digits of [int(s)]: single underscores may separate digits. *)
Fixpoint digits (acc : Z) (after_digit : bool) (l : list ascii) : option Z :=
  match l with
  | [] => if after_digit then Some acc else None
  | c :: l' =>
      if Py.is_digit c then digits (10 * acc + (Py.code c - 48)) true l'
      else if bool_decide (c = "_"%char) && after_digit then digits acc false l'
      else None
  end.

(** [int(v)] of a decoded claim; [None] stands for [ValueError]. *)
Definition int (v : json) : option Z :=
  match v with
  | JInt z => Some z
  | JBool b => Some (if b then 1 else 0)
  | JStr s =>
      match Py.int_strip (Py.chars s) with
      | "-"%char :: l => Z.opp <$> digits 0 false l
      | "+"%char :: l => digits 0 false l
      | l => digits 0 false l
      end
  end.

(** Truthiness of a decoded claim. *)
Definition truthy (v : json) : bool :=
  match v with
  | JStr s => negb (Py.falsy s)
  | JBool b => b
  | JInt z => negb (z =? 0)
  end.

(** The claim checks of [jwt.decode]; [now] is the clock at the call, a
    claim holds whole seconds. *)
Definition validate_iat (payload : gmap string json) (now : Z) : result unit :=
  match payload !! "iat" with
  | None => Ok tt
  | Some v =>
      match int v with
      | None => Raise (JwtError (InvalidIssuedAtError "Issued At claim (iat) must be an integer."))
      | Some iat =>
          if now <? iat * Datetime.second
          then Raise (JwtError (ImmatureSignatureError "The token is not yet valid (iat)"))
          else Ok tt
      end
  end.

Definition validate_nbf (payload : gmap string json) (now : Z) : result unit :=
  match payload !! "nbf" with
  | None => Ok tt
  | Some v =>
      match int v with
      | None => Raise (JwtError (DecodeError "Not Before claim (nbf) must be an integer."))
      | Some nbf =>
          if now <? nbf * Datetime.second
          then Raise (JwtError (ImmatureSignatureError "The token is not yet valid (nbf)"))
          else Ok tt
      end
  end.

Definition validate_exp (payload : gmap string json) (now : Z) : result unit :=
  match payload !! "exp" with
  | None => Ok tt
  | Some v =>
      match int v with
      | None => Raise (JwtError (DecodeError "Expiration Time claim (exp) must be an integer."))
      | Some exp =>
          if exp * Datetime.second <=? now
          then Raise (JwtError (ExpiredSignatureError "Signature has expired"))
          else Ok tt
      end
  end.

(** No audience is passed to [decode]: a token that names one is refused. *)
Definition validate_aud (payload : gmap string json) : result unit :=
  match payload !! "aud" with
  | None => Ok tt
  | Some v =>
      if truthy v then Raise (JwtError (InvalidAudienceError "Invalid audience"))
      else Ok tt
  end.

(** No subject is passed to [decode]: a [sub] claim must be a string. *)
Definition validate_sub (payload : gmap string json) : result unit :=
  match payload !! "sub" with
  | None | Some (JStr _) => Ok tt
  | Some _ => Raise (JwtError (InvalidSubjectError "Subject must be a string"))
  end.

Definition validate_jti (payload : gmap string json) : result unit :=
  match payload !! "jti" with
  | None | Some (JStr _) => Ok tt
  | Some _ => Raise (JwtError (InvalidJTIError "JWT ID must be a string"))
  end.

(** No issuer is passed either, and the check of [iss] does nothing then. *)
Definition validate_claims (payload : gmap string json) (now : Z) : result unit :=
  _ ← validate_iat payload now;
  _ ← validate_nbf payload now;
  _ ← validate_exp payload now;
  _ ← validate_aud payload;
  _ ← validate_sub payload;
  validate_jti payload.

(** [jwt.decode(token, key, algorithms=algorithms)] at clock [now]: the
    header algorithm must be allowed, the signature must be the one the key
    gives, and the claims must pass the checks. *)
Definition decode (tok : token) (key : string) (algorithms : list string) (now : Z)
  : result (gmap string json) :=
  match tok with
  | Malformed why => Raise (JwtError (DecodeError why))
  | Compact j =>
      if negb (existsb (String.eqb (alg j)) algorithms)
      then Raise (JwtError (InvalidAlgorithmError "The specified alg value is not allowed"))
      else if negb (String.eqb (signature j) (jws_sign (alg j) key (claims j)))
      then Raise (JwtError (InvalidSignatureError "Signature verification failed"))
      else
        _ ← validate_claims (claims j) now;
        Ok (claims j)
  end.

End WithFramework.
End Jwt.

(* ===================================================================== *)
(** ** [apps/identity/domain/services/auth_service.py] *)
(* ===================================================================== *)

(** Values of the dictionaries that [create_tokens] and
    [refresh_access_token] return. *)
Inductive tokens_value :=
| TToken (tok : Jwt.token)
| TStr (s : string)
| TInt (z : Z).

Module AuthService.

Record t := {
  secret_key : string;
  algorithm : string;
  access_token_lifetime : Z;
  refresh_token_lifetime : Z
}.

(** The instance that [__init__] builds for the signing key of the settings. *)
Definition new (JWT_SECRET_KEY : string) : t :=
  {| secret_key := JWT_SECRET_KEY;
     algorithm := "HS256";
     access_token_lifetime := Datetime.hours 1;
     refresh_token_lifetime := Datetime.days 7 |}.

Definition __init__ (SECRET_KEY JWT_SECRET_KEY : string) : result t :=
  if Py.falsy SECRET_KEY
  then Raise (ValueError "SECRET_KEY setting is required for JWT operations")
  else Ok (new JWT_SECRET_KEY).

Section WithFramework.
Context `{Framework}.

(** [authenticate_user] over the [authenticate] it calls.  [salt] is the
    salt of a re-encoded hash, [now] the clock of the row update.  The
    outcome comes with the table as the call leaves it: the hash written by
    [authenticate] stays written when the call then fails. *)
Definition authenticate_user_with
    (authenticate : table -> string -> string -> string -> Z
                    -> result (option User.t * table))
    (self : t) (db : table) (email password : string) (ip_address : option string)
    (salt : string) (now : Z) : result User.t * table :=
  if Py.falsy email || Py.falsy password
  then (Raise (AuthenticationError "Email and password are required"), db)
  else
    let email := Py.strip (Py.lower email) in
    match authenticate db email password salt now with
    | Raise e => (Raise e, db)
    | Ok (None, db) => (Raise (AuthenticationError "Invalid email or password"), db)
    | Ok (Some user, db) =>
        if negb (User.is_active user)
        then (Raise (AuthenticationError "User account is deactivated"), db)
        else
          match ip_address with
          | Some ip =>
              if Py.falsy ip then (Ok user, db)
              else
                match UserModel.update_last_login_ip db user ip now with
                | Ok (user, db') => (Ok user, db')
                | Raise e => (Raise e, db)
                end
          | None => (Ok user, db)
          end
    end.

Definition authenticate_user : t -> table -> string -> string -> option string -> string
                               -> Z -> result User.t * table :=
  authenticate_user_with Backend.authenticate.

Definition _generate_token_id (self : t) (user_id : string) (timestamp : Z) : string :=
  let data := user_id +:+ ":" +:+ Datetime.isoformat timestamp +:+ ":" +:+ secret_key self in
  Py.prefix 16 (SHA256.hexdigest data).

(** [now] is the reading of [datetime.now(UTC)]. *)
Definition create_tokens (self : t) (user : User.t) (now : Z)
  : result (gmap string tokens_value) :=
  let access_payload : gmap string pyvalue :=
    list_to_map
      [ ("user_id", PStr (Uuid.str (User.id user)));
        ("email", PStr (User.email user));
        ("username", PStr (User.username user));
        ("is_staff", PBool (User.is_staff user));
        ("is_superuser", PBool (User.is_superuser user));
        ("email_verified", PBool (User.email_verified user));
        ("exp", PDatetime (now + access_token_lifetime self));
        ("iat", PDatetime now);
        ("type", PStr "access") ] in
  let refresh_payload : gmap string pyvalue :=
    list_to_map
      [ ("user_id", PStr (Uuid.str (User.id user)));
        ("email", PStr (User.email user));
        ("exp", PDatetime (now + refresh_token_lifetime self));
        ("iat", PDatetime now);
        ("type", PStr "refresh");
        ("jti", PStr (_generate_token_id self (Uuid.str (User.id user)) now)) ] in
  access_token ← Jwt.encode access_payload (secret_key self) (algorithm self);
  refresh_token ← Jwt.encode refresh_payload (secret_key self) (algorithm self);
  Ok (list_to_map
        [ ("access_token", TToken access_token);
          ("refresh_token", TToken refresh_token);
          ("token_type", TStr "Bearer");
          ("expires_in", TInt (Datetime.total_seconds_int (access_token_lifetime self))) ]).

(** [now] is the clock that [jwt.decode] reads. *)
Definition validate_access_token (self : t) (token : Jwt.token) (now : Z)
  : result (gmap string json) :=
  match Jwt.decode token (secret_key self) [algorithm self] now with
  | Ok payload =>
      if bool_decide (payload !! "type" ≠ Some (JStr "access"))
      then Raise (TokenError "Invalid token type")
      else Ok payload
  | Raise (JwtError (ExpiredSignatureError _)) => Raise (TokenError "Token has expired")
  | Raise (JwtError e) => Raise (TokenError ("Invalid token: " +:+ jwt_str e))
  | Raise e => Raise e
  end.

Definition validate_refresh_token (self : t) (token : Jwt.token) (now : Z)
  : result (gmap string json) :=
  match Jwt.decode token (secret_key self) [algorithm self] now with
  | Ok payload =>
      if bool_decide (payload !! "type" ≠ Some (JStr "refresh"))
      then Raise (TokenError "Invalid token type")
      else Ok payload
  | Raise (JwtError (ExpiredSignatureError _)) => Raise (TokenError "Refresh token has expired")
  | Raise (JwtError e) => Raise (TokenError ("Invalid refresh token: " +:+ jwt_str e))
  | Raise e => Raise e
  end.

(** [payload[key]] *)
Definition getitem (payload : gmap string json) (key : string) : result json :=
  match payload !! key with
  | Some v => Ok v
  | None => Raise (KeyError key)
  end.

(** [User.objects.get(id=payload["user_id"])] under
    [except User.DoesNotExist], then the activity check. *)
Definition load_active_user (db : table) (payload : gmap string json) : result User.t :=
  user_id ← getitem payload "user_id";
  user ← match Db.get db user_id with
         | Raise DoesNotExist => Raise (AuthenticationError "User not found")
         | r => r
         end;
  if negb (User.is_active user)
  then Raise (AuthenticationError "User account is deactivated")
  else Ok user.

(** [now_decode] is the clock read while the refresh token is validated,
    [now] the later reading of [datetime.now(UTC)] for the new token. *)
Definition refresh_access_token (self : t) (db : table) (refresh_token : Jwt.token)
    (now_decode now : Z) : result (gmap string tokens_value) :=
  payload ← validate_refresh_token self refresh_token now_decode;
  user ← load_active_user db payload;
  let access_payload : gmap string pyvalue :=
    list_to_map
      [ ("user_id", PStr (Uuid.str (User.id user)));
        ("email", PStr (User.email user));
        ("username", PStr (User.username user));
        ("is_staff", PBool (User.is_staff user));
        ("is_superuser", PBool (User.is_superuser user));
        ("email_verified", PBool (User.email_verified user));
        ("exp", PDatetime (now + access_token_lifetime self));
        ("iat", PDatetime now);
        ("type", PStr "access") ] in
  access_token ← Jwt.encode access_payload (secret_key self) (algorithm self);
  Ok (list_to_map
        [ ("access_token", TToken access_token);
          ("token_type", TStr "Bearer");
          ("expires_in", TInt (Datetime.total_seconds_int (access_token_lifetime self))) ]).

(** [fresh_id], [salt], [now] and [now_updated] are drawn by the model
    layer when the user is created. *)
Definition register_user (self : t) (db : table) (email password first_name last_name : string)
    (extra_fields : list kwarg) (fresh_id : N) (salt : string) (now now_updated : Z)
  : result (User.t * table) :=
  if Py.falsy email || Py.falsy password
  then Raise (ValidationError ["Email and password are required"])
  else
    let email := Py.strip (Py.lower email) in
    if Db.exists_email db email
    then Raise (ValidationError ["User with this email already exists"])
    else
      _ ← PasswordValidation.validate_password password None;
      match UserManager.create_user_with_profile db email password first_name last_name
              extra_fields fresh_id salt now now_updated with
      | Ok r => Ok r
      | Raise e => Raise (AuthenticationError ("Failed to create user: " +:+ exn_str e))
      end.

Definition get_user_from_token (self : t) (db : table) (token : Jwt.token) (now : Z)
  : result User.t :=
  payload ← validate_access_token self token now;
  load_active_user db payload.

End WithFramework.
End AuthService.

(* ===================================================================== *)
(** ** [apps/identity/api/auth.py] and [apps/identity/api/auth_endpoints.py] *)
(* ===================================================================== *)

Module Api.

(** The response schemas of [schemas.py]; [Detail] is the body the router
    itself sends when the bearer authentication returns nothing. *)
Inductive body :=
| ErrorResponse (error message : string) (details : option (string * list string))
| MessageResponse (message : string)
| AuthResponse (user : User.t) (tokens : gmap string tokens_value)
| TokenResponse (tokens : gmap string tokens_value)
| UserResponse (user : User.t)
| Detail (detail : string).

(** [s.split(",")[0]] *)
Fixpoint before_comma (l : list ascii) : list ascii :=
  match l with
  | [] => []
  | c :: l' => if bool_decide (c = ","%char) then [] else c :: before_comma l'
  end.

Definition headers_to_check : list string :=
  [ "HTTP_X_FORWARDED_FOR"; "HTTP_X_REAL_IP"; "HTTP_X_CLIENT_IP";
    "HTTP_CF_CONNECTING_IP"; "REMOTE_ADDR" ].

Fixpoint first_ip (META : gmap string string) (headers : list string) : option string :=
  match headers with
  | [] => None
  | header :: rest =>
      match META !! header with
      | Some ip =>
          if Py.falsy ip then first_ip META rest
          else
            let ip := if Py.contains_char ","%char ip
                      then Py.strip (Py.of_chars (before_comma (Py.chars ip)))
                      else ip in
            if negb (Py.falsy ip) && negb (String.eqb ip "unknown")
            then Some ip else first_ip META rest
      | None => first_ip META rest
      end
  end.

Definition get_client_ip (META : gmap string string) : string :=
  match first_ip META headers_to_check with
  | Some ip => ip
  | None => default "0.0.0.0" (META !! "REMOTE_ADDR")
  end.

Section WithFramework.
Context `{Framework}.
Variable auth_service : AuthService.t.

(** [JWTAuth.authenticate]: the user of the bearer token, [None] when the
    service raises one of its two exception classes. *)
Definition JWTAuth_authenticate (db : table) (token : Jwt.token) (now : Z)
  : result (option User.t) :=
  match AuthService.get_user_from_token auth_service db token now with
  | Ok user => Ok (Some user)
  | Raise (TokenError _) | Raise (AuthenticationError _) => Ok None
  | Raise e => Raise e
  end.

(** [salt] is the salt of a re-encoded hash, [now] the clock of the row
    update, [now_tokens] the later reading in [create_tokens]. *)
Definition login (db : table) (META : gmap string string) (email password salt : string)
    (now now_tokens : Z) : Z * body * table :=
  let client_ip := get_client_ip META in
  match AuthService.authenticate_user auth_service db email password (Some client_ip)
          salt now with
  | (Ok user, db') =>
      match AuthService.create_tokens auth_service user now_tokens with
      | Ok tokens => (200, AuthResponse user tokens, db')
      | Raise (AuthenticationError m) => (401, ErrorResponse "authentication_failed" m None, db')
      | Raise e => (400, ErrorResponse "invalid_request" (exn_str e) None, db')
      end
  | (Raise (AuthenticationError m), db') =>
      (401, ErrorResponse "authentication_failed" m None, db')
  | (Raise e, db') => (400, ErrorResponse "invalid_request" (exn_str e) None, db')
  end.

Definition register (db : table) (email password first_name last_name : string)
    (fresh_id : N) (salt : string) (now now_updated now_tokens : Z) : Z * body * table :=
  match AuthService.register_user auth_service db email password first_name last_name []
          fresh_id salt now now_updated with
  | Ok (user, db') =>
      match AuthService.create_tokens auth_service user now_tokens with
      | Ok tokens => (201, AuthResponse user tokens, db')
      | Raise e => (400, ErrorResponse "invalid_request" (exn_str e) None, db')
      end
  | Raise (ValidationError messages) =>
      (400, ErrorResponse "validation_error" "Registration validation failed"
              (Some ("general", messages)), db)
  | Raise (AuthenticationError m) => (400, ErrorResponse "registration_failed" m None, db)
  | Raise e => (400, ErrorResponse "invalid_request" (exn_str e) None, db)
  end.

Definition refresh_token (db : table) (refresh_token : Jwt.token) (now_decode now : Z)
  : Z * body * table :=
  match AuthService.refresh_access_token auth_service db refresh_token now_decode now with
  | Ok tokens => (200, TokenResponse tokens, db)
  | Raise (TokenError m) => (401, ErrorResponse "invalid_token" m None, db)
  | Raise (AuthenticationError m) => (401, ErrorResponse "authentication_failed" m None, db)
  | Raise e => (400, ErrorResponse "invalid_request" (exn_str e) None, db)
  end.

(** In the endpoints below [request_user] is [request.user]; [None] stands
    for a value that is not an instance of [User]. *)
Definition get_current_user (db : table) (request_user : option User.t) : Z * body * table :=
  match request_user with
  | None => (401, ErrorResponse "authentication_failed" "Invalid user" None, db)
  | Some user => (200, UserResponse user, db)
  end.

Definition update_profile (db : table) (request_user : option User.t)
    (first_name last_name avatar_url : option string) (now : Z) : Z * body * table :=
  match request_user with
  | None => (401, ErrorResponse "authentication_failed" "Invalid user" None, db)
  | Some user =>
      let user := from_option (fun v => User.set_first_name v user) user first_name in
      let user := from_option (fun v => User.set_last_name v user) user last_name in
      let user := from_option (fun v => User.set_avatar_url (Some v) user) user avatar_url in
      match Db.save db user
              [User.f_first_name; User.f_last_name; User.f_avatar_url; User.f_updated_at] now with
      | Ok (user, db') => (200, UserResponse user, db')
      | Raise e => (400, ErrorResponse "update_failed" (exn_str e) None, db)
      end
  end.

(** [rehash_salt] is the salt of the hash that [check_password] makes again
    when the stored one is outdated, [salt] the salt of the new password. *)
Definition change_password (db : table) (request_user : option User.t)
    (current_password new_password rehash_salt salt : string) (now : Z)
  : Z * body * table :=
  match request_user with
  | None => (401, ErrorResponse "authentication_failed" "Invalid user" None, db)
  | Some user =>
      match UserModel.check_password db current_password user rehash_salt now with
      | Raise e => (400, ErrorResponse "password_change_failed" (exn_str e) None, db)
      | Ok (false, _, db) =>
          (400, ErrorResponse "invalid_password" "Current password is incorrect" None, db)
      | Ok (true, user, db) =>
          match PasswordValidation.validate_password new_password (Some user) with
          | Raise (ValidationError messages) =>
              (400, ErrorResponse "validation_error" "Password validation failed"
                      (Some ("password", messages)), db)
          | Raise e => (400, ErrorResponse "password_change_failed" (exn_str e) None, db)
          | Ok _ =>
              let user := UserModel.set_password salt new_password user in
              match Db.save db user [User.f_password; User.f_updated_at] now with
              | Ok (_, db') => (200, MessageResponse "Password changed successfully", db')
              | Raise e => (400, ErrorResponse "password_change_failed" (exn_str e) None, db)
              end
          end
      end
  end.

Definition verify_email (db : table) (request_user : option User.t) (now : Z)
  : Z * body * table :=
  match request_user with
  | None => (401, ErrorResponse "authentication_failed" "Invalid user" None, db)
  | Some user =>
      if User.email_verified user
      then (400, ErrorResponse "already_verified" "Email is already verified" None, db)
      else
        match UserModel.verify_email db user now with
        | Ok (_, db') => (200, MessageResponse "Email verified successfully", db')
        | Raise e => (400, ErrorResponse "verification_failed" (exn_str e) None, db)
        end
  end.

(** An endpoint declared with [auth=jwt_auth]: the bearer token is resolved
    first ([now_auth] is the clock of that validation); without a user the
    router answers 401 and the endpoint does not run. *)
Definition with_jwt_auth (db : table) (token : Jwt.token) (now_auth : Z)
    (endpoint : option User.t -> Z * body * table) : Z * body * table :=
  match JWTAuth_authenticate db token now_auth with
  | Ok (Some user) => endpoint (Some user)
  | Ok None => (401, Detail "Unauthorized", db)
  | Raise e => (500, Detail (exn_str e), db)
  end.

End WithFramework.
End Api.

(* ===================================================================== *)
(** ** The admin site: [apps/identity/admin.py] *)
(* ===================================================================== *)

Module Admin.

(** The three actions.  [queryset.update(email_verified=True)] over the
    selected rows, and likewise for [is_active]. *)
Definition verify_emails (db : table) (queryset : User.t -> bool) : table :=
  Db.update db queryset (User.set_email_verified true).

Definition deactivate_users (db : table) (queryset : User.t -> bool) : table :=
  Db.update db queryset (User.set_is_active false).

Definition activate_users (db : table) (queryset : User.t -> bool) : table :=
  Db.update db queryset (User.set_is_active true).

(** [UserAdmin.fieldsets], flattened, and [UserAdmin.readonly_fields]. *)
Definition fieldsets : list string :=
  [ "email"; "username"; "password";
    "first_name"; "last_name"; "avatar_url";
    "is_active"; "is_staff"; "is_superuser"; "email_verified"; "groups";
    "user_permissions";
    "last_login"; "last_login_ip"; "created_at"; "updated_at";
    "id" ].

Definition readonly_fields : list string :=
  [ "id"; "created_at"; "updated_at"; "last_login"; "last_login_ip" ].

(** [get_readonly_fields(request, obj)]: the email of a stored user is
    read-only as well. *)
Definition get_readonly_fields (obj : option User.t) : list string :=
  readonly_fields ++ match obj with Some _ => ["email"] | None => [] end.

(** The fields that the form of the change view edits: those of
    [fieldsets] that are not read-only. *)
Definition form_field (obj : option User.t) (name : string) : bool :=
  bool_decide (name ∈ fieldsets) && negb (bool_decide (name ∈ get_readonly_fields obj)).

(** The cleaned data of a posted change form, for the columns of the
    model.  ([password] is shown as a hash and is not edited here; [groups]
    and [user_permissions] live in other tables.) *)
Record change_form := {
  cf_email : string;
  cf_username : string;
  cf_first_name : string;
  cf_last_name : string;
  cf_avatar_url : option string;
  cf_is_active : bool;
  cf_is_staff : bool;
  cf_is_superuser : bool;
  cf_email_verified : bool
}.

(** [construct_instance]: the cleaned value of every field of the form is
    assigned to the instance; what is posted for another field is ignored. *)
Definition construct_instance (obj : User.t) (data : change_form) : User.t :=
  let assign (name : string) (f : User.t -> User.t) (u : User.t) : User.t :=
    if form_field (Some obj) name then f u else u in
  assign "email_verified" (User.set_email_verified (cf_email_verified data))
    (assign "is_superuser" (User.set_is_superuser (cf_is_superuser data))
       (assign "is_staff" (User.set_is_staff (cf_is_staff data))
          (assign "is_active" (User.set_is_active (cf_is_active data))
             (assign "avatar_url" (User.set_avatar_url (cf_avatar_url data))
                (assign "last_name" (User.set_last_name (cf_last_name data))
                   (assign "first_name" (User.set_first_name (cf_first_name data))
                      (assign "username" (User.set_username (cf_username data))
                         (assign "email" (User.set_email (cf_email data)) obj)))))))).

(** What the change view answers: the object was saved, the form is shown
    again with its errors, or no object has the key. *)
Inductive response := Saved | FormErrors | NotFound.

Section WithFramework.
Context `{Framework}.

(** [UserAdmin.save_model]: a new object without a username takes its
    email as username; then [obj.save()], the UPDATE of the stored row with
    [updated_at] read from the clock, or the INSERT of a new one with the
    two dated columns. *)
Definition save_model (db : table) (obj : User.t) (change : bool) (now now_updated : Z)
  : result table :=
  if negb change
  then
    let obj := if Py.falsy (User.username obj)
               then User.set_username (User.email obj) obj else obj in
    Db.insert db (User.set_updated_at now_updated (User.set_created_at now obj))
  else Db.update_all db (User.set_updated_at now obj).

(** The change view posted for the object [object_id] by a member of staff
    who may change users.  The form is bound to the stored object; Django
    cleans the fields, assigns them, runs [full_clean] of the model, in
    which [AbstractUser.clean] normalises the email, and checks that no
    other row has the username; a valid form is saved by [save_model]. *)
Definition change_view (db : table) (object_id : N) (data : change_form) (now : Z)
  : result (response * table) :=
  match find (fun row => N.eqb (User.id row) object_id) db with
  | None => Ok (NotFound, db)
  | Some obj =>
      let obj := construct_instance obj data in
      let obj := User.set_email (UserManager.normalize_email (User.email obj)) obj in
      if form_invalid obj
         || existsb (fun row => negb (N.eqb (User.id row) (User.id obj))
                                && String.eqb (User.username row) (User.username obj)) db
      then Ok (FormErrors, db)
      else
        db' ← save_model db obj true now now;
        Ok (Saved, db')
  end.

End WithFramework.
End Admin.

(* ===================================================================== *)
(** ** The operations of the identity context as one transition function *)
(* ===================================================================== *)

Module System.

Inductive request :=
| Login (META : gmap string string) (email password : string)
| Register (email password first_name last_name : string)
| RefreshToken (refresh_token : Jwt.token)
| GetCurrentUser (token : Jwt.token)
| UpdateProfile (token : Jwt.token) (first_name last_name avatar_url : option string)
| ChangePassword (token : Jwt.token) (current_password new_password : string)
| VerifyEmail (token : Jwt.token)
| AdminVerifyEmails (queryset : User.t -> bool)
| AdminDeactivateUsers (queryset : User.t -> bool)
| AdminActivateUsers (queryset : User.t -> bool).

(** What a request draws from its environment: the clock when the bearer
    token is checked, when a row is written, when the second dated column
    of a new row is written and when tokens are minted, the salt of a hash
    made again, the salt of a new hash and the identifier of [uuid4]. *)
Record env := {
  now_auth : Z;
  now : Z;
  now_updated : Z;
  now_tokens : Z;
  rehash_salt : string;
  salt : string;
  fresh_id : N
}.

Section WithFramework.
Context `{Framework}.
Variable auth_service : AuthService.t.

(** The table after the request: one of the seven endpoints of the API or
    one of the three admin actions.  An admin action answers nothing here. *)
Definition handle (req : request) (e : env) (db : table) : table :=
  match req with
  | Login META email password =>
      (Api.login auth_service db META email password (rehash_salt e) (now e)
         (now_tokens e)).2
  | Register email password first_name last_name =>
      (Api.register auth_service db email password first_name last_name
         (fresh_id e) (salt e) (now e) (now_updated e) (now_tokens e)).2
  | RefreshToken refresh_token =>
      (Api.refresh_token auth_service db refresh_token (now_auth e) (now e)).2
  | GetCurrentUser token =>
      (Api.with_jwt_auth auth_service db token (now_auth e) (Api.get_current_user db)).2
  | UpdateProfile token first_name last_name avatar_url =>
      (Api.with_jwt_auth auth_service db token (now_auth e)
         (fun user => Api.update_profile db user first_name last_name avatar_url (now e))).2
  | ChangePassword token current_password new_password =>
      (Api.with_jwt_auth auth_service db token (now_auth e)
         (fun user => Api.change_password db user current_password new_password
                        (rehash_salt e) (salt e) (now e))).2
  | VerifyEmail token =>
      (Api.with_jwt_auth auth_service db token (now_auth e)
         (fun user => Api.verify_email db user (now e))).2
  | AdminVerifyEmails queryset => Admin.verify_emails db queryset
  | AdminDeactivateUsers queryset => Admin.deactivate_users db queryset
  | AdminActivateUsers queryset => Admin.activate_users db queryset
  end.

(** The table after a sequence of requests, each with its environment. *)
Fixpoint run (reqs : list (request * env)) (db : table) : table :=
  match reqs with
  | [] => db
  | (req, e) :: rest => run rest (handle req e db)
  end.

End WithFramework.
End System.

(* ===================================================================== *)
(** ** [apps/identity/domain/user_events.py] *)
(* ===================================================================== *)

Module Events.

(** The wall clock: the value of the [n]-th call of [datetime.now(UTC)]. *)
Record clock := Clock { reading : nat -> Z; calls : nat }.

(** [datetime.now(UTC)] *)
Definition datetime_now (c : clock) : Z * clock :=
  (reading c (calls c), Clock (reading c) (S (calls c))).

Inductive event :=
| UserRegistered (aggregate_id : N) (email full_name : string) (occurred_at : Z)
| UserEmailVerified (aggregate_id : N) (email : string) (occurred_at : Z)
| UserLoggedIn (aggregate_id : N) (email : string) (ip_address : option string)
               (occurred_at : Z)
| UserPasswordChanged (aggregate_id : N) (email : string) (occurred_at : Z).

Definition occurred_at (e : event) : Z :=
  match e with
  | UserRegistered _ _ _ t | UserEmailVerified _ _ t
  | UserLoggedIn _ _ _ t | UserPasswordChanged _ _ t => t
  end.

(** The field defaults that the four class bodies evaluate when the module
    is imported. *)
Record defaults := {
  UserRegistered_occurred_at : Z;
  UserEmailVerified_occurred_at : Z;
  UserLoggedIn_occurred_at : Z;
  UserPasswordChanged_occurred_at : Z
}.

(** Importing the module: the class bodies run top to bottom and each one
    evaluates its [datetime.now(UTC)] default once. *)
Definition import_module (c : clock) : defaults * clock :=
  let (d1, c) := datetime_now c in
  let (d2, c) := datetime_now c in
  let (d3, c) := datetime_now c in
  let (d4, c) := datetime_now c in
  ({| UserRegistered_occurred_at := d1;
      UserEmailVerified_occurred_at := d2;
      UserLoggedIn_occurred_at := d3;
      UserPasswordChanged_occurred_at := d4 |}, c).

(** The constructors that [dataclass] generates; [None] for [occurred_at]
    is a call without that argument.  A construction does not read the clock. *)
Definition new_UserRegistered (m : defaults) (aggregate_id : N) (email full_name : string)
    (occurred_at : option Z) : event :=
  UserRegistered aggregate_id email full_name
    (default (UserRegistered_occurred_at m) occurred_at).

Definition new_UserEmailVerified (m : defaults) (aggregate_id : N) (email : string)
    (occurred_at : option Z) : event :=
  UserEmailVerified aggregate_id email (default (UserEmailVerified_occurred_at m) occurred_at).

Definition new_UserLoggedIn (m : defaults) (aggregate_id : N) (email : string)
    (ip_address : option string) (occurred_at : option Z) : event :=
  UserLoggedIn aggregate_id email ip_address (default (UserLoggedIn_occurred_at m) occurred_at).

Definition new_UserPasswordChanged (m : defaults) (aggregate_id : N) (email : string)
    (occurred_at : option Z) : event :=
  UserPasswordChanged aggregate_id email
    (default (UserPasswordChanged_occurred_at m) occurred_at).

(** The class of an event. *)
Inductive event_type := TUserRegistered | TUserEmailVerified | TUserLoggedIn | TUserPasswordChanged.

Definition type_of (e : event) : event_type :=
  match e with
  | UserRegistered _ _ _ _ => TUserRegistered
  | UserEmailVerified _ _ _ => TUserEmailVerified
  | UserLoggedIn _ _ _ _ => TUserLoggedIn
  | UserPasswordChanged _ _ _ => TUserPasswordChanged
  end.

(** The place of a class in the module, counted from the first. *)
Definition position (ty : event_type) : nat :=
  match ty with
  | TUserRegistered => 0
  | TUserEmailVerified => 1
  | TUserLoggedIn => 2
  | TUserPasswordChanged => 3
  end.

(** An event built by one of the four constructors without [occurred_at]. *)
Inductive built_with_default (m : defaults) : event -> Prop :=
| built_registered aggregate_id email full_name :
    built_with_default m (new_UserRegistered m aggregate_id email full_name None)
| built_verified aggregate_id email :
    built_with_default m (new_UserEmailVerified m aggregate_id email None)
| built_logged_in aggregate_id email ip_address :
    built_with_default m (new_UserLoggedIn m aggregate_id email ip_address None)
| built_password_changed aggregate_id email :
    built_with_default m (new_UserPasswordChanged m aggregate_id email None).

End Events.

(* ===================================================================== *)
(** ** [DomainEventDispatcher] of [apps/identity/domain/user_events.py] *)
(* ===================================================================== *)

(** The classes of events are the keys of the handler table. *)
#[global] Instance event_type_eq_dec : EqDecision Events.event_type :=
  ltac:(solve_decision).

#[global] Instance event_type_countable : Countable Events.event_type :=
  inj_countable' Events.position
    (fun n => match n with
              | 0%nat => Events.TUserRegistered
              | 1%nat => Events.TUserEmailVerified
              | 2%nat => Events.TUserLoggedIn
              | _ => Events.TUserPasswordChanged
              end)
    (fun ty => match ty with
               | Events.TUserRegistered | Events.TUserEmailVerified
               | Events.TUserLoggedIn | Events.TUserPasswordChanged => eq_refl
               end).

(** [DomainEventDispatcher].  A handler is a callable that acts on its
    surroundings, the [world], and may raise. *)
Module DomainEventDispatcher.
Section WithWorld.
Variable world : Type.

Definition handler : Type := Events.event -> world -> result world.

(** [self._handlers] *)
Definition t : Type := gmap Events.event_type (list handler).

Definition __init__ : t := ∅.

Definition register (self : t) (event_type : Events.event_type) (h : handler) : t :=
  let self := if bool_decide (event_type ∈ dom self) then self
              else <[event_type := []]> self in
  <[event_type := default [] (self !! event_type) ++ [h]]> self.

(** [for handler in handlers: handler(event)] *)
Fixpoint run_handlers (handlers : list handler) (event : Events.event) (w : world)
  : result world :=
  match handlers with
  | [] => Ok w
  | h :: rest => w' ← h event w; run_handlers rest event w'
  end.

Definition dispatch (self : t) (event : Events.event) (w : world) : result world :=
  match self !! Events.type_of event with
  | Some handlers => run_handlers handlers event w
  | None => Ok w
  end.

End WithWorld.
End DomainEventDispatcher.

(* ===================================================================== *)
(** ** Predicates of the statements below *)
(* ===================================================================== *)

(** Two user records agree on every field except [last_login_ip] and
    [updated_at]. *)
Definition same_but_login_fields (u u' : User.t) : Prop :=
  User.id u' = User.id u
  /\ User.password u' = User.password u
  /\ User.email u' = User.email u
  /\ User.email_verified u' = User.email_verified u
  /\ User.username u' = User.username u
  /\ User.first_name u' = User.first_name u
  /\ User.last_name u' = User.last_name u
  /\ User.avatar_url u' = User.avatar_url u
  /\ User.is_active u' = User.is_active u
  /\ User.is_staff u' = User.is_staff u
  /\ User.is_superuser u' = User.is_superuser u
  /\ User.created_at u' = User.created_at u.

(** Two user records agree on every field except [last_login_ip],
    [updated_at] and the password hash. *)
Definition same_but_login_fields_and_hash (u u' : User.t) : Prop :=
  User.id u' = User.id u
  /\ User.email u' = User.email u
  /\ User.email_verified u' = User.email_verified u
  /\ User.username u' = User.username u
  /\ User.first_name u' = User.first_name u
  /\ User.last_name u' = User.last_name u
  /\ User.avatar_url u' = User.avatar_url u
  /\ User.is_active u' = User.is_active u
  /\ User.is_staff u' = User.is_staff u
  /\ User.is_superuser u' = User.is_superuser u
  /\ User.created_at u' = User.created_at u.

Section Rehash.
Context `{Framework}.

(** [check_password] has to write: the password [raw] is the one of [row]
    and the stored hash is outdated. *)
Definition rehash_needed (raw : string) (row : User.t) : bool :=
  check_password raw (User.password row) && must_update (User.password row).

(** The record and the table as [check_password] leaves them when it is
    given the password [raw] for [row] and draws [salt]. *)
Definition rehashed_user (raw salt : string) (row : User.t) : User.t :=
  if rehash_needed raw row
  then User.set_password_hash (make_password salt raw) row else row.

Definition rehashed (db : table) (raw salt : string) (row : User.t) : table :=
  if rehash_needed raw row
  then map (fun r => if N.eqb (User.id r) (User.id row)
                     then User.set_password_hash (make_password salt raw) r else r) db
  else db.

End Rehash.

(** A digit of a lower-case hexadecimal text. *)
Definition is_hex_char (c : ascii) : bool :=
  Py.is_digit c || ((97 <=? Py.code c) && (Py.code c <=? 102)).

Section TokenShapes.
Context `{Framework}.

(** The token that carries [claims] under the signature of the service. *)
Definition signed (self : AuthService.t) (claims : gmap string json) : Jwt.token :=
  Jwt.Compact
    (Jwt.Jws (AuthService.algorithm self) claims
       (jws_sign (AuthService.algorithm self) (AuthService.secret_key self) claims)).

(** The claims of the two tokens that [create_tokens] issues to [user] at
    clock [now], as they are read back from the token. *)
Definition access_claims (self : AuthService.t) (user : User.t) (now : Z) : gmap string json :=
  list_to_map
    [ ("user_id", JStr (Uuid.str (User.id user)));
      ("email", JStr (User.email user));
      ("username", JStr (User.username user));
      ("is_staff", JBool (User.is_staff user));
      ("is_superuser", JBool (User.is_superuser user));
      ("email_verified", JBool (User.email_verified user));
      ("exp", JInt (Datetime.timegm (now + AuthService.access_token_lifetime self)));
      ("iat", JInt (Datetime.timegm now));
      ("type", JStr "access") ].

Definition refresh_claims (self : AuthService.t) (user : User.t) (now : Z) : gmap string json :=
  list_to_map
    [ ("user_id", JStr (Uuid.str (User.id user)));
      ("email", JStr (User.email user));
      ("exp", JInt (Datetime.timegm (now + AuthService.refresh_token_lifetime self)));
      ("iat", JInt (Datetime.timegm now));
      ("type", JStr "refresh");
      ("jti", JStr (AuthService._generate_token_id self (Uuid.str (User.id user)) now)) ].

End TokenShapes.

(** Every row that is verified in [db] is still there, at the same place
    and under the same identifier, and verified in [db']. *)
Definition verified_kept (db db' : table) : Prop :=
  forall (i : nat) (u : User.t),
    db !! i = Some u -> User.email_verified u = true ->
    exists u', db' !! i = Some u' /\ User.id u' = User.id u /\ User.email_verified u' = true.

(** A character of a printed UUID: a hexadecimal digit or the hyphen. *)
Definition uuid_char (c : ascii) : Prop := is_hex_char c = true \/ c = "-"%char.

(** The identity and the rights of an account. *)
Definition account_kept (u u' : User.t) : Prop :=
  User.id u' = User.id u
  /\ User.email u' = User.email u
  /\ User.username u' = User.username u
  /\ User.is_staff u' = User.is_staff u
  /\ User.is_superuser u' = User.is_superuser u
  /\ User.created_at u' = User.created_at u.

(** Every row of [db] is still at its place in [db'] with its identity and
    its rights, and the rows that [db'] has beyond those of [db] are neither
    staff nor superuser. *)
Definition accounts_kept (db db' : table) : Prop :=
  (forall (i : nat) (u : User.t),
     db !! i = Some u -> exists u', db' !! i = Some u' /\ account_kept u u')
  /\ (forall (i : nat) (u' : User.t),
        db' !! i = Some u' -> (length db <= i)%nat ->
        User.is_staff u' = false /\ User.is_superuser u' = false).

(** The three unique indexes of the table. *)
Definition unique_keys (db : table) : Prop :=
  NoDup (map User.id db) /\ NoDup (map User.email db) /\ NoDup (map User.username db).

(** What one request does to the table: rows rewritten in place with their
    identity and rights, or one account without rights appended under keys
    that no row has. *)
Definition table_step (db db' : table) : Prop :=
  (exists g : User.t -> User.t,
     (forall row, account_kept row (g row)) /\ db' = map g db)
  \/ (exists user : User.t,
        db' = db ++ [user]
        /\ User.is_staff user = false /\ User.is_superuser user = false
        /\ Forall (fun row => User.id row <> User.id user
                              /\ User.email row <> User.email user
                              /\ User.username row <> User.username user) db).

(* ===================================================================== *)
(** ** A small concrete framework, for running the model *)
(* ===================================================================== *)

Module Demo.

Definition json_text (v : json) : string :=
  match v with
  | JStr s => "s" +:+ s
  | JBool b => if b then "true" else "false"
  | JInt z => if z <? 0 then "-" +:+ Py.of_chars (Py.hex_fixed 16 (- z))
              else Py.of_chars (Py.hex_fixed 16 z)
  end.

Definition inet_char (c : ascii) : bool :=
  bool_decide (is_Some (Uuid.hex_value c))
  || bool_decide (c = "."%char) || bool_decide (c = ":"%char).

(** Unsalted hashes that wear their input, in the current format [plain$]
    and in an outdated format [old$]; a change form that wants a username;
    a keyed text in place of an HMAC, a three-entry password list, and the
    column widths of the table. *)
Definition framework : Framework :=
  {| make_password salt raw := "plain$" +:+ raw;
     check_password raw encoded :=
       String.eqb encoded ("plain$" +:+ raw) || String.eqb encoded ("old$" +:+ raw);
     must_update encoded := String.eqb (Py.prefix 4 encoded) "old$";
     form_invalid obj :=
       Py.falsy (User.username obj) || (150 <? Py.len (User.username obj))
       || (150 <? Py.len (User.first_name obj)) || (150 <? Py.len (User.last_name obj));
     common_password s := bool_decide (s ∈ ["password"; "12345678"; "qwertyuiop"]);
     jws_sign algorithm key claims :=
       SHA256.hexdigest
         (algorithm +:+ "." +:+ key +:+ "." +:+
          join ";" (map (fun kv => kv.1 +:+ "=" +:+ json_text kv.2) (map_to_list claims)));
     column_error u :=
       if 150 <? Py.len (User.username u)
       then Some "value too long for type character varying(150)"
       else if 254 <? Py.len (User.email u)
       then Some "value too long for type character varying(254)"
       else if (150 <? Py.len (User.first_name u)) || (150 <? Py.len (User.last_name u))
       then Some "value too long for type character varying(150)"
       else if 200 <? Py.len (default "" (User.avatar_url u))
       then Some "value too long for type character varying(200)"
       else if negb (forallb inet_char (Py.chars (default "" (User.last_login_ip u))))
       then Some "invalid input syntax for type inet"
       else None |}.

Definition service : AuthService.t := AuthService.new "demo-signing-key".

(** An active and a deactivated account. *)
Definition alice : User.t :=
  User.mk 1 "plain$correct horse" "alice@example.com" false "alice@example.com"
    "Alice" "Liddell" None true false false 1700000000000000 1700000000000000 None.

Definition dana : User.t :=
  User.mk 2 "plain$battery staple" "dana@example.com" true "dana@example.com"
    "Dana" "Scully" None false false false 1700000000000000 1700000000000000 None.

Definition db : table := [alice; dana].

(** An account whose hash is in the outdated format. *)
Definition erin : User.t :=
  User.mk 5 "old$open sesame" "erin@example.com" false "erin@example.com"
    "Erin" "Brockovich" None true false false 1700000000000000 1700000000000000 None.

(** The user that [setUp] of [tests/test_auth_service.py] creates. *)
Definition test_user : User.t :=
  User.mk 7 "plain$testpassword123" "test@example.com" false "test@example.com"
    "Test" "User" None true false false 1700000000000000 1700000000000000 None.

(** A clock that advances by one microsecond per reading, and the event
    module imported under it. *)
Definition ticking_clock : Events.clock :=
  Events.Clock (fun n => 1700000000000000 + Z.of_nat n) 0.

Definition events_module : Events.defaults := (Events.import_module ticking_clock).1.

End Demo.

(* ===================================================================== *)
(** * Properties *)
(* ===================================================================== *)

(** ** The library models against known values *)

Example sha256_abc :
  SHA256.hexdigest "abc" =
  "ba7816bf8f01cfea414140de5dae2223b00361a396177a9cb410ff61f20015ad".
Proof. vm_compute. reflexivity. Qed.

Example sha256_empty :
  SHA256.hexdigest "" =
  "e3b0c44298fc1c149afbf4c8996fb92427ae41e4649b934ca495991b7852b855".
Proof. vm_compute. reflexivity. Qed.

Example sha256_two_blocks :
  SHA256.hexdigest "abcdbcdecdefdefgefghfghighijhijkijkljklmklmnlmnomnopnopq" =
  "248d6a61d20638b8e5c026930c3e6039a33ce45964ff2167f6ecedd419db06c1".
Proof. vm_compute. reflexivity. Qed.

Example isoformat_epoch : Datetime.isoformat 0 = "1970-01-01T00:00:00+00:00".
Proof. vm_compute. reflexivity. Qed.

Example isoformat_leap_day :
  Datetime.isoformat 1709210096123456 = "2024-02-29T12:34:56.123456+00:00".
Proof. vm_compute. reflexivity. Qed.

Example isoformat_year_end :
  Datetime.isoformat 1767225599000001 = "2025-12-31T23:59:59.000001+00:00".
Proof. vm_compute. reflexivity. Qed.

Example uuid_str_example :
  Uuid.str 0x12345678123456781234567812345678 = "12345678-1234-5678-1234-567812345678".
Proof. vm_compute. reflexivity. Qed.

Example uuid_of_hex_example :
  Uuid.of_hex "{12345678-1234-5678-1234-567812345678}" = Some 0x12345678123456781234567812345678%N
  /\ Uuid.of_hex "urn:uuid:12345678123456781234567812345678" = Some 0x12345678123456781234567812345678%N
  /\ Uuid.of_hex "not-a-uuid" = None
  /\ Uuid.of_hex "+0000000000000000000000000000001" = Some 1%N
  /\ Uuid.of_hex "0x000000000000000000000000000001" = Some 1%N
  /\ Uuid.of_hex "0x_00000000000000000000000000001" = Some 1%N
  /\ Uuid.of_hex " 00_00000000000000000000000000A1" = Some 161%N
  /\ Uuid.of_hex "0000000000000000000000000000001_" = None
  /\ Uuid.of_hex "00__0000000000000000000000000001" = None
  /\ Uuid.of_hex "+ 000000000000000000000000000001" = None
  /\ Uuid.of_hex "-0000000000000000000000000000000" = None.
Proof. vm_compute. auto 20. Qed.

Example strip_lower_example : Py.strip (Py.lower "  Alice@Example.COM ") = "alice@example.com".
Proof. vm_compute. reflexivity. Qed.

Example normalize_email_example :
  UserManager.normalize_email "Alice@Example.COM" = "Alice@example.com".
Proof. vm_compute. reflexivity. Qed.

Example split_nonword_example :
  PasswordValidation.split_nonword (Py.chars "johnsmith@example.com") [] false
  = ["johnsmith"; "example"; "com"]
  /\ PasswordValidation.split_nonword (Py.chars "@a") [] false = [""; "a"].
Proof. vm_compute. auto. Qed.

Example int_examples :
  Jwt.int (JStr " 1_000 ") = Some 1000 /\ Jwt.int (JStr "-12") = Some (-12)
  /\ Jwt.int (JStr "1__0") = None /\ Jwt.int (JStr "") = None /\ Jwt.int (JBool true) = Some 1
  /\ Jwt.int (JStr (String (Ascii.ascii_of_nat 28) "5")) = None
  /\ Py.strip (String (Ascii.ascii_of_nat 28) "5") = "5".
Proof. vm_compute. auto 8. Qed.

Example login_alice :
  AuthService.authenticate_user (H := Demo.framework) Demo.service Demo.db
    " Alice@Example.com" "correct horse" (Some "10.0.0.7") "salt" 1700000100000000
  = (Ok (User.set_updated_at 1700000100000000
           (User.set_last_login_ip (Some "10.0.0.7") Demo.alice)),
     [User.set_updated_at 1700000100000000 (User.set_last_login_ip (Some "10.0.0.7") Demo.alice);
      Demo.dana]).
Proof. vm_compute. reflexivity. Qed.

(** ** The unit tests of [tests/test_auth_service.py], run on the model *)

Example test_setUp :
  UserManager.create_user_with_profile (H := Demo.framework) [] "test@example.com"
    "testpassword123" "Test" "User" [] 7%N "salt" 1700000000000000 1700000000000000
  = Ok (Demo.test_user, [Demo.test_user]).
Proof. vm_compute. reflexivity. Qed.

Example test_authenticate_user_success :
  AuthService.authenticate_user (H := Demo.framework) Demo.service [Demo.test_user]
    "test@example.com" "testpassword123" None "salt" 1700000001000000
  = (Ok Demo.test_user, [Demo.test_user]).
Proof. vm_compute. reflexivity. Qed.

Example test_authenticate_user_invalid_password :
  AuthService.authenticate_user (H := Demo.framework) Demo.service [Demo.test_user]
    "test@example.com" "wrongpassword" None "salt" 1700000001000000
  = (Raise (AuthenticationError "Invalid email or password"), [Demo.test_user]).
Proof. vm_compute. reflexivity. Qed.

Example test_authenticate_user_invalid_email :
  AuthService.authenticate_user (H := Demo.framework) Demo.service [Demo.test_user]
    "nonexistent@example.com" "testpassword123" None "salt" 1700000001000000
  = (Raise (AuthenticationError "Invalid email or password"), [Demo.test_user]).
Proof. vm_compute. reflexivity. Qed.

Example test_validate_invalid_token :
  AuthService.validate_access_token (H := Demo.framework) Demo.service
    (Jwt.Malformed "Not enough segments") 1700000001000000
  = Raise (TokenError "Invalid token: Not enough segments").
Proof. vm_compute. reflexivity. Qed.

Example test_register_user_success :
  AuthService.register_user (H := Demo.framework) Demo.service [Demo.test_user]
    "newuser@example.com" "newpassword123" "New" "User" [] 8%N "salt" 1700000003000000
    1700000003000004
  = Ok (User.mk 8 "plain$newpassword123" "newuser@example.com" false "newuser@example.com"
          "New" "User" None true false false 1700000003000000 1700000003000004 None,
        [ Demo.test_user;
          User.mk 8 "plain$newpassword123" "newuser@example.com" false "newuser@example.com"
            "New" "User" None true false false 1700000003000000 1700000003000004 None ])
  /\ check_password (Framework := Demo.framework) "newpassword123" "plain$newpassword123"
     = true.
Proof. split; vm_compute; reflexivity. Qed.

Example test_register_user_duplicate_email :
  AuthService.register_user (H := Demo.framework) Demo.service [Demo.test_user]
    "test@example.com" "anotherpassword123" "" "" [] 8%N "salt" 1700000003000000
    1700000003000004
  = Raise (ValidationError ["User with this email already exists"]).
Proof. vm_compute. reflexivity. Qed.

Example test_register_user_weak_password :
  AuthService.register_user (H := Demo.framework) Demo.service [Demo.test_user]
    "weak@example.com" "123" "" "" [] 8%N "salt" 1700000003000000 1700000003000004
  = Raise (ValidationError
             [ "This password is too short. It must contain at least 8 characters.";
               "This password is entirely numeric." ]).
Proof. vm_compute. reflexivity. Qed.

(** ** The object-relational layer *)

Section DbFacts.
Context `{Framework}.

Lemma save_inv (db db' : table) (obj obj' : User.t) (fields : list User.field) (now : Z) :
  Db.save db obj fields now = Ok (obj', db') ->
  obj' = (if bool_decide (User.f_updated_at ∈ fields)
          then User.set_updated_at now obj else obj)
  /\ db' = map (fun row => if N.eqb (User.id row) (User.id obj')
                           then Db.updated_row obj' fields row else row) db.
Proof.
  unfold Db.save. intros Hsave.
  destruct (find _ db) as [row|]; [|discriminate].
  destruct (column_error _); [discriminate|].
  injection Hsave as <- <-. split; reflexivity.
Qed.

(** A failing [save] has found no row, or a value too long for its column. *)
Lemma save_raises (db : table) (obj : User.t) (fields : list User.field) (now : Z)
    (e : exn) :
  Db.save db obj fields now = Raise e ->
  (exists m, e = DataError m)
  \/ (find (fun row => N.eqb (User.id row) (User.id obj)) db = None
      /\ e = DatabaseError "Save with update_fields did not affect any rows.").
Proof.
  unfold Db.save. cbv zeta.
  replace (User.id (if bool_decide (User.f_updated_at ∈ fields)
                    then User.set_updated_at now obj else obj))
    with (User.id obj) by (destruct (bool_decide _); reflexivity).
  destruct (find _ db) as [row|]; [|intros [= <-]; right; auto].
  destruct (column_error _) as [m|]; [|discriminate].
  intros [= <-]. left. eauto.
Qed.

Lemma Forall2_map_row (P : User.t -> User.t -> Prop) (f : User.t -> User.t) (db : table) :
  (forall row, P row (f row)) -> Forall2 P db (map f db).
Proof. intros Hf. induction db as [|row db IH]; simpl; constructor; auto. Qed.

Lemma same_but_login_fields_refl (u : User.t) : same_but_login_fields u u.
Proof. repeat split. Qed.

Lemma update_last_login_ip_inv (db db' : table) (self user' : User.t) (ip : string) (now : Z) :
  UserModel.update_last_login_ip db self ip now = Ok (user', db') ->
  user' = User.set_updated_at now (User.set_last_login_ip (Some ip) self)
  /\ db' = map (fun row => if N.eqb (User.id row) (User.id self)
                           then User.set_updated_at now (User.set_last_login_ip (Some ip) row)
                           else row) db.
Proof.
  unfold UserModel.update_last_login_ip. intros Hsave.
  apply save_inv in Hsave as [-> ->]. split; reflexivity.
Qed.

End DbFacts.

(** ** [authenticate_user] *)

Section AuthenticateUser.
Context `{Framework}.

Lemma same_but_login_fields_and_hash_refl (u : User.t) : same_but_login_fields_and_hash u u.
Proof. repeat split. Qed.

(** What [check_password] returns and writes: the verdict of the hasher,
    and, for a right password under an outdated hash, the new hash in the
    instance and in the rows under its key. *)
Lemma check_password_inv (db db1 : table) (raw : string) (self self1 : User.t)
    (salt : string) (now : Z) (ok : bool) :
  UserModel.check_password db raw self salt now = Ok (ok, self1, db1) ->
  ok = check_password raw (User.password self)
  /\ self1 = rehashed_user raw salt self
  /\ db1 = rehashed db raw salt self.
Proof.
  unfold UserModel.check_password, rehashed_user, rehashed, rehash_needed.
  destruct (check_password raw (User.password self) && must_update (User.password self))
    eqn:Hneed.
  - destruct (Db.save _ _ _ _) as [[u d]|e] eqn:Hsave; [|discriminate].
    intros [= <- <- <-]. apply save_inv in Hsave as [Hu Hd].
    rewrite bool_decide_false in Hu
      by (intros Hin; apply list_elem_of_singleton in Hin; discriminate).
    apply andb_prop in Hneed as [Hok _].
    split; [congruence|]. split; [exact Hu|]. rewrite Hd, Hu. reflexivity.
  - intros [= <- <- <-]. auto.
Qed.

(** A failing [check_password] has written nothing. *)
Lemma check_password_raises (db : table) (raw : string) (self : User.t)
    (salt : string) (now : Z) (e : exn) :
  UserModel.check_password db raw self salt now = Raise e ->
  rehash_needed raw self = true
  /\ ((exists m, e = DataError m)
      \/ (find (fun row => N.eqb (User.id row) (User.id self)) db = None
          /\ e = DatabaseError "Save with update_fields did not affect any rows.")).
Proof.
  unfold UserModel.check_password, rehash_needed.
  destruct (_ && _); [|discriminate].
  destruct (Db.save _ _ _ _) as [[u d]|e'] eqn:Hsave; [discriminate|].
  intros [= <-]. split; [reflexivity|]. exact (save_raises _ _ _ _ _ Hsave).
Qed.

Lemma get_by_natural_key_inv (db : table) (username : string) (row : User.t) :
  Db.get_by_natural_key db username = Ok row -> In row db /\ User.email row = username.
Proof.
  unfold Db.get_by_natural_key.
  destruct (find _ db) as [r|] eqn:Hfind; [|discriminate].
  intros [= <-]. apply find_some in Hfind as [Hin Heq].
  apply String.eqb_eq in Heq. auto.
Qed.

Lemma find_id_In (db : table) (row : User.t) :
  In row db -> find (fun r => N.eqb (User.id r) (User.id row)) db <> None.
Proof.
  intros Hin Hnone. pose proof (find_none _ _ Hnone row Hin) as Hne.
  cbv beta in Hne. rewrite N.eqb_refl in Hne. discriminate.
Qed.

(** What the backend returns: the row stored under the email, re-encoded
    if need be, when the password is right and the account active. *)
Lemma authenticate_inv (db db1 : table) (username password salt : string) (now : Z)
    (found : option User.t) :
  Backend.authenticate db username password salt now = Ok (found, db1) ->
  (Db.get_by_natural_key db username = Raise DoesNotExist /\ found = None /\ db1 = db)
  \/ exists row,
       Db.get_by_natural_key db username = Ok row
       /\ db1 = rehashed db password salt row
       /\ found = if check_password password (User.password row) && User.is_active row
                  then Some (rehashed_user password salt row) else None.
Proof.
  unfold Backend.authenticate, Backend.ModelBackend_authenticate.
  destruct (Db.get_by_natural_key db username) as [row|e] eqn:Hrow.
  - destruct (UserModel.check_password db password row salt now)
      as [[[ok u] d]|e] eqn:Hcheck; [|discriminate].
    apply check_password_inv in Hcheck as (-> & -> & ->).
    unfold Backend.user_can_authenticate.
    replace (User.is_active (rehashed_user password salt row)) with (User.is_active row)
      by (unfold rehashed_user; destruct (rehash_needed _ _); reflexivity).
    intros Hres. right. exists row. split; [reflexivity|].
    destruct (check_password password (User.password row) && User.is_active row);
      injection Hres as <- <-; auto.
  - intros [= <- <-]. left. unfold Db.get_by_natural_key in Hrow.
    destruct (find _ db); [discriminate|]. auto.
Qed.

(** What the body of [authenticate_user] does once [authenticate] has
    handed it an inactive user: the branch of line 76. *)
Lemma authenticate_user_with_inactive
    (authenticate : table -> string -> string -> string -> Z
                    -> result (option User.t * table))
    (self : AuthService.t) (db db1 : table) (email password : string)
    (ip_address : option string) (salt : string) (now : Z) (user : User.t) :
  email <> "" -> password <> "" ->
  authenticate db (Py.strip (Py.lower email)) password salt now = Ok (Some user, db1) ->
  User.is_active user = false ->
  AuthService.authenticate_user_with authenticate self db email password ip_address salt now
  = (Raise (AuthenticationError "User account is deactivated"), db1).
Proof.
  intros He Hp Hauth Hinactive. unfold AuthService.authenticate_user_with.
  destruct email; [congruence|]. destruct password; [congruence|]. simpl.
  rewrite Hauth, Hinactive. reflexivity.
Qed.

(** The configured backend never hands over an inactive user. *)
Lemma authenticate_is_active (db db1 : table) (username password salt : string) (now : Z)
    (user : User.t) :
  Backend.authenticate db username password salt now = Ok (Some user, db1) ->
  User.is_active user = true.
Proof.
  intros Hauth.
  destruct (authenticate_inv _ _ _ _ _ _ _ Hauth) as [(_ & Hf & _)|(row & _ & _ & Hf)];
    [discriminate|].
  destruct (check_password password (User.password row)); [|discriminate].
  destruct (User.is_active row) eqn:Hactive; [|discriminate].
  injection Hf as ->. unfold rehashed_user.
  destruct (rehash_needed _ _); exact Hactive.
Qed.

(** With a matching password on a deactivated account the service answers
    as for a wrong password; the hash, if outdated, has been made again. *)
Lemma authenticate_user_inactive (self : AuthService.t) (db : table)
    (email password : string) (ip_address : option string) (salt : string) (now : Z)
    (user : User.t) (out : result User.t) (db1 : table) :
  Db.get_by_natural_key db (Py.strip (Py.lower email)) = Ok user ->
  check_password password (User.password user) = true ->
  User.is_active user = false ->
  AuthService.authenticate_user self db email password ip_address salt now = (out, db1) ->
  email <> "" -> password <> "" ->
  (out = Raise (AuthenticationError "Invalid email or password")
   /\ db1 = rehashed db password salt user)
  \/ (exists m, out = Raise (DataError m) /\ db1 = db).
Proof.
  intros Hrow Hpw Hinactive Hres He Hp. revert Hres.
  unfold AuthService.authenticate_user, AuthService.authenticate_user_with.
  destruct email; [congruence|]. destruct password as [|c password]; [congruence|].
  cbn [Py.falsy orb].
  destruct (Backend.authenticate db _ _ salt now) as [[found d]|e] eqn:Hauth.
  - destruct (authenticate_inv _ _ _ _ _ _ _ Hauth)
      as [(Hnone & _ & _)|(row & Hrow' & -> & ->)]; [congruence|].
    assert (row = user) as -> by congruence.
    rewrite Hpw, Hinactive. cbn [andb]. intros [= <- <-]. left. auto.
  - intros [= <- <-]. right.
    unfold Backend.authenticate, Backend.ModelBackend_authenticate in Hauth.
    rewrite Hrow in Hauth.
    destruct (UserModel.check_password db _ user salt now) as [[[ok u] d]|e'] eqn:Hcheck.
    + destruct (ok && _); discriminate.
    + injection Hauth as <-.
      destruct (check_password_raises _ _ _ _ _ _ Hcheck) as (_ & [[m ->]|[Hfind _]]).
      * eauto.
      * apply get_by_natural_key_inv in Hrow as [Hin _].
        exfalso. exact (find_id_In db user Hin Hfind).
Qed.

(** The deactivation message is unreachable in [authenticate_user]. *)
Lemma authenticate_user_never_deactivated (self : AuthService.t) (db : table)
    (email password : string) (ip_address : option string) (salt : string) (now : Z) :
  (AuthService.authenticate_user self db email password ip_address salt now).1
  <> Raise (AuthenticationError "User account is deactivated").
Proof.
  unfold AuthService.authenticate_user, AuthService.authenticate_user_with.
  destruct (_ || _); [discriminate|].
  destruct (Backend.authenticate _ _ _ _ _) as [[[user|] d]|e] eqn:Hauth;
    cbn [fst]; try discriminate.
  - rewrite (authenticate_is_active _ _ _ _ _ _ _ Hauth). cbn [negb].
    destruct ip_address as [ip|]; [|discriminate].
    destruct (Py.falsy ip); [discriminate|].
    destruct (UserModel.update_last_login_ip _ _ _ _) as [[u d']|e] eqn:Hsave;
      cbn [fst]; [discriminate|].
    destruct (save_raises _ _ _ _ _ Hsave) as [[m ->]|[_ ->]]; discriminate.
  - unfold Backend.authenticate, Backend.ModelBackend_authenticate in Hauth.
    destruct (Db.get_by_natural_key _ _); [|discriminate].
    destruct (UserModel.check_password _ _ _ _ _) as [[[ok u] d]|e'] eqn:Hcheck.
    + destruct (ok && _); discriminate.
    + injection Hauth as <-.
      destruct (check_password_raises _ _ _ _ _ _ Hcheck) as (_ & [[m ->]|[_ ->]]);
        discriminate.
Qed.

(** What a successful [authenticate_user] has done. *)
Lemma authenticate_user_inv (self : AuthService.t) (db db' : table)
    (email password : string) (ip_address : option string) (salt : string) (now : Z)
    (user' : User.t) :
  AuthService.authenticate_user self db email password ip_address salt now
  = (Ok user', db') ->
  email <> "" /\ password <> ""
  /\ exists row,
       Db.get_by_natural_key db (Py.strip (Py.lower email)) = Ok row
       /\ check_password password (User.password row) = true
       /\ User.is_active row = true
       /\ ((user' = rehashed_user password salt row
            /\ db' = rehashed db password salt row
            /\ (ip_address = None \/ ip_address = Some ""))
           \/ exists ip,
                ip_address = Some ip /\ ip <> ""
                /\ user' = User.set_updated_at now
                             (User.set_last_login_ip (Some ip)
                                (rehashed_user password salt row))
                /\ db' = map (fun r => if N.eqb (User.id r) (User.id row)
                                       then User.set_updated_at now
                                              (User.set_last_login_ip (Some ip) r)
                                       else r) (rehashed db password salt row)).
Proof.
  unfold AuthService.authenticate_user, AuthService.authenticate_user_with.
  destruct email as [|c email]; [discriminate|].
  destruct password as [|d password]; [discriminate|].
  cbn [Py.falsy orb]. intros Hres. split; [discriminate|]. split; [discriminate|].
  revert Hres.
  destruct (Backend.authenticate db _ _ salt now) as [[found d1]|e] eqn:Hauth;
    [|discriminate].
  destruct (authenticate_inv _ _ _ _ _ _ _ Hauth)
    as [(_ & -> & _)|(row & Hrow & -> & ->)]; [discriminate|].
  destruct (check_password (String d password) (User.password row)) eqn:Hpw;
    cbn [andb]; [|discriminate].
  destruct (User.is_active row) eqn:Hactive; [|discriminate].
  assert (Hactive' : User.is_active (rehashed_user (String d password) salt row) = true).
  { unfold rehashed_user. destruct (rehash_needed _ _); exact Hactive. }
  assert (Hid : User.id (rehashed_user (String d password) salt row) = User.id row).
  { unfold rehashed_user. destruct (rehash_needed _ _); reflexivity. }
  rewrite Hactive'. cbn [negb].
  intros Hres. exists row. split; [exact Hrow|]. split; [exact Hpw|].
  split; [exact Hactive|].
  destruct ip_address as [ip|].
  - destruct ip as [|i ip].
    + change (Py.falsy "") with true in Hres. cbv iota in Hres.
      injection Hres as <- <-. left. auto.
    + change (Py.falsy (String i ip)) with false in Hres. cbv iota in Hres.
      destruct (UserModel.update_last_login_ip _ _ _ _) as [[u d']|e] eqn:Hsave;
        [|discriminate].
      injection Hres as <- <-.
      apply update_last_login_ip_inv in Hsave as [-> ->]. rewrite Hid.
      right. eexists. split; [reflexivity|]. split; [discriminate|]. auto.
  - injection Hres as <- <-. left. auto.
Qed.

(** The sign-in without an address of an active account with its
    password: the record and the table with the hash made again if
    outdated, unless the database refuses the new hash. *)
Lemma authenticate_user_right_password (self : AuthService.t) (db : table)
    (email password salt : string) (now : Z) (row : User.t) :
  email <> "" -> password <> "" ->
  Db.get_by_natural_key db (Py.strip (Py.lower email)) = Ok row ->
  check_password password (User.password row) = true ->
  User.is_active row = true ->
  AuthService.authenticate_user self db email password None salt now
  = (Ok (rehashed_user password salt row), rehashed db password salt row)
  \/ exists m,
       rehash_needed password row = true
       /\ AuthService.authenticate_user self db email password None salt now
          = (Raise (DataError m), db).
Proof.
  intros He Hp Hkey Hpw Hactive.
  unfold AuthService.authenticate_user, AuthService.authenticate_user_with.
  destruct email as [|c email]; [congruence|].
  destruct password as [|d password]; [congruence|].
  cbn [Py.falsy orb].
  unfold Backend.authenticate, Backend.ModelBackend_authenticate.
  rewrite Hkey.
  destruct (UserModel.check_password db _ row salt now) as [[[ok u] d1]|e] eqn:Hcheck.
  - apply check_password_inv in Hcheck as (-> & -> & ->).
    rewrite Hpw. cbn [andb]. unfold Backend.user_can_authenticate.
    assert (Hact : User.is_active (rehashed_user (String d password) salt row) = true).
    { unfold rehashed_user. destruct (rehash_needed _ _); exact Hactive. }
    rewrite Hact. cbv beta iota. rewrite Hact. left. reflexivity.
  - destruct (check_password_raises _ _ _ _ _ _ Hcheck) as (Hneed & [[m ->]|[Hfind _]]).
    + right. exists m. auto.
    + apply get_by_natural_key_inv in Hkey as [Hin _].
      exfalso. exact (find_id_In db row Hin Hfind).
Qed.

Lemma rehashed_user_frame (raw salt : string) (row : User.t) :
  same_but_login_fields_and_hash row (rehashed_user raw salt row)
  /\ User.updated_at (rehashed_user raw salt row) = User.updated_at row
  /\ User.last_login_ip (rehashed_user raw salt row) = User.last_login_ip row
  /\ User.password (rehashed_user raw salt row)
     = if rehash_needed raw row then make_password salt raw else User.password row.
Proof.
  unfold rehashed_user. destruct (rehash_needed raw row); repeat split.
Qed.

Lemma rehashed_frame (db : table) (raw salt : string) (row : User.t) :
  Forall2 (fun r r' => same_but_login_fields_and_hash r r'
                       /\ User.updated_at r' = User.updated_at r
                       /\ User.last_login_ip r' = User.last_login_ip r
                       /\ (User.id r <> User.id row -> r' = r)) db
    (rehashed db raw salt row).
Proof.
  unfold rehashed. destruct (rehash_needed raw row).
  - apply Forall2_map_row. intros r.
    destruct (N.eqb_spec (User.id r) (User.id row)) as [Heq|Hne].
    + repeat split. congruence.
    + repeat split.
  - induction db; constructor; [repeat split|assumption].
Qed.

(** C9. A successful [authenticate_user] returns the record stored under
    the email changed at most in [last_login_ip] and [updated_at], which it
    writes when an [ip_address] is given, and in the password hash, which
    [check_password] makes again from the password when the stored hash is
    outdated; every row of the table keeps all its other fields and the rows
    of other users are untouched.  When the stored hash is current nothing
    but [last_login_ip] and [updated_at] changes, and without an
    [ip_address] record and table are exactly as they were. *)
Theorem authenticate_user_frame (self : AuthService.t) (db db' : table)
    (email password : string) (ip_address : option string) (salt : string) (now : Z)
    (user' : User.t) :
  AuthService.authenticate_user self db email password ip_address salt now
  = (Ok user', db') ->
  exists user,
    Db.get_by_natural_key db (Py.strip (Py.lower email)) = Ok user
    /\ same_but_login_fields_and_hash user user'
    /\ User.password user'
       = (if must_update (User.password user) then make_password salt password
          else User.password user)
    /\ Forall2 (fun row row' => same_but_login_fields_and_hash row row'
                                /\ (User.id row <> User.id user -> row' = row)) db db'
    /\ (ip_address = None ->
        user' = rehashed_user password salt user /\ db' = rehashed db password salt user)
    /\ (must_update (User.password user) = false ->
        same_but_login_fields user user'
        /\ Forall2 (fun row row' => same_but_login_fields row row'
                                    /\ (User.id row <> User.id user -> row' = row)) db db'
        /\ (ip_address = None -> user' = user /\ db' = db)).
Proof.
  intros Hres.
  destruct (authenticate_user_inv _ _ _ _ _ _ _ _ _ Hres)
    as (_ & _ & user & Hrow & Hpw & _ & Hcase).
  exists user. split; [exact Hrow|].
  destruct (rehashed_user_frame password salt user) as (Hsame & Hupd & Hip & Hhash).
  pose proof (rehashed_frame db password salt user) as Hrows.
  assert (Hneed : rehash_needed password user = must_update (User.password user))
    by (unfold rehash_needed; rewrite Hpw; reflexivity).
  rewrite Hneed in Hhash.
  assert (Hcurrent : must_update (User.password user) = false ->
                     rehashed_user password salt user = user
                     /\ rehashed db password salt user = db).
  { intros Hm. unfold rehashed_user, rehashed. rewrite Hneed, Hm. auto. }
  destruct Hcase as [(-> & -> & Hnoip)|(ip & -> & _ & -> & ->)].
  - split; [exact Hsame|]. split; [exact Hhash|]. split.
    { eapply Forall2_impl; [exact Hrows|]. cbv beta. tauto. }
    split; [auto|].
    intros Hm. destruct (Hcurrent Hm) as [-> ->].
    split; [apply same_but_login_fields_refl|]. split; [|auto].
    clear. induction db; constructor; auto using same_but_login_fields_refl.
  - split; [exact Hsame|]. split; [exact Hhash|]. split.
    { clear -Hrows. induction Hrows as [|r r' l l' (Hs & _ & _ & Hother) _ IH];
        [constructor|]. cbn [map]. constructor; [|exact IH].
      destruct Hs as (I1 & I2 & I3 & I4 & I5 & I6 & I7 & I8 & I9 & I10 & I11).
      destruct (N.eqb_spec (User.id r') (User.id user)) as [Heq|Hne].
      - split; [repeat split; assumption|]. congruence.
      - split; [repeat split; assumption|exact Hother]. }
    split; [discriminate|].
    intros Hm. destruct (Hcurrent Hm) as [-> ->].
    split; [repeat split|]. split; [|discriminate].
    apply Forall2_map_row. intros row.
    destruct (N.eqb_spec (User.id row) (User.id user)) as [Heq|Hne].
    + split; [repeat split | congruence].
    + split; [apply same_but_login_fields_refl | reflexivity].
Qed.

End AuthenticateUser.

(** C1. The deactivated account [dana] signs in with her own password: the
    service raises the error of a wrong password, not the deactivation
    error, and the table is as it was. *)
Theorem authenticate_user_deactivated_account :
  AuthService.authenticate_user (H := Demo.framework) Demo.service Demo.db
    "dana@example.com" "battery staple" (Some "10.0.0.7") "salt" 1700000100000000
  = (Raise (AuthenticationError "Invalid email or password"), Demo.db)
  /\ check_password (Framework := Demo.framework) "battery staple"
       (User.password Demo.dana) = true
  /\ User.is_active Demo.dana = false.
Proof. vm_compute. auto. Qed.

Lemma authenticate_user_frame_witness :
  exists user,
    Db.get_by_natural_key Demo.db (Py.strip (Py.lower " Alice@Example.com")) = Ok user
    /\ same_but_login_fields_and_hash user
         (User.set_updated_at 1700000100000000
            (User.set_last_login_ip (Some "10.0.0.7") Demo.alice))
    /\ User.password
         (User.set_updated_at 1700000100000000
            (User.set_last_login_ip (Some "10.0.0.7") Demo.alice))
       = (if must_update (Framework := Demo.framework) (User.password user)
          then make_password (Framework := Demo.framework) "salt" "correct horse"
          else User.password user)
    /\ Forall2 (fun row row' => same_but_login_fields_and_hash row row'
                                /\ (User.id row <> User.id user -> row' = row))
         Demo.db
         [User.set_updated_at 1700000100000000
            (User.set_last_login_ip (Some "10.0.0.7") Demo.alice); Demo.dana]
    /\ (Some "10.0.0.7" = None ->
        User.set_updated_at 1700000100000000
          (User.set_last_login_ip (Some "10.0.0.7") Demo.alice)
        = rehashed_user (H := Demo.framework) "correct horse" "salt" user
        /\ [User.set_updated_at 1700000100000000
              (User.set_last_login_ip (Some "10.0.0.7") Demo.alice); Demo.dana]
           = rehashed (H := Demo.framework) Demo.db "correct horse" "salt" user)
    /\ (must_update (Framework := Demo.framework) (User.password user) = false ->
        same_but_login_fields user
          (User.set_updated_at 1700000100000000
             (User.set_last_login_ip (Some "10.0.0.7") Demo.alice))
        /\ Forall2 (fun row row' => same_but_login_fields row row'
                                    /\ (User.id row <> User.id user -> row' = row))
             Demo.db
             [User.set_updated_at 1700000100000000
                (User.set_last_login_ip (Some "10.0.0.7") Demo.alice); Demo.dana]
        /\ (Some "10.0.0.7" = None ->
            User.set_updated_at 1700000100000000
              (User.set_last_login_ip (Some "10.0.0.7") Demo.alice) = user
            /\ [User.set_updated_at 1700000100000000
                  (User.set_last_login_ip (Some "10.0.0.7") Demo.alice); Demo.dana]
               = Demo.db)).
Proof.
  apply (authenticate_user_frame (H := Demo.framework) Demo.service Demo.db _
           " Alice@Example.com" "correct horse" (Some "10.0.0.7") "salt"
           1700000100000000).
  vm_compute. reflexivity.
Defined.

(** [erin], whose stored hash is outdated, signs in without an address:
    the call succeeds, and the returned record and the stored row carry a
    new password hash, so record and table are not as they were. *)
Lemma authenticate_user_frame_counterexample :
  AuthService.authenticate_user (H := Demo.framework) Demo.service [Demo.erin]
    "erin@example.com" "open sesame" None "salt" 1700000100000000
  = (Ok (User.set_password_hash "plain$open sesame" Demo.erin),
     [User.set_password_hash "plain$open sesame" Demo.erin])
  /\ User.password (User.set_password_hash "plain$open sesame" Demo.erin)
     <> User.password Demo.erin
  /\ [User.set_password_hash "plain$open sesame" Demo.erin] <> [Demo.erin].
Proof. vm_compute. repeat split; discriminate. Qed.

(** ** The token codec and [create_tokens] *)

Section TokenFacts.
Context `{Framework}.

Lemma time_claim_datetime (k : string) (payload : gmap string pyvalue) (dt : Z) :
  payload !! k = Some (PDatetime dt) ->
  Jwt.time_claim k payload = <[k := PInt (Datetime.timegm dt)]> payload.
Proof. intros Hk. unfold Jwt.time_claim. rewrite Hk. reflexivity. Qed.

Lemma time_claim_absent (k : string) (payload : gmap string pyvalue) :
  payload !! k = None -> Jwt.time_claim k payload = payload.
Proof. intros Hk. unfold Jwt.time_claim. rewrite Hk. reflexivity. Qed.

Lemma encode_access_payload (key algorithm user_id email username : string)
    (is_staff is_superuser email_verified : bool) (exp iat : Z) :
  Jwt.encode
    (list_to_map
       [ ("user_id", PStr user_id); ("email", PStr email); ("username", PStr username);
         ("is_staff", PBool is_staff); ("is_superuser", PBool is_superuser);
         ("email_verified", PBool email_verified);
         ("exp", PDatetime exp); ("iat", PDatetime iat); ("type", PStr "access") ])
    key algorithm
  = Ok (Jwt.Compact
          (Jwt.Jws algorithm
             (list_to_map
                [ ("user_id", JStr user_id); ("email", JStr email);
                  ("username", JStr username); ("is_staff", JBool is_staff);
                  ("is_superuser", JBool is_superuser);
                  ("email_verified", JBool email_verified);
                  ("exp", JInt (Datetime.timegm exp)); ("iat", JInt (Datetime.timegm iat));
                  ("type", JStr "access") ])
             (jws_sign algorithm key
                (list_to_map
                   [ ("user_id", JStr user_id); ("email", JStr email);
                     ("username", JStr username); ("is_staff", JBool is_staff);
                     ("is_superuser", JBool is_superuser);
                     ("email_verified", JBool email_verified);
                     ("exp", JInt (Datetime.timegm exp)); ("iat", JInt (Datetime.timegm iat));
                     ("type", JStr "access") ])))).
Proof.
  unfold Jwt.encode.
  rewrite (time_claim_datetime "exp" _ exp) by (vm_compute; reflexivity).
  generalize (Datetime.timegm exp) as exp'. intros exp'.
  rewrite (time_claim_datetime "iat" _ iat) by (vm_compute; reflexivity).
  generalize (Datetime.timegm iat) as iat'. intros iat'.
  rewrite time_claim_absent by (vm_compute; reflexivity).
  vm_compute. reflexivity.
Qed.
Lemma encode_refresh_payload (key algorithm user_id email jti : string) (exp iat : Z) :
  Jwt.encode
    (list_to_map
       [ ("user_id", PStr user_id); ("email", PStr email);
         ("exp", PDatetime exp); ("iat", PDatetime iat); ("type", PStr "refresh");
         ("jti", PStr jti) ])
    key algorithm
  = Ok (Jwt.Compact
          (Jwt.Jws algorithm
             (list_to_map
                [ ("user_id", JStr user_id); ("email", JStr email);
                  ("exp", JInt (Datetime.timegm exp)); ("iat", JInt (Datetime.timegm iat));
                  ("type", JStr "refresh"); ("jti", JStr jti) ])
             (jws_sign algorithm key
                (list_to_map
                   [ ("user_id", JStr user_id); ("email", JStr email);
                     ("exp", JInt (Datetime.timegm exp)); ("iat", JInt (Datetime.timegm iat));
                     ("type", JStr "refresh"); ("jti", JStr jti) ])))).
Proof.
  unfold Jwt.encode.
  rewrite (time_claim_datetime "exp" _ exp) by (vm_compute; reflexivity).
  generalize (Datetime.timegm exp) as exp'. intros exp'.
  rewrite (time_claim_datetime "iat" _ iat) by (vm_compute; reflexivity).
  generalize (Datetime.timegm iat) as iat'. intros iat'.
  rewrite time_claim_absent by (vm_compute; reflexivity).
  vm_compute. reflexivity.
Qed.

Lemma create_tokens_eq (self : AuthService.t) (user : User.t) (now : Z) :
  AuthService.create_tokens self user now
  = Ok (list_to_map
          [ ("access_token", TToken (signed self (access_claims self user now)));
            ("refresh_token", TToken (signed self (refresh_claims self user now)));
            ("token_type", TStr "Bearer");
            ("expires_in",
             TInt (Datetime.total_seconds_int (AuthService.access_token_lifetime self))) ]).
Proof.
  unfold AuthService.create_tokens. cbv zeta.
  rewrite encode_access_payload, encode_refresh_payload. reflexivity.
Qed.

Lemma decode_signed (self : AuthService.t) (claims : gmap string json) (now : Z) :
  Jwt.decode (signed self claims) (AuthService.secret_key self)
    [AuthService.algorithm self] now
  = (_ ← Jwt.validate_claims claims now; Ok claims).
Proof.
  unfold Jwt.decode, signed. simpl. rewrite !String.eqb_refl. reflexivity.
Qed.

End TokenFacts.

Ltac opaque_leaves :=
  repeat match goal with
    | |- context [Uuid.str ?x] => generalize (Uuid.str x); intro
    | |- context [Datetime.timegm ?x] => generalize (Datetime.timegm x); intro
    | |- context [AuthService._generate_token_id ?a ?b ?c] =>
        generalize (AuthService._generate_token_id a b c); intro
    end.

Ltac claims_compute :=
  unfold access_claims, refresh_claims; opaque_leaves; vm_compute; reflexivity.

(** ** Arithmetic of token times *)

Lemma timegm_le (dt : Z) : Datetime.timegm dt * Datetime.second <= dt.
Proof.
  unfold Datetime.timegm, Datetime.second.
  pose proof (Z.mul_div_le dt 1000000). lia.
Qed.

Lemma timegm_lt (dt : Z) : dt < (Datetime.timegm dt + 1) * Datetime.second.
Proof.
  unfold Datetime.timegm, Datetime.second.
  pose proof (Z.mul_succ_div_gt dt 1000000). lia.
Qed.

Lemma timegm_add_seconds (dt n : Z) :
  Datetime.timegm (dt + n * Datetime.second) = Datetime.timegm dt + n.
Proof. unfold Datetime.timegm, Datetime.second. apply Z.div_add. lia. Qed.

Lemma timegm_access_exp (key : string) (now : Z) :
  Datetime.timegm (now + AuthService.access_token_lifetime (AuthService.new key))
  = Datetime.timegm now + 3600.
Proof.
  change (AuthService.access_token_lifetime (AuthService.new key))
    with (3600 * Datetime.second).
  apply timegm_add_seconds.
Qed.

Lemma timegm_refresh_exp (key : string) (now : Z) :
  Datetime.timegm (now + AuthService.refresh_token_lifetime (AuthService.new key))
  = Datetime.timegm now + 604800.
Proof.
  change (AuthService.refresh_token_lifetime (AuthService.new key))
    with (604800 * Datetime.second).
  apply timegm_add_seconds.
Qed.

(** ** The digest text *)

Lemma land_15_bounds (x : Z) : 0 <= Z.land x 15 < 16.
Proof.
  change 15 with (Z.ones 4). rewrite Z.land_ones by lia.
  apply Z.mod_pos_bound. lia.
Qed.

Lemma hex_digit_is_hex (d : Z) : 0 <= d < 16 -> is_hex_char (Py.hex_digit d) = true.
Proof.
  intros Hd.
  assert (Hcases : d = 0 \/ d = 1 \/ d = 2 \/ d = 3 \/ d = 4 \/ d = 5 \/ d = 6 \/ d = 7 \/
                   d = 8 \/ d = 9 \/ d = 10 \/ d = 11 \/ d = 12 \/ d = 13 \/ d = 14 \/ d = 15)
    by lia.
  repeat (destruct Hcases as [->|Hcases]; [reflexivity|]). subst d. reflexivity.
Qed.

Lemma hex_fixed_length (width : nat) (z : Z) : length (Py.hex_fixed width z) = width.
Proof. induction width as [|w IH]; simpl; congruence. Qed.

Lemma hex_fixed_is_hex (width : nat) (z : Z) :
  Forall (fun c => is_hex_char c = true) (Py.hex_fixed width z).
Proof.
  induction width as [|w IH]; simpl; constructor; [|exact IH].
  apply hex_digit_is_hex, land_15_bounds.
Qed.

Lemma hexdigest_chars (msg : string) :
  exists l, SHA256.hexdigest msg = Py.of_chars l
            /\ length l = 64%nat
            /\ Forall (fun c => is_hex_char c = true) l.
Proof.
  unfold SHA256.hexdigest. eexists. split; [reflexivity|]. split.
  - rewrite !length_app, !hex_fixed_length. reflexivity.
  - repeat (apply Forall_app; split); apply hex_fixed_is_hex.
Qed.

Lemma prefix_of_chars (n : nat) (l : list ascii) :
  Py.prefix n (Py.of_chars l) = Py.of_chars (take n l).
Proof.
  unfold Py.prefix. revert l. induction n as [|n IH]; intros [|c l]; simpl; try reflexivity.
  - rewrite IH. reflexivity.
Qed.

Lemma length_of_chars (l : list ascii) : String.length (Py.of_chars l) = length l.
Proof. induction l as [|c l IH]; simpl; congruence. Qed.

Lemma generate_token_id_shape (self : AuthService.t) (user_id : string) (timestamp : Z) :
  String.length (AuthService._generate_token_id self user_id timestamp) = 16%nat
  /\ Forall (fun c => is_hex_char c = true)
       (Py.chars (AuthService._generate_token_id self user_id timestamp)).
Proof.
  unfold AuthService._generate_token_id.
  destruct (hexdigest_chars
              (user_id +:+ ":" +:+ Datetime.isoformat timestamp +:+ ":" +:+
               AuthService.secret_key self)) as (l & -> & Hlen & Hhex).
  rewrite prefix_of_chars. split.
  - rewrite length_of_chars, length_take. lia.
  - rewrite String.list_ascii_of_string_of_list_ascii. apply Forall_take, Hhex.
Qed.

Example test_create_tokens :
  exists tokens,
    AuthService.create_tokens (H := Demo.framework) Demo.service Demo.test_user
      1700000001000000 = Ok tokens
    /\ dom tokens
       = ({[ "access_token"; "refresh_token"; "token_type"; "expires_in" ]} : gset string)
    /\ tokens !! "token_type" = Some (TStr "Bearer").
Proof.
  eexists. split; [apply create_tokens_eq|].
  generalize (TToken (signed (H := Demo.framework) Demo.service
                        (access_claims Demo.service Demo.test_user 1700000001000000))).
  generalize (TToken (signed (H := Demo.framework) Demo.service
                        (refresh_claims Demo.service Demo.test_user 1700000001000000))).
  intros r a. split; vm_compute; reflexivity.
Qed.

Example test_get_user_from_token :
  AuthService.get_user_from_token (H := Demo.framework) Demo.service [Demo.test_user]
    (signed (H := Demo.framework) Demo.service
       (access_claims Demo.service Demo.test_user 1700000001000000))
    1700000002000000
  = Ok Demo.test_user.
Proof. vm_compute. reflexivity. Qed.

Example test_refresh_access_token :
  AuthService.refresh_access_token (H := Demo.framework) Demo.service [Demo.test_user]
    (signed (H := Demo.framework) Demo.service
       (refresh_claims Demo.service Demo.test_user 1700000001000000))
    1700000002000000 1700000002000001
  = Ok (list_to_map
          [ ("access_token",
             TToken (signed (H := Demo.framework) Demo.service
                       (access_claims Demo.service Demo.test_user 1700000002000001)));
            ("token_type", TStr "Bearer");
            ("expires_in", TInt 3600) ]).
Proof. vm_compute. reflexivity. Qed.

Section ClaimsLookups.
Context `{Framework}.

Lemma access_claims_dom (self : AuthService.t) (user : User.t) (now : Z) :
  dom (access_claims self user now)
  = ({[ "user_id"; "email"; "username"; "is_staff"; "is_superuser"; "email_verified";
        "iat"; "exp"; "type" ]} : gset string).
Proof. claims_compute. Qed.

Lemma refresh_claims_dom (self : AuthService.t) (user : User.t) (now : Z) :
  dom (refresh_claims self user now)
  = ({[ "user_id"; "email"; "iat"; "exp"; "type"; "jti" ]} : gset string).
Proof. claims_compute. Qed.

Lemma access_claims_user_id self user now :
  access_claims self user now !! "user_id" = Some (JStr (Uuid.str (User.id user))).
Proof. claims_compute. Qed.

Lemma access_claims_email self user now :
  access_claims self user now !! "email" = Some (JStr (User.email user)).
Proof. claims_compute. Qed.

Lemma access_claims_username self user now :
  access_claims self user now !! "username" = Some (JStr (User.username user)).
Proof. claims_compute. Qed.

Lemma access_claims_is_staff self user now :
  access_claims self user now !! "is_staff" = Some (JBool (User.is_staff user)).
Proof. claims_compute. Qed.

Lemma access_claims_is_superuser self user now :
  access_claims self user now !! "is_superuser" = Some (JBool (User.is_superuser user)).
Proof. claims_compute. Qed.

Lemma access_claims_email_verified self user now :
  access_claims self user now !! "email_verified" = Some (JBool (User.email_verified user)).
Proof. claims_compute. Qed.

Lemma access_claims_iat self user now :
  access_claims self user now !! "iat" = Some (JInt (Datetime.timegm now)).
Proof. claims_compute. Qed.

Lemma access_claims_exp self user now :
  access_claims self user now !! "exp"
  = Some (JInt (Datetime.timegm (now + AuthService.access_token_lifetime self))).
Proof. claims_compute. Qed.

Lemma access_claims_type self user now :
  access_claims self user now !! "type" = Some (JStr "access").
Proof. claims_compute. Qed.

Lemma access_claims_nbf self user now : access_claims self user now !! "nbf" = None.
Proof. claims_compute. Qed.

Lemma access_claims_aud self user now : access_claims self user now !! "aud" = None.
Proof. claims_compute. Qed.

Lemma refresh_claims_user_id self user now :
  refresh_claims self user now !! "user_id" = Some (JStr (Uuid.str (User.id user))).
Proof. claims_compute. Qed.

Lemma refresh_claims_email self user now :
  refresh_claims self user now !! "email" = Some (JStr (User.email user)).
Proof. claims_compute. Qed.

Lemma refresh_claims_iat self user now :
  refresh_claims self user now !! "iat" = Some (JInt (Datetime.timegm now)).
Proof. claims_compute. Qed.

Lemma refresh_claims_exp self user now :
  refresh_claims self user now !! "exp"
  = Some (JInt (Datetime.timegm (now + AuthService.refresh_token_lifetime self))).
Proof. claims_compute. Qed.

Lemma refresh_claims_type self user now :
  refresh_claims self user now !! "type" = Some (JStr "refresh").
Proof. claims_compute. Qed.

Lemma refresh_claims_jti self user now :
  refresh_claims self user now !! "jti"
  = Some (JStr (AuthService._generate_token_id self (Uuid.str (User.id user)) now)).
Proof. claims_compute. Qed.

Lemma refresh_claims_nbf self user now : refresh_claims self user now !! "nbf" = None.
Proof. claims_compute. Qed.

Lemma refresh_claims_aud self user now : refresh_claims self user now !! "aud" = None.
Proof. claims_compute. Qed.

Lemma access_claims_sub self user now : access_claims self user now !! "sub" = None.
Proof. claims_compute. Qed.

Lemma access_claims_jti self user now : access_claims self user now !! "jti" = None.
Proof. claims_compute. Qed.

Lemma refresh_claims_sub self user now : refresh_claims self user now !! "sub" = None.
Proof. claims_compute. Qed.

(** C5. For the service that [__init__] builds, [create_tokens] returns the
    four entries [access_token], [refresh_token], [token_type = "Bearer"] and
    [expires_in = 3600].  The access token carries exactly the nine claims
    [user_id], [email], [username], [is_staff], [is_superuser],
    [email_verified], [iat], [exp], [type = "access"] with [exp = iat + 3600]
    seconds; the refresh token carries exactly [user_id], [email], [iat],
    [exp], [type = "refresh"], [jti] with [exp = iat + 604800] seconds.  The
    [jti] is the first 16 hexadecimal characters of the SHA-256 of the user
    id, the ISO-8601 issue time and the secret joined by colons. *)
Theorem create_tokens_payloads (key : string) (user : User.t) (now : Z) :
  let self := AuthService.new key in
  exists access refresh : gmap string json,
    AuthService.create_tokens self user now
    = Ok (list_to_map
            [ ("access_token", TToken (signed self access));
              ("refresh_token", TToken (signed self refresh));
              ("token_type", TStr "Bearer");
              ("expires_in", TInt 3600) ])
    /\ dom access
       = ({[ "user_id"; "email"; "username"; "is_staff"; "is_superuser"; "email_verified";
             "iat"; "exp"; "type" ]} : gset string)
    /\ access !! "user_id" = Some (JStr (Uuid.str (User.id user)))
    /\ access !! "email" = Some (JStr (User.email user))
    /\ access !! "username" = Some (JStr (User.username user))
    /\ access !! "is_staff" = Some (JBool (User.is_staff user))
    /\ access !! "is_superuser" = Some (JBool (User.is_superuser user))
    /\ access !! "email_verified" = Some (JBool (User.email_verified user))
    /\ access !! "iat" = Some (JInt (Datetime.timegm now))
    /\ access !! "exp" = Some (JInt (Datetime.timegm now + 3600))
    /\ access !! "type" = Some (JStr "access")
    /\ dom refresh = ({[ "user_id"; "email"; "iat"; "exp"; "type"; "jti" ]} : gset string)
    /\ refresh !! "user_id" = Some (JStr (Uuid.str (User.id user)))
    /\ refresh !! "email" = Some (JStr (User.email user))
    /\ refresh !! "iat" = Some (JInt (Datetime.timegm now))
    /\ refresh !! "exp" = Some (JInt (Datetime.timegm now + 604800))
    /\ refresh !! "type" = Some (JStr "refresh")
    /\ (exists jti,
          refresh !! "jti" = Some (JStr jti)
          /\ jti = Py.prefix 16
                     (SHA256.hexdigest
                        (Uuid.str (User.id user) +:+ ":" +:+ Datetime.isoformat now
                         +:+ ":" +:+ key))
          /\ String.length jti = 16%nat
          /\ Forall (fun c => is_hex_char c = true) (Py.chars jti)).
Proof.
  intros self.
  exists (access_claims self user now), (refresh_claims self user now).
  split; [apply create_tokens_eq|].
  split; [apply access_claims_dom|].
  split; [apply access_claims_user_id|].
  split; [apply access_claims_email|].
  split; [apply access_claims_username|].
  split; [apply access_claims_is_staff|].
  split; [apply access_claims_is_superuser|].
  split; [apply access_claims_email_verified|].
  split; [apply access_claims_iat|].
  split; [rewrite access_claims_exp; unfold self; rewrite timegm_access_exp; reflexivity|].
  split; [apply access_claims_type|].
  split; [apply refresh_claims_dom|].
  split; [apply refresh_claims_user_id|].
  split; [apply refresh_claims_email|].
  split; [apply refresh_claims_iat|].
  split; [rewrite refresh_claims_exp; unfold self; rewrite timegm_refresh_exp; reflexivity|].
  split; [apply refresh_claims_type|].
  eexists. split; [apply refresh_claims_jti|].
  split; [reflexivity|]. apply generate_token_id_shape.
Qed.

End ClaimsLookups.

(** The refresh token issued to [alice] carries the digest of the
    colon-joined text; the digest of the three texts put together without
    the colons is another one. *)
Lemma create_tokens_jti_counterexample :
  exists tokens refresh,
    AuthService.create_tokens (H := Demo.framework) Demo.service Demo.alice 1700000100000000
    = Ok tokens
    /\ tokens !! "refresh_token"
       = Some (TToken (signed (H := Demo.framework) Demo.service refresh))
    /\ refresh !! "jti" = Some (JStr "a697cbf20d274449")
    /\ Py.prefix 16
         (SHA256.hexdigest
            (Uuid.str (User.id Demo.alice) +:+ Datetime.isoformat 1700000100000000
             +:+ AuthService.secret_key Demo.service))
       = "4f82bf022d4afa5b".
Proof.
  eexists. exists (refresh_claims Demo.service Demo.alice 1700000100000000).
  split; [apply create_tokens_eq|].
  split; [vm_compute; reflexivity|].
  split; vm_compute; reflexivity.
Qed.

(** ** Token validation *)

Section Validation.
Context `{Framework}.

Lemma validate_access_token_signed (self : AuthService.t) (claims : gmap string json)
    (now : Z) :
  AuthService.validate_access_token self (signed self claims) now
  = match Jwt.validate_claims claims now with
    | Ok _ =>
        if bool_decide (claims !! "type" ≠ Some (JStr "access"))
        then Raise (TokenError "Invalid token type") else Ok claims
    | Raise (JwtError (ExpiredSignatureError _)) => Raise (TokenError "Token has expired")
    | Raise (JwtError e) => Raise (TokenError ("Invalid token: " +:+ jwt_str e))
    | Raise e => Raise e
    end.
Proof.
  unfold AuthService.validate_access_token. rewrite decode_signed.
  destruct (Jwt.validate_claims claims now) as [[]|e]; reflexivity.
Qed.

Lemma validate_refresh_token_signed (self : AuthService.t) (claims : gmap string json)
    (now : Z) :
  AuthService.validate_refresh_token self (signed self claims) now
  = match Jwt.validate_claims claims now with
    | Ok _ =>
        if bool_decide (claims !! "type" ≠ Some (JStr "refresh"))
        then Raise (TokenError "Invalid token type") else Ok claims
    | Raise (JwtError (ExpiredSignatureError _)) =>
        Raise (TokenError "Refresh token has expired")
    | Raise (JwtError e) => Raise (TokenError ("Invalid refresh token: " +:+ jwt_str e))
    | Raise e => Raise e
    end.
Proof.
  unfold AuthService.validate_refresh_token. rewrite decode_signed.
  destruct (Jwt.validate_claims claims now) as [[]|e]; reflexivity.
Qed.

(** Claims with integer [iat] and [exp], neither [nbf] nor [aud], and
    [sub] and [jti] absent or strings. *)
Lemma validate_claims_issued (claims : gmap string json) (iat exp now : Z) :
  claims !! "iat" = Some (JInt iat) -> claims !! "exp" = Some (JInt exp) ->
  claims !! "nbf" = None -> claims !! "aud" = None ->
  Jwt.validate_sub claims = Ok tt -> Jwt.validate_jti claims = Ok tt ->
  iat * Datetime.second <= now ->
  Jwt.validate_claims claims now
  = if exp * Datetime.second <=? now
    then Raise (JwtError (ExpiredSignatureError "Signature has expired"))
    else Ok tt.
Proof.
  intros Hiat Hexp Hnbf Haud Hsub Hjti Hle.
  unfold Jwt.validate_claims, Jwt.validate_iat, Jwt.validate_nbf, Jwt.validate_exp,
    Jwt.validate_aud.
  rewrite Hiat, Hexp, Hnbf, Haud, Hsub, Hjti. simpl.
  destruct (Z.ltb_spec now (iat * Datetime.second)); [lia|]. simpl.
  destruct (exp * Datetime.second <=? now); reflexivity.
Qed.

Lemma validate_claims_access (key : string) (user : User.t) (issued now : Z) :
  issued <= now ->
  Jwt.validate_claims (access_claims (AuthService.new key) user issued) now
  = if (Datetime.timegm issued + 3600) * Datetime.second <=? now
    then Raise (JwtError (ExpiredSignatureError "Signature has expired"))
    else Ok tt.
Proof.
  intros Hle. rewrite <- (timegm_access_exp key).
  apply (validate_claims_issued _ (Datetime.timegm issued)).
  - apply access_claims_iat.
  - apply access_claims_exp.
  - apply access_claims_nbf.
  - apply access_claims_aud.
  - unfold Jwt.validate_sub. rewrite access_claims_sub. reflexivity.
  - unfold Jwt.validate_jti. rewrite access_claims_jti. reflexivity.
  - pose proof (timegm_le issued). lia.
Qed.

Lemma validate_claims_refresh (key : string) (user : User.t) (issued now : Z) :
  issued <= now ->
  Jwt.validate_claims (refresh_claims (AuthService.new key) user issued) now
  = if (Datetime.timegm issued + 604800) * Datetime.second <=? now
    then Raise (JwtError (ExpiredSignatureError "Signature has expired"))
    else Ok tt.
Proof.
  intros Hle. rewrite <- (timegm_refresh_exp key).
  apply (validate_claims_issued _ (Datetime.timegm issued)).
  - apply refresh_claims_iat.
  - apply refresh_claims_exp.
  - apply refresh_claims_nbf.
  - apply refresh_claims_aud.
  - unfold Jwt.validate_sub. rewrite refresh_claims_sub. reflexivity.
  - unfold Jwt.validate_jti. rewrite refresh_claims_jti. reflexivity.
  - pose proof (timegm_le issued). lia.
Qed.

(** C2. The access token that [create_tokens] issues validates at every
    clock from its issue up to its expiry, in particular at the instant of
    issue, and the claims read back carry [str(user.id)] under [user_id] and
    ["access"] under [type]. *)
Theorem validate_created_access_token (key : string) (user : User.t) (issued now : Z) :
  let self := AuthService.new key in
  issued <= now -> now < (Datetime.timegm issued + 3600) * Datetime.second ->
  exists tokens access_token claims,
    AuthService.create_tokens self user issued = Ok tokens
    /\ tokens !! "access_token" = Some (TToken access_token)
    /\ AuthService.validate_access_token self access_token now = Ok claims
    /\ claims !! "user_id" = Some (JStr (Uuid.str (User.id user)))
    /\ claims !! "type" = Some (JStr "access").
Proof.
  intros self Hissued Hexp.
  eexists. exists (signed self (access_claims self user issued)).
  exists (access_claims self user issued).
  split; [apply create_tokens_eq|].
  split; [reflexivity|].
  split.
  - rewrite validate_access_token_signed. unfold self.
    rewrite validate_claims_access by exact Hissued.
    destruct (Z.leb_spec ((Datetime.timegm issued + 3600) * Datetime.second) now); [lia|].
    rewrite access_claims_type. reflexivity.
  - split; [apply access_claims_user_id | apply access_claims_type].
Qed.

End Validation.

Lemma validate_created_access_token_witness :
  exists tokens access_token claims,
    AuthService.create_tokens (H := Demo.framework) (AuthService.new "demo-signing-key")
      Demo.alice 1700000100000000 = Ok tokens
    /\ tokens !! "access_token" = Some (TToken access_token)
    /\ AuthService.validate_access_token (H := Demo.framework)
         (AuthService.new "demo-signing-key") access_token 1700000100000000 = Ok claims
    /\ claims !! "user_id" = Some (JStr (Uuid.str (User.id Demo.alice)))
    /\ claims !! "type" = Some (JStr "access").
Proof.
  apply (validate_created_access_token (H := Demo.framework) "demo-signing-key" Demo.alice
           1700000100000000 1700000100000000).
  - lia.
  - vm_compute. reflexivity.
Defined.

Section WrongType.
Context `{Framework}.

Lemma validate_iat_raises (claims : gmap string json) (now : Z) (e : exn) :
  Jwt.validate_iat claims now = Raise e ->
  exists j, e = JwtError j /\ forall m, j <> ExpiredSignatureError m.
Proof.
  unfold Jwt.validate_iat.
  destruct (claims !! "iat") as [v|]; [|discriminate].
  destruct (Jwt.int v) as [iat|];
    [destruct (now <? iat * Datetime.second); [|discriminate]|];
    intros [= <-]; eexists; split; try reflexivity; discriminate.
Qed.

Lemma validate_nbf_raises (claims : gmap string json) (now : Z) (e : exn) :
  Jwt.validate_nbf claims now = Raise e ->
  exists j, e = JwtError j /\ forall m, j <> ExpiredSignatureError m.
Proof.
  unfold Jwt.validate_nbf.
  destruct (claims !! "nbf") as [v|]; [|discriminate].
  destruct (Jwt.int v) as [nbf|];
    [destruct (now <? nbf * Datetime.second); [|discriminate]|];
    intros [= <-]; eexists; split; try reflexivity; discriminate.
Qed.

Lemma validate_aud_raises (claims : gmap string json) (e : exn) :
  Jwt.validate_aud claims = Raise e ->
  exists j, e = JwtError j /\ forall m, j <> ExpiredSignatureError m.
Proof.
  unfold Jwt.validate_aud.
  destruct (claims !! "aud") as [v|]; [|discriminate].
  destruct (Jwt.truthy v); [|discriminate].
  intros [= <-]. eexists. split; [reflexivity|discriminate].
Qed.

Lemma validate_sub_raises (claims : gmap string json) (e : exn) :
  Jwt.validate_sub claims = Raise e ->
  exists j, e = JwtError j /\ forall m, j <> ExpiredSignatureError m.
Proof.
  unfold Jwt.validate_sub.
  destruct (claims !! "sub") as [[]|]; try discriminate;
    intros [= <-]; eexists; (split; [reflexivity|discriminate]).
Qed.

Lemma validate_jti_raises (claims : gmap string json) (e : exn) :
  Jwt.validate_jti claims = Raise e ->
  exists j, e = JwtError j /\ forall m, j <> ExpiredSignatureError m.
Proof.
  unfold Jwt.validate_jti.
  destruct (claims !! "jti") as [[]|]; try discriminate;
    intros [= <-]; eexists; (split; [reflexivity|discriminate]).
Qed.

Lemma validate_exp_raises (claims : gmap string json) (now : Z) (e : exn) :
  Jwt.validate_exp claims now = Raise e -> exists j, e = JwtError j.
Proof.
  unfold Jwt.validate_exp.
  destruct (claims !! "exp") as [v|]; [|discriminate].
  destruct (Jwt.int v) as [exp|];
    [destruct (exp * Datetime.second <=? now); [|discriminate]|];
    intros [= <-]; eexists; reflexivity.
Qed.

(** The claim checks raise only exceptions of PyJWT, and the expiry error
    only where the expiry check raises it. *)
Lemma validate_claims_cases (claims : gmap string json) (now : Z) :
  (forall m, Jwt.validate_exp claims now <> Raise (JwtError (ExpiredSignatureError m))) ->
  Jwt.validate_claims claims now = Ok tt
  \/ exists j, Jwt.validate_claims claims now = Raise (JwtError j)
               /\ forall m, j <> ExpiredSignatureError m.
Proof.
  intros Hexp. unfold Jwt.validate_claims.
  destruct (Jwt.validate_iat claims now) as [[]|e] eqn:Hiat.
  2: { apply validate_iat_raises in Hiat as (j & -> & Hj). right. exists j. auto. }
  destruct (Jwt.validate_nbf claims now) as [[]|e] eqn:Hnbf.
  2: { apply validate_nbf_raises in Hnbf as (j & -> & Hj). right. exists j. auto. }
  destruct (Jwt.validate_exp claims now) as [[]|e] eqn:Hx.
  2: { destruct (validate_exp_raises _ _ _ Hx) as (j & ->). right. exists j.
       split; [reflexivity|]. intros m ->. exact (Hexp m eq_refl). }
  destruct (Jwt.validate_aud claims) as [[]|e] eqn:Haud.
  2: { destruct (validate_aud_raises _ _ Haud) as (j & -> & Hj). right. exists j.
       split; [reflexivity|exact Hj]. }
  destruct (Jwt.validate_sub claims) as [[]|e] eqn:Hsub.
  2: { destruct (validate_sub_raises _ _ Hsub) as (j & -> & Hj). right. exists j.
       split; [reflexivity|exact Hj]. }
  destruct (Jwt.validate_jti claims) as [[]|e] eqn:Hjti.
  2: { destruct (validate_jti_raises _ _ Hjti) as (j & -> & Hj). right. exists j.
       split; [reflexivity|exact Hj]. }
  left. reflexivity.
Qed.

Lemma validate_access_token_type (self : AuthService.t) (tok : Jwt.token) (now : Z)
    (out : gmap string json) :
  AuthService.validate_access_token self tok now = Ok out ->
  out !! "type" = Some (JStr "access").
Proof.
  unfold AuthService.validate_access_token.
  destruct (Jwt.decode _ _ _ _) as [payload|e].
  - case_bool_decide as Htype; [discriminate|]. intros [= <-].
    destruct (decide (payload !! "type" = Some (JStr "access"))); [assumption|contradiction].
  - destruct e as [| | | | | | | | | |j]; try discriminate. destruct j; discriminate.
Qed.

Lemma validate_refresh_token_type (self : AuthService.t) (tok : Jwt.token) (now : Z)
    (out : gmap string json) :
  AuthService.validate_refresh_token self tok now = Ok out ->
  out !! "type" = Some (JStr "refresh").
Proof.
  unfold AuthService.validate_refresh_token.
  destruct (Jwt.decode _ _ _ _) as [payload|e].
  - case_bool_decide as Htype; [discriminate|]. intros [= <-].
    destruct (decide (payload !! "type" = Some (JStr "refresh"))); [assumption|contradiction].
  - destruct e as [| | | | | | | | | |j]; try discriminate. destruct j; discriminate.
Qed.

(** C3. A token signed by the service and not refused as expired by the
    codec whose [type] claim is not ["access"] makes [validate_access_token] raise a [TokenError] that is
    not the expiry error, and it is ["Invalid token type"] when the token
    passes every check of the codec; likewise for [validate_refresh_token]
    and ["refresh"].  Neither validator ever returns claims of the other
    type, and the refresh token that [create_tokens] issues is refused by
    [validate_access_token], the access token by [validate_refresh_token],
    at every clock. *)
Theorem validators_reject_wrong_type (key : string) (claims : gmap string json) (now : Z) :
  let self := AuthService.new key in
  (forall m, Jwt.validate_exp claims now <> Raise (JwtError (ExpiredSignatureError m))) ->
  (claims !! "type" <> Some (JStr "access") ->
     exists msg,
       AuthService.validate_access_token self (signed self claims) now = Raise (TokenError msg)
       /\ msg <> "Token has expired"
       /\ (Jwt.validate_claims claims now = Ok tt -> msg = "Invalid token type"))
  /\ (claims !! "type" <> Some (JStr "refresh") ->
     exists msg,
       AuthService.validate_refresh_token self (signed self claims) now = Raise (TokenError msg)
       /\ msg <> "Refresh token has expired"
       /\ (Jwt.validate_claims claims now = Ok tt -> msg = "Invalid token type"))
  /\ (forall tok out,
        AuthService.validate_access_token self tok now = Ok out ->
        out !! "type" = Some (JStr "access"))
  /\ (forall tok out,
        AuthService.validate_refresh_token self tok now = Ok out ->
        out !! "type" = Some (JStr "refresh"))
  /\ (forall user issued out,
        AuthService.validate_access_token self
          (signed self (refresh_claims self user issued)) now <> Ok out)
  /\ (forall user issued out,
        AuthService.validate_refresh_token self
          (signed self (access_claims self user issued)) now <> Ok out).
Proof.
  intros self Hexp.
  split; [|split; [|split; [|split; [|split]]]].
  - intros Htype. rewrite validate_access_token_signed.
    destruct (validate_claims_cases claims now Hexp) as [-> | (j & -> & Hj)].
    + rewrite bool_decide_true by exact Htype.
      eexists. split; [reflexivity|]. split; [discriminate|reflexivity].
    + destruct j; try (eexists; split; [reflexivity|]; split; [discriminate|discriminate]).
      exfalso. eapply Hj. reflexivity.
  - intros Htype. rewrite validate_refresh_token_signed.
    destruct (validate_claims_cases claims now Hexp) as [-> | (j & -> & Hj)].
    + rewrite bool_decide_true by exact Htype.
      eexists. split; [reflexivity|]. split; [discriminate|reflexivity].
    + destruct j; try (eexists; split; [reflexivity|]; split; [discriminate|discriminate]).
      exfalso. eapply Hj. reflexivity.
  - intros tok out. apply validate_access_token_type.
  - intros tok out. apply validate_refresh_token_type.
  - intros user issued out. rewrite validate_access_token_signed.
    destruct (Jwt.validate_claims _ now) as [[]|e].
    + rewrite bool_decide_true by (rewrite refresh_claims_type; discriminate).
      discriminate.
    + destruct e as [| | | | | | | | | |j]; try discriminate. destruct j; discriminate.
  - intros user issued out. rewrite validate_refresh_token_signed.
    destruct (Jwt.validate_claims _ now) as [[]|e].
    + rewrite bool_decide_true by (rewrite access_claims_type; discriminate).
      discriminate.
    + destruct e as [| | | | | | | | | |j]; try discriminate. destruct j; discriminate.
Qed.

End WrongType.

Lemma validators_reject_wrong_type_witness :
  exists msg,
    AuthService.validate_access_token (H := Demo.framework) Demo.service
      (signed (H := Demo.framework) Demo.service
         (refresh_claims Demo.service Demo.alice 1700000100000000)) 1700000200000000
    = Raise (TokenError msg)
    /\ msg <> "Token has expired"
    /\ (Jwt.validate_claims (refresh_claims Demo.service Demo.alice 1700000100000000)
          1700000200000000 = Ok tt -> msg = "Invalid token type").
Proof.
  refine (proj1 (validators_reject_wrong_type (H := Demo.framework) "demo-signing-key"
                   (refresh_claims Demo.service Demo.alice 1700000100000000)
                   1700000200000000 _) _).
  - intros m. vm_compute. discriminate.
  - vm_compute. discriminate.
Defined.

Section Expiry.
Context `{Framework}.

Lemma validate_claims_expired (claims : gmap string json) (v : json) (exp now : Z) :
  claims !! "exp" = Some v -> Jwt.int v = Some exp -> exp * Datetime.second <= now ->
  Jwt.validate_iat claims now = Ok tt -> Jwt.validate_nbf claims now = Ok tt ->
  Jwt.validate_claims claims now
  = Raise (JwtError (ExpiredSignatureError "Signature has expired")).
Proof.
  intros Hexp Hint Hle Hiat Hnbf.
  unfold Jwt.validate_claims. rewrite Hiat, Hnbf. simpl.
  unfold Jwt.validate_exp. rewrite Hexp, Hint.
  destruct (Z.leb_spec (exp * Datetime.second) now); [reflexivity|lia].
Qed.

(** C4. A token signed by the service whose [exp] claim is at or before the
    clock, and whose [iat] and [nbf] claims pass their checks, makes both
    validators raise the expiry error, whatever its [type].  For the tokens
    that [create_tokens] issues and a clock not before the issue: at or
    after the expiry second both validators raise the expiry error; strictly
    before it the validator of the token's kind returns the claims.  A token
    whose signature is not the one the secret gives for its header and
    claims makes both validators raise the invalid-token error, whatever
    its claims and so whatever its expiry: with the header of the service
    the error is the failed signature check. *)
Theorem token_expiry_boundary (key : string) (claims : gmap string json) (v : json)
    (exp : Z) (user : User.t) (issued now : Z) :
  let self := AuthService.new key in
  (claims !! "exp" = Some v -> Jwt.int v = Some exp -> exp * Datetime.second <= now ->
   Jwt.validate_iat claims now = Ok tt -> Jwt.validate_nbf claims now = Ok tt ->
   AuthService.validate_access_token self (signed self claims) now
   = Raise (TokenError "Token has expired")
   /\ AuthService.validate_refresh_token self (signed self claims) now
      = Raise (TokenError "Refresh token has expired"))
  /\ (issued <= now ->
      ((Datetime.timegm issued + 3600) * Datetime.second <= now ->
       AuthService.validate_access_token self
         (signed self (access_claims self user issued)) now
       = Raise (TokenError "Token has expired")
       /\ AuthService.validate_refresh_token self
            (signed self (access_claims self user issued)) now
          = Raise (TokenError "Refresh token has expired"))
      /\ (now < (Datetime.timegm issued + 3600) * Datetime.second ->
          AuthService.validate_access_token self
            (signed self (access_claims self user issued)) now
          = Ok (access_claims self user issued))
      /\ ((Datetime.timegm issued + 604800) * Datetime.second <= now ->
          AuthService.validate_access_token self
            (signed self (refresh_claims self user issued)) now
          = Raise (TokenError "Token has expired")
          /\ AuthService.validate_refresh_token self
               (signed self (refresh_claims self user issued)) now
             = Raise (TokenError "Refresh token has expired"))
      /\ (now < (Datetime.timegm issued + 604800) * Datetime.second ->
          AuthService.validate_refresh_token self
            (signed self (refresh_claims self user issued)) now
          = Ok (refresh_claims self user issued)))
  /\ (forall alg sig,
        sig <> jws_sign alg key claims ->
        exists why,
          AuthService.validate_access_token self
            (Jwt.Compact (Jwt.Jws alg claims sig)) now
          = Raise (TokenError ("Invalid token: " +:+ why))
          /\ AuthService.validate_refresh_token self
               (Jwt.Compact (Jwt.Jws alg claims sig)) now
             = Raise (TokenError ("Invalid refresh token: " +:+ why))
          /\ (alg = "HS256" -> why = "Signature verification failed")).
Proof.
  intros self. split; [|split].
  - intros Hexp Hint Hle Hiat Hnbf.
    rewrite validate_access_token_signed, validate_refresh_token_signed.
    rewrite (validate_claims_expired claims v exp now) by assumption.
    split; reflexivity.
  - intros Hissued. unfold self.
    rewrite !validate_access_token_signed, !validate_refresh_token_signed.
    rewrite validate_claims_access, validate_claims_refresh by exact Hissued.
    split; [|split; [|split]].
    + intros Hle.
      destruct (Z.leb_spec ((Datetime.timegm issued + 3600) * Datetime.second) now); [|lia].
      split; reflexivity.
    + intros Hlt.
      destruct (Z.leb_spec ((Datetime.timegm issued + 3600) * Datetime.second) now); [lia|].
      rewrite access_claims_type. reflexivity.
    + intros Hle.
      destruct (Z.leb_spec ((Datetime.timegm issued + 604800) * Datetime.second) now); [|lia].
      split; reflexivity.
    + intros Hlt.
      destruct (Z.leb_spec ((Datetime.timegm issued + 604800) * Datetime.second) now); [lia|].
      rewrite refresh_claims_type. reflexivity.
  - intros alg sig Hsig.
    unfold AuthService.validate_access_token, AuthService.validate_refresh_token,
      Jwt.decode. cbn [Jwt.alg Jwt.signature Jwt.claims self AuthService.new
                       AuthService.secret_key AuthService.algorithm existsb orb].
    destruct (String.eqb_spec alg "HS256") as [->|Halg]; cbn [orb negb].
    + destruct (String.eqb_spec sig (jws_sign "HS256" key claims)) as [Heq|_];
        [contradiction|]. cbn [negb].
      exists "Signature verification failed". auto.
    + exists "The specified alg value is not allowed".
      split; [reflexivity|]. split; [reflexivity|]. intros ->. contradiction.
Qed.

End Expiry.

(** At the expiry second itself the access token issued to [alice] is
    refused as expired; one microsecond earlier it validates. *)
Lemma token_expiry_boundary_witness :
  (AuthService.validate_access_token (H := Demo.framework) Demo.service
     (signed (H := Demo.framework) Demo.service
        (access_claims Demo.service Demo.alice 1700000100000000)) 1700003700000000
   = Raise (TokenError "Token has expired")
   /\ AuthService.validate_refresh_token (H := Demo.framework) Demo.service
        (signed (H := Demo.framework) Demo.service
           (access_claims Demo.service Demo.alice 1700000100000000)) 1700003700000000
      = Raise (TokenError "Refresh token has expired"))
  /\ AuthService.validate_access_token (H := Demo.framework) Demo.service
       (signed (H := Demo.framework) Demo.service
          (access_claims Demo.service Demo.alice 1700000100000000)) 1700003699999999
     = Ok (access_claims Demo.service Demo.alice 1700000100000000).
Proof.
  split.
  - refine (proj1 (token_expiry_boundary (H := Demo.framework) "demo-signing-key"
                     (access_claims Demo.service Demo.alice 1700000100000000)
                     (JInt 1700003700) 1700003700 Demo.alice 1700000100000000
                     1700003700000000) _ _ _ _ _).
    + vm_compute. reflexivity.
    + reflexivity.
    + vm_compute. discriminate.
    + vm_compute. reflexivity.
    + vm_compute. reflexivity.
  - refine (proj1 (proj2 (proj1 (proj2 (token_expiry_boundary (H := Demo.framework)
                     "demo-signing-key" ∅ (JInt 0) 0 Demo.alice 1700000100000000
                     1700003699999999)) _)) _).
    + vm_compute. discriminate.
    + vm_compute. reflexivity.
Defined.

(** A token with a forged signature and an expiry in the past is refused as
    invalid, not as expired; and the access token issued to [alice],
    presented five seconds before its issue time (and so before its expiry,
    with the right signature and type), is refused. *)
Lemma token_expiry_counterexample :
  access_claims Demo.service Demo.alice 1700000100000000 !! "exp" = Some (JInt 1700003700)
  /\ 1700003700 * Datetime.second <= 1700009999000000
  /\ AuthService.validate_access_token (H := Demo.framework) Demo.service
       (Jwt.Compact
          (Jwt.Jws "HS256" (access_claims Demo.service Demo.alice 1700000100000000) "forged"))
       1700009999000000
     = Raise (TokenError "Invalid token: Signature verification failed")
  /\ AuthService.validate_refresh_token (H := Demo.framework) Demo.service
       (Jwt.Compact
          (Jwt.Jws "HS256" (access_claims Demo.service Demo.alice 1700000100000000) "forged"))
       1700009999000000
     = Raise (TokenError "Invalid refresh token: Signature verification failed")
  /\ 1700000095000000 < 1700003700 * Datetime.second
  /\ AuthService.validate_access_token (H := Demo.framework) Demo.service
       (signed (H := Demo.framework) Demo.service
          (access_claims Demo.service Demo.alice 1700000100000000)) 1700000095000000
     = Raise (TokenError "Invalid token: The token is not yet valid (iat)").
Proof. vm_compute. repeat split; discriminate. Qed.

(** ** [refresh_access_token] *)

Section Refresh.
Context `{Framework}.

Lemma get_DoesNotExist (db : table) (v : json) (u : N) :
  Db.to_uuid v = Ok u -> Forall (fun row => User.id row <> u) db ->
  Db.get db v = Raise DoesNotExist.
Proof.
  intros Hu Hnone. unfold Db.get. rewrite Hu. simpl.
  induction Hnone as [|row db Hrow _ IH]; simpl; [reflexivity|].
  destruct (N.eqb_spec (User.id row) u); [contradiction|]. exact IH.
Qed.

Lemma refresh_tokens_lookups (a t e : tokens_value) :
  let tokens : gmap string tokens_value :=
    list_to_map [("access_token", a); ("token_type", t); ("expires_in", e)] in
  tokens !! "access_token" = Some a
  /\ tokens !! "token_type" = Some t
  /\ tokens !! "expires_in" = Some e
  /\ tokens !! "refresh_token" = None
  /\ dom tokens = ({[ "access_token"; "token_type"; "expires_in" ]} : gset string).
Proof. intros tokens. unfold tokens. repeat split; vm_compute; reflexivity. Qed.

Lemma create_tokens_lookup_access (a r t e : tokens_value) :
  (list_to_map [("access_token", a); ("refresh_token", r); ("token_type", t);
                ("expires_in", e)] : gmap string tokens_value) !! "access_token" = Some a.
Proof. vm_compute. reflexivity. Qed.

Lemma refresh_access_token_eq (self : AuthService.t) (db : table) (tok : Jwt.token)
    (now_decode now : Z) (payload : gmap string json) (user : User.t) :
  AuthService.validate_refresh_token self tok now_decode = Ok payload ->
  AuthService.load_active_user db payload = Ok user ->
  AuthService.refresh_access_token self db tok now_decode now
  = Ok (list_to_map
          [ ("access_token", TToken (signed self (access_claims self user now)));
            ("token_type", TStr "Bearer");
            ("expires_in",
             TInt (Datetime.total_seconds_int (AuthService.access_token_lifetime self))) ]).
Proof.
  intros Hvalid Hload. unfold AuthService.refresh_access_token.
  rewrite Hvalid. unfold mbind, result_bind. cbv beta iota zeta.
  rewrite Hload, encode_access_payload. reflexivity.
Qed.

Lemma handle_refresh_token (self : AuthService.t) (tok : Jwt.token) (e : System.env)
    (db : table) :
  System.handle self (System.RefreshToken tok) e db = db.
Proof.
  unfold System.handle, Api.refresh_token.
  destruct (AuthService.refresh_access_token _ _ _ _ _) as [tokens|[]]; reflexivity.
Qed.

(** C7. With a refresh token that validates and names the identifier
    [user_id]: when the lookup finds an active user, [refresh_access_token]
    returns exactly the access token that [create_tokens] issues to that user
    at the same clock, with [token_type = "Bearer"] and [expires_in = 3600]
    and no [refresh_token] entry, and the request leaves the state as it
    was; when no row has the identifier it raises ["User not found"]; when
    the user is inactive it raises ["User account is deactivated"]. *)
Theorem refresh_access_token_spec (key : string) (db : table) (tok : Jwt.token)
    (now_decode now : Z) (payload : gmap string json) (user_id : json) :
  let self := AuthService.new key in
  AuthService.validate_refresh_token self tok now_decode = Ok payload ->
  payload !! "user_id" = Some user_id ->
  (forall user,
     Db.get db user_id = Ok user -> User.is_active user = true ->
     exists tokens created,
       AuthService.refresh_access_token self db tok now_decode now = Ok tokens
       /\ AuthService.create_tokens self user now = Ok created
       /\ tokens !! "access_token" = created !! "access_token"
       /\ tokens !! "access_token"
          = Some (TToken (signed self (access_claims self user now)))
       /\ tokens !! "token_type" = Some (TStr "Bearer")
       /\ tokens !! "expires_in" = Some (TInt 3600)
       /\ tokens !! "refresh_token" = None
       /\ dom tokens = ({[ "access_token"; "token_type"; "expires_in" ]} : gset string))
  /\ (forall e, System.handle self (System.RefreshToken tok) e db = db)
  /\ (forall u,
        Db.to_uuid user_id = Ok u -> Forall (fun row => User.id row <> u) db ->
        AuthService.refresh_access_token self db tok now_decode now
        = Raise (AuthenticationError "User not found"))
  /\ (forall user,
        Db.get db user_id = Ok user -> User.is_active user = false ->
        AuthService.refresh_access_token self db tok now_decode now
        = Raise (AuthenticationError "User account is deactivated")).
Proof.
  intros self Hvalid Hid. split; [|split; [|split]].
  - intros user Hget Hactive.
    assert (Hload : AuthService.load_active_user db payload = Ok user).
    { unfold AuthService.load_active_user, AuthService.getitem.
      rewrite Hid. unfold mbind, result_bind. cbv beta iota.
      rewrite Hget, Hactive. reflexivity. }
    eexists. eexists.
    split; [apply (refresh_access_token_eq self db tok now_decode now payload user);
            assumption|].
    split; [apply create_tokens_eq|].
    rewrite create_tokens_lookup_access.
    destruct (refresh_tokens_lookups
                (TToken (signed self (access_claims self user now))) (TStr "Bearer")
                (TInt (Datetime.total_seconds_int (AuthService.access_token_lifetime self))))
      as (Ha & Ht & He & Hr & Hdom).
    repeat split; assumption.
  - intros e. apply handle_refresh_token.
  - intros u Hu Hnone. unfold AuthService.refresh_access_token.
    rewrite Hvalid. unfold mbind, result_bind. cbv beta iota.
    unfold AuthService.load_active_user, AuthService.getitem.
    rewrite Hid. unfold mbind, result_bind. cbv beta iota.
    rewrite (get_DoesNotExist db user_id u Hu Hnone). reflexivity.
  - intros user Hget Hinactive. unfold AuthService.refresh_access_token.
    rewrite Hvalid. unfold mbind, result_bind. cbv beta iota.
    unfold AuthService.load_active_user, AuthService.getitem.
    rewrite Hid. unfold mbind, result_bind. cbv beta iota.
    rewrite Hget, Hinactive. reflexivity.
Qed.

End Refresh.

Lemma refresh_access_token_spec_witness :
  exists tokens created,
    AuthService.refresh_access_token (H := Demo.framework) Demo.service Demo.db
      (signed (H := Demo.framework) Demo.service
         (refresh_claims Demo.service Demo.alice 1700000100000000))
      1700009000000000 1700009000000001 = Ok tokens
    /\ AuthService.create_tokens (H := Demo.framework) Demo.service Demo.alice
         1700009000000001 = Ok created
    /\ tokens !! "access_token" = created !! "access_token"
    /\ tokens !! "access_token"
       = Some (TToken (signed (H := Demo.framework) Demo.service
                         (access_claims Demo.service Demo.alice 1700009000000001)))
    /\ tokens !! "token_type" = Some (TStr "Bearer")
    /\ tokens !! "expires_in" = Some (TInt 3600)
    /\ tokens !! "refresh_token" = None
    /\ dom tokens = ({[ "access_token"; "token_type"; "expires_in" ]} : gset string).
Proof.
  refine (proj1 (refresh_access_token_spec (H := Demo.framework) "demo-signing-key" Demo.db
                   (signed (H := Demo.framework) Demo.service
                      (refresh_claims Demo.service Demo.alice 1700000100000000))
                   1700009000000000 1700009000000001
                   (refresh_claims Demo.service Demo.alice 1700000100000000)
                   (JStr "00000000-0000-0000-0000-000000000001") _ _) Demo.alice _ _).
  - vm_compute. reflexivity.
  - vm_compute. reflexivity.
  - vm_compute. reflexivity.
  - reflexivity.
Defined.

(** ** The verification flag *)

Section VerifiedFlag.
Context `{Framework}.

Lemma verified_kept_refl (db : table) : verified_kept db db.
Proof. intros i u Hi Hv. exists u. auto. Qed.

Lemma verified_kept_trans (db1 db2 db3 : table) :
  verified_kept db1 db2 -> verified_kept db2 db3 -> verified_kept db1 db3.
Proof.
  intros H12 H23 i u Hi Hv.
  destruct (H12 i u Hi Hv) as (u2 & Hi2 & Hid2 & Hv2).
  destruct (H23 i u2 Hi2 Hv2) as (u3 & Hi3 & Hid3 & Hv3).
  exists u3. split; [assumption|]. split; congruence.
Qed.

Lemma verified_kept_map (f : User.t -> User.t) (db : table) :
  (forall row, User.id (f row) = User.id row
               /\ (User.email_verified row = true -> User.email_verified (f row) = true)) ->
  verified_kept db (map f db).
Proof.
  intros Hf i u Hi Hv. exists (f u).
  split; [|split; [apply Hf | apply Hf, Hv]].
  change (map f db) with (f <$> db). rewrite list_lookup_fmap, Hi. reflexivity.
Qed.

Lemma verified_kept_app (db tail : table) : verified_kept db (db ++ tail).
Proof.
  intros i u Hi Hv. exists u. split; [|auto].
  apply lookup_app_l_Some. exact Hi.
Qed.

Lemma updated_row_id (obj : User.t) (fields : list User.field) (row : User.t) :
  User.id (Db.updated_row obj fields row) = User.id row.
Proof.
  unfold Db.updated_row. revert row.
  induction fields as [|f fields IH]; intros row; simpl; [reflexivity|].
  rewrite IH. destruct f; reflexivity.
Qed.

Lemma updated_row_verified (obj : User.t) (fields : list User.field) (row : User.t) :
  (User.f_email_verified ∈ fields -> User.email_verified obj = true) ->
  User.email_verified row = true ->
  User.email_verified (Db.updated_row obj fields row) = true.
Proof.
  unfold Db.updated_row. revert row.
  induction fields as [|f fields IH]; intros row Hobj Hrow; simpl; [exact Hrow|].
  apply IH.
  - intros Hin. apply Hobj. right. exact Hin.
  - destruct f; simpl; try exact Hrow. apply Hobj. left.
Qed.

Lemma save_verified_kept (db db' : table) (obj obj' : User.t) (fields : list User.field)
    (now : Z) :
  Db.save db obj fields now = Ok (obj', db') ->
  (User.f_email_verified ∈ fields -> User.email_verified obj = true) ->
  verified_kept db db'.
Proof.
  intros Hsave Hobj. apply save_inv in Hsave as [Hobj' ->].
  assert (Hv : User.f_email_verified ∈ fields -> User.email_verified obj' = true).
  { intros Hin. rewrite Hobj'. destruct (bool_decide _); [|auto]. simpl. auto. }
  apply verified_kept_map. intros row.
  destruct (N.eqb (User.id row) (User.id obj')).
  - split; [apply updated_row_id | apply updated_row_verified, Hv].
  - auto.
Qed.

Lemma update_verified_kept (db : table) (sel : User.t -> bool) (f : User.t -> User.t) :
  (forall row, User.id (f row) = User.id row
               /\ (User.email_verified row = true -> User.email_verified (f row) = true)) ->
  verified_kept db (Db.update db sel f).
Proof.
  intros Hf. unfold Db.update. apply verified_kept_map. intros row.
  destruct (sel row); [apply Hf | auto].
Qed.

Lemma rehashed_verified_kept (db : table) (raw salt : string) (row : User.t) :
  verified_kept db (rehashed db raw salt row).
Proof.
  unfold rehashed. destruct (rehash_needed raw row); [|apply verified_kept_refl].
  apply verified_kept_map. intros r. destruct (N.eqb _ _); auto.
Qed.

Lemma check_password_verified_kept (db db1 : table) (raw : string) (self self1 : User.t)
    (salt : string) (now : Z) (ok : bool) :
  UserModel.check_password db raw self salt now = Ok (ok, self1, db1) ->
  verified_kept db db1.
Proof.
  intros Hcheck. apply check_password_inv in Hcheck as (_ & _ & ->).
  apply rehashed_verified_kept.
Qed.

Lemma authenticate_user_verified_kept (self : AuthService.t) (db : table)
    (email password : string) (ip_address : option string) (salt : string) (now : Z) :
  verified_kept db
    (AuthService.authenticate_user self db email password ip_address salt now).2.
Proof.
  unfold AuthService.authenticate_user, AuthService.authenticate_user_with.
  destruct (_ || _); [apply verified_kept_refl|].
  destruct (Backend.authenticate _ _ _ _ _) as [[found d]|e] eqn:Hauth;
    [|apply verified_kept_refl].
  assert (Hd : verified_kept db d).
  { destruct (authenticate_inv _ _ _ _ _ _ _ Hauth) as [(_ & _ & ->)|(row & _ & -> & _)];
      [apply verified_kept_refl | apply rehashed_verified_kept]. }
  destruct found as [user|]; [|exact Hd].
  destruct (negb _); [exact Hd|].
  destruct ip_address as [ip|]; [|exact Hd].
  destruct (Py.falsy ip); [exact Hd|].
  destruct (UserModel.update_last_login_ip _ _ _ _) as [[u d']|e] eqn:Hsave; [|exact Hd].
  apply (verified_kept_trans _ _ _ Hd). cbn [snd].
  unfold UserModel.update_last_login_ip in Hsave.
  apply (save_verified_kept _ _ _ _ _ _ Hsave).
  intros Hin. repeat (apply elem_of_cons in Hin as [Hin|Hin]; [discriminate|]).
  apply elem_of_nil in Hin. contradiction.
Qed.

Lemma register_user_table (self : AuthService.t) (db db' : table)
    (email password first_name last_name : string) (extra_fields : list kwarg)
    (fresh_id : N) (salt : string) (now now_updated : Z) (user : User.t) :
  AuthService.register_user self db email password first_name last_name extra_fields
    fresh_id salt now now_updated = Ok (user, db') ->
  db' = db ++ [user].
Proof.
  unfold AuthService.register_user.
  destruct (_ || _); [discriminate|].
  destruct (Db.exists_email _ _); [discriminate|].
  destruct (PasswordValidation.validate_password _ _); [|discriminate]. simpl.
  destruct (UserManager.create_user_with_profile _ _ _ _ _ _ _ _ _ _) as [[u d]|] eqn:Hcreate;
    [|discriminate].
  intros [= <- <-]. revert Hcreate.
  unfold UserManager.create_user_with_profile.
  destruct (Py.falsy _); [discriminate|].
  destruct (UserModel.init _ _ _ _ _ _); [|discriminate]. simpl.
  unfold Db.insert.
  destruct (column_error _); [discriminate|].
  repeat (destruct (existsb _ db); [discriminate|]).
  simpl. intros [= <- <-]. reflexivity.
Qed.

End VerifiedFlag.

Section VerifiedMonotone.
Context `{Framework}.
Variable self : AuthService.t.

Lemma with_jwt_auth_verified_kept (db : table) (token : Jwt.token) (now_auth : Z)
    (endpoint : option User.t -> Z * Api.body * table) :
  (forall user, verified_kept db (endpoint user).2) ->
  verified_kept db (Api.with_jwt_auth self db token now_auth endpoint).2.
Proof.
  intros Hend. unfold Api.with_jwt_auth.
  destruct (Api.JWTAuth_authenticate _ _ _ _) as [[user|]|e]; simpl;
    auto using verified_kept_refl.
Qed.

Lemma update_profile_verified_kept (db : table) (user : option User.t)
    (first_name last_name avatar_url : option string) (now : Z) :
  verified_kept db (Api.update_profile db user first_name last_name avatar_url now).2.
Proof.
  unfold Api.update_profile. destruct user as [user|]; [|apply verified_kept_refl].
  destruct (Db.save _ _ _ _) as [[u d]|e] eqn:Hsave; simpl; [|apply verified_kept_refl].
  apply (save_verified_kept _ _ _ _ _ _ Hsave).
  intros Hin. repeat (apply elem_of_cons in Hin as [Hin|Hin]; [discriminate|]).
  apply elem_of_nil in Hin. contradiction.
Qed.

Lemma change_password_verified_kept (db : table) (user : option User.t)
    (current_password new_password rehash_salt salt : string) (now : Z) :
  verified_kept db
    (Api.change_password db user current_password new_password rehash_salt salt now).2.
Proof.
  unfold Api.change_password. destruct user as [user|]; [|apply verified_kept_refl].
  destruct (UserModel.check_password _ _ _ _ _) as [[[ok u1] d1]|e] eqn:Hcheck;
    [|apply verified_kept_refl].
  apply check_password_verified_kept in Hcheck.
  destruct ok; [|exact Hcheck].
  destruct (PasswordValidation.validate_password _ _) as [[]|[]];
    simpl; try exact Hcheck.
  destruct (Db.save _ _ _ _) as [[u d]|e] eqn:Hsave; simpl; [|exact Hcheck].
  apply (verified_kept_trans _ _ _ Hcheck).
  apply (save_verified_kept _ _ _ _ _ _ Hsave).
  intros Hin. repeat (apply elem_of_cons in Hin as [Hin|Hin]; [discriminate|]).
  apply elem_of_nil in Hin. contradiction.
Qed.

Lemma verify_email_verified_kept (db : table) (user : option User.t) (now : Z) :
  verified_kept db (Api.verify_email db user now).2.
Proof.
  unfold Api.verify_email. destruct user as [user|]; [|apply verified_kept_refl].
  destruct (User.email_verified user); [apply verified_kept_refl|].
  unfold UserModel.verify_email.
  destruct (Db.save _ _ _ _) as [[u d]|e] eqn:Hsave; simpl; [|apply verified_kept_refl].
  apply (save_verified_kept _ _ _ _ _ _ Hsave). reflexivity.
Qed.

Lemma login_verified_kept (db : table) (META : gmap string string)
    (email password salt : string) (now now_tokens : Z) :
  verified_kept db (Api.login self db META email password salt now now_tokens).2.
Proof.
  unfold Api.login. cbv zeta.
  pose proof (authenticate_user_verified_kept self db email password
                (Some (Api.get_client_ip META)) salt now) as Hauth.
  destruct (AuthService.authenticate_user _ _ _ _ _ _ _) as [[user|e] db'].
  - destruct (AuthService.create_tokens _ _ _) as [tokens|[]]; exact Hauth.
  - destruct e; exact Hauth.
Qed.

Lemma register_verified_kept (db : table) (email password first_name last_name : string)
    (fresh_id : N) (salt : string) (now now_updated now_tokens : Z) :
  verified_kept db
    (Api.register self db email password first_name last_name fresh_id salt now
       now_updated now_tokens).2.
Proof.
  unfold Api.register.
  destruct (AuthService.register_user _ _ _ _ _ _ _ _ _ _ _) as [[user db']|e] eqn:Hreg.
  - apply register_user_table in Hreg as ->.
    destruct (AuthService.create_tokens _ _ _); apply verified_kept_app.
  - destruct e; apply verified_kept_refl.
Qed.

Lemma handle_verified_kept (req : System.request) (e : System.env) (db : table) :
  verified_kept db (System.handle self req e db).
Proof.
  destruct req; simpl.
  - apply login_verified_kept.
  - apply register_verified_kept.
  - unfold Api.refresh_token.
    destruct (AuthService.refresh_access_token _ _ _ _ _) as [tokens|[]];
      apply verified_kept_refl.
  - apply with_jwt_auth_verified_kept. intros [user|]; apply verified_kept_refl.
  - apply with_jwt_auth_verified_kept. intros user. apply update_profile_verified_kept.
  - apply with_jwt_auth_verified_kept. intros user. apply change_password_verified_kept.
  - apply with_jwt_auth_verified_kept. intros user. apply verify_email_verified_kept.
  - apply update_verified_kept. intros row. split; [reflexivity|]. reflexivity.
  - apply update_verified_kept. intros row. split; [reflexivity|]. auto.
  - apply update_verified_kept. intros row. split; [reflexivity|]. auto.
Qed.

Lemma run_verified_kept (reqs : list (System.request * System.env)) (db : table) :
  verified_kept db (System.run self reqs db).
Proof.
  revert db. induction reqs as [|[req e] reqs IH]; intros db; simpl.
  - apply verified_kept_refl.
  - eapply verified_kept_trans; [apply handle_verified_kept | apply IH].
Qed.

Lemma construct_instance_id (obj : User.t) (data : Admin.change_form) :
  User.id (Admin.construct_instance obj data) = User.id obj.
Proof. destruct obj, data. vm_compute. reflexivity. Qed.

Lemma construct_instance_email_verified (obj : User.t) (data : Admin.change_form) :
  User.email_verified (Admin.construct_instance obj data) = Admin.cf_email_verified data.
Proof. destruct obj, data. vm_compute. reflexivity. Qed.

(** A change form that is saved stores the posted [email_verified] in
    every row under the key. *)
Lemma change_view_saved (db db' : table) (object_id : N) (data : Admin.change_form)
    (now : Z) :
  Admin.change_view db object_id data now = Ok (Admin.Saved, db') ->
  exists obj,
    User.id obj = object_id
    /\ User.email_verified obj = Admin.cf_email_verified data
    /\ db' = map (fun row => if N.eqb (User.id row) object_id then obj else row) db.
Proof.
  unfold Admin.change_view.
  destruct (find _ db) as [obj0|] eqn:Hfind; [|discriminate].
  apply find_some in Hfind as [_ Hid0]. apply N.eqb_eq in Hid0. subst object_id.
  cbv zeta.
  destruct (_ || _); [discriminate|].
  unfold Admin.save_model. cbn [negb].
  destruct (Db.update_all _ _) as [d|e] eqn:Hupdate; [|discriminate].
  intros [= <-]. revert Hupdate. unfold Db.update_all.
  destruct (column_error _); [discriminate|].
  repeat (destruct (existsb _ db); [discriminate|]).
  intros [= <-]. eexists. split; [|split; [|reflexivity]].
  - cbn [User.id User.set_updated_at User.set_email].
    change (User.id (Admin.construct_instance obj0 data) = User.id obj0).
    apply construct_instance_id.
  - change (User.email_verified (Admin.construct_instance obj0 data)
            = Admin.cf_email_verified data).
    apply construct_instance_email_verified.
Qed.

(** C8. A row whose [email_verified] is true keeps it true through every
    sequence of requests (the endpoints of the API and the three admin
    actions), whatever the tokens, inputs and clocks; and the [verify_email]
    endpoint, called for a user who is already verified, answers 400
    [already_verified] and writes nothing.  The change form of the admin is
    not among these requests: when it is saved for the user of the row, the
    row holds the [email_verified] that was posted, so an unchecked box sets
    the flag back. *)
Theorem email_verified_monotone (reqs : list (System.request * System.env)) (db : table)
    (i : nat) (u : User.t) (now : Z) :
  db !! i = Some u -> User.email_verified u = true ->
  (exists u', System.run self reqs db !! i = Some u'
              /\ User.id u' = User.id u /\ User.email_verified u' = true)
  /\ Api.verify_email db (Some u) now
     = (400, Api.ErrorResponse "already_verified" "Email is already verified" None, db)
  /\ (forall data db',
        Admin.change_view db (User.id u) data now = Ok (Admin.Saved, db') ->
        exists u', db' !! i = Some u' /\ User.id u' = User.id u
                   /\ User.email_verified u' = Admin.cf_email_verified data).
Proof.
  intros Hi Hv. split; [|split].
  - exact (run_verified_kept reqs db i u Hi Hv).
  - unfold Api.verify_email. rewrite Hv. reflexivity.
  - intros data db' Hview.
    destruct (change_view_saved _ _ _ _ _ Hview) as (obj & Hid & Hflag & ->).
    exists obj. split; [|auto].
    change (map ?f db) with (f <$> db). rewrite list_lookup_fmap, Hi. cbn.
    rewrite N.eqb_refl. reflexivity.
Qed.

End VerifiedMonotone.

Lemma email_verified_monotone_witness :
  (exists u',
     System.run (H := Demo.framework) Demo.service
       [ (System.AdminDeactivateUsers (fun _ => true),
          System.Build_env 0 1700000200000000 1700000200000000 1700000200000000
            "pepper" "salt" 9%N);
         (System.VerifyEmail
            (signed (H := Demo.framework) Demo.service
               (access_claims Demo.service Demo.alice 1700000100000000)),
          System.Build_env 1700000300000000 1700000300000001 1700000300000001
            1700000300000002 "pepper" "salt" 9%N);
         (System.Register "erin@example.com" "tr0ub4dor&3" "Erin" "Gray",
          System.Build_env 0 1700000400000000 1700000400000001 1700000400000002
            "pepper" "salt" 9%N) ]
       Demo.db !! 1%nat = Some u'
     /\ User.id u' = User.id Demo.dana /\ User.email_verified u' = true)
  /\ Api.verify_email (H := Demo.framework) Demo.db (Some Demo.dana) 1700000500000000
     = (400, Api.ErrorResponse "already_verified" "Email is already verified" None, Demo.db)
  /\ (forall data db',
        Admin.change_view (H := Demo.framework) Demo.db (User.id Demo.dana) data
          1700000500000000 = Ok (Admin.Saved, db') ->
        exists u', db' !! 1%nat = Some u' /\ User.id u' = User.id Demo.dana
                   /\ User.email_verified u' = Admin.cf_email_verified data).
Proof.
  apply (email_verified_monotone (H := Demo.framework) Demo.service _ Demo.db 1%nat
           Demo.dana 1700000500000000); reflexivity.
Defined.

(** A member of staff opens the change form of [dana], whose email is
    verified, unchecks the box and saves: the form is valid, the row is
    written, and the flag is back to false. *)
Lemma email_verified_change_form_counterexample :
  Demo.db !! 1%nat = Some Demo.dana
  /\ User.email_verified Demo.dana = true
  /\ Admin.form_field (Some Demo.dana) "email_verified" = true
  /\ Admin.change_view (H := Demo.framework) Demo.db (User.id Demo.dana)
       {| Admin.cf_email := User.email Demo.dana;
          Admin.cf_username := User.username Demo.dana;
          Admin.cf_first_name := User.first_name Demo.dana;
          Admin.cf_last_name := User.last_name Demo.dana;
          Admin.cf_avatar_url := User.avatar_url Demo.dana;
          Admin.cf_is_active := User.is_active Demo.dana;
          Admin.cf_is_staff := User.is_staff Demo.dana;
          Admin.cf_is_superuser := User.is_superuser Demo.dana;
          Admin.cf_email_verified := false |} 1700000500000000
     = Ok (Admin.Saved,
           [Demo.alice;
            User.set_updated_at 1700000500000000
              (User.set_email_verified false Demo.dana)])
  /\ User.email_verified
       (User.set_updated_at 1700000500000000 (User.set_email_verified false Demo.dana))
     = false.
Proof. vm_compute. repeat split; reflexivity. Qed.


(** ** Normalised emails *)

Lemma lower_char_idem (c : ascii) : Py.lower_char (Py.lower_char c) = Py.lower_char c.
Proof. destruct c as [[] [] [] [] [] [] [] []]; reflexivity. Qed.

Lemma chars_of_chars (l : list ascii) : Py.chars (Py.of_chars l) = l.
Proof. apply String.list_ascii_of_string_of_list_ascii. Qed.

Lemma of_chars_chars (s : string) : Py.of_chars (Py.chars s) = s.
Proof. apply String.string_of_list_ascii_of_string. Qed.

Lemma of_chars_app (l1 l2 : list ascii) :
  Py.of_chars (l1 ++ l2) = Py.of_chars l1 +:+ Py.of_chars l2.
Proof. induction l1 as [|c l1 IH]; simpl; [reflexivity|]. rewrite IH. reflexivity. Qed.

Lemma lstrip_chars_Forall (P : ascii -> Prop) (l : list ascii) :
  Forall P l -> Forall P (Py.lstrip_chars l).
Proof.
  induction 1 as [|c l Hc Hl IH]; simpl; [constructor|].
  destruct (Py.isspace c); [exact IH | constructor; assumption].
Qed.

Lemma lstrip_chars_head (l : list ascii) :
  match Py.lstrip_chars l with
  | [] => True
  | c :: _ => Py.isspace c = false
  end.
Proof.
  induction l as [|c l IH]; simpl; [exact I|].
  destruct (Py.isspace c) eqn:Hc; [exact IH | exact Hc].
Qed.

Lemma lstrip_chars_fixed (l : list ascii) :
  match l with [] => True | c :: _ => Py.isspace c = false end ->
  Py.lstrip_chars l = l.
Proof. destruct l as [|c l]; simpl; [reflexivity|]. intros ->. reflexivity. Qed.

Lemma lstrip_chars_idem (l : list ascii) :
  Py.lstrip_chars (Py.lstrip_chars l) = Py.lstrip_chars l.
Proof. apply lstrip_chars_fixed, lstrip_chars_head. Qed.

(** Stripping the end of a text that starts with a non-blank keeps its start. *)
Lemma lstrip_rev_head (l : list ascii) :
  match l with [] => True | c :: _ => Py.isspace c = false end ->
  match rev (Py.lstrip_chars (rev l)) with
  | [] => True
  | c :: _ => Py.isspace c = false
  end.
Proof.
  destruct l as [|c l]; [intros _; exact I|]. intros Hc.
  assert (Hshape : exists l', Py.lstrip_chars (rev (c :: l)) = l' ++ [c]).
  { simpl rev. generalize (rev l) as r. clear l.
    induction r as [|d r IH]; simpl.
    - rewrite Hc. exists []. reflexivity.
    - destruct (Py.isspace d); [exact IH|]. exists (d :: r). reflexivity. }
  destruct Hshape as [l' ->]. rewrite rev_app_distr. simpl. exact Hc.
Qed.

Lemma strip_chars_idem (l : list ascii) : Py.strip_chars (Py.strip_chars l) = Py.strip_chars l.
Proof.
  unfold Py.strip_chars.
  rewrite (lstrip_chars_fixed (rev (Py.lstrip_chars (rev (Py.lstrip_chars l)))))
    by apply lstrip_rev_head, lstrip_chars_head.
  rewrite rev_involutive, lstrip_chars_idem. reflexivity.
Qed.

Lemma strip_idem (s : string) : Py.strip (Py.strip s) = Py.strip s.
Proof.
  unfold Py.strip. rewrite chars_of_chars. f_equal. apply strip_chars_idem.
Qed.

Lemma strip_chars_Forall (P : ascii -> Prop) (l : list ascii) :
  Forall P l -> Forall P (Py.strip_chars l).
Proof.
  intros Hl. unfold Py.strip_chars.
  apply Forall_rev, lstrip_chars_Forall, Forall_rev, lstrip_chars_Forall, Hl.
Qed.

Lemma rsplit_at_app (l name domain : list ascii) :
  UserManager.rsplit_at l = Some (name, domain) -> l = name ++ "@"%char :: domain.
Proof.
  revert name domain. induction l as [|c l IH]; intros name domain; simpl; [discriminate|].
  destruct (UserManager.rsplit_at l) as [[n d]|].
  - intros [= <- <-]. simpl. f_equal. apply IH. reflexivity.
  - case_bool_decide as Hc; [|discriminate]. intros [= <- <-]. subst c. reflexivity.
Qed.

Lemma map_lower_char_fixed (l : list ascii) :
  Forall (fun c => Py.lower_char c = c) l -> map Py.lower_char l = l.
Proof. induction 1 as [|c l Hc _ IH]; simpl; congruence. Qed.

(** The email that [register_user] passes on is a fixed point of the
    manager's normalisation. *)
Lemma normalize_email_normalized (email : string) :
  UserManager.normalize_email (Py.strip (Py.lower email)) = Py.strip (Py.lower email).
Proof.
  unfold UserManager.normalize_email. rewrite strip_idem.
  destruct (UserManager.rsplit_at _) as [[name domain]|] eqn:Hsplit; [|reflexivity].
  apply rsplit_at_app in Hsplit.
  assert (Hfixed : Forall (fun c => Py.lower_char c = c) (Py.chars (Py.strip (Py.lower email)))).
  { unfold Py.strip, Py.lower. rewrite !chars_of_chars. apply strip_chars_Forall.
    induction (Py.chars email) as [|c l IH]; simpl; constructor;
      [apply lower_char_idem | exact IH]. }
  rewrite Hsplit in Hfixed. apply Forall_app in Hfixed as [_ Hdomain].
  apply Forall_cons in Hdomain as [_ Hdomain].
  unfold Py.lower at 1. rewrite chars_of_chars, (map_lower_char_fixed domain Hdomain).
  rewrite <- (of_chars_chars (Py.strip (Py.lower email))), Hsplit.
  rewrite of_chars_app. reflexivity.
Qed.

(** ** [register_user] *)

Section Register.
Context `{Framework}.

Lemma validate_password_no_user (password : string) :
  PasswordValidation.validate_password password None = Ok tt
  <-> (8 <= Py.len password
       /\ common_password (Py.strip (Py.lower password)) = false
       /\ Py.isdigit password = false).
Proof.
  unfold PasswordValidation.validate_password,
    PasswordValidation.UserAttributeSimilarityValidator,
    PasswordValidation.MinimumLengthValidator, PasswordValidation.CommonPasswordValidator,
    PasswordValidation.NumericPasswordValidator.
  destruct (Z.ltb_spec (Py.len password) 8);
    destruct (common_password _); destruct (Py.isdigit password); simpl;
    split; intros Hyp; try discriminate;
    try (destruct Hyp as (? & ? & ?); try lia; discriminate);
    repeat split; auto; lia.
Qed.

(** The similarity validator is consulted without a user, so the outcome of
    the password check at registration does not depend on any attribute. *)
Lemma validate_password_no_user_ignores_similarity (password : string) :
  PasswordValidation.UserAttributeSimilarityValidator password None = None.
Proof. reflexivity. Qed.

(** X22. [register_user] raises a [ValidationError] exactly when the email
    or the password is empty, the normalised email is taken, or the password
    is shorter than 8 characters, on the common list or all digits. *)
Lemma register_user_validation_error (self : AuthService.t) (db : table)
    (email password first_name last_name : string) (extra_fields : list kwarg)
    (fresh_id : N) (salt : string) (now now_updated : Z) :
  (exists messages,
     AuthService.register_user self db email password first_name last_name extra_fields
       fresh_id salt now now_updated = Raise (ValidationError messages))
  <-> (email = "" \/ password = ""
       \/ Db.exists_email db (Py.strip (Py.lower email)) = true
       \/ Py.len password < 8
       \/ common_password (Py.strip (Py.lower password)) = true
       \/ Py.isdigit password = true).
Proof.
  unfold AuthService.register_user.
  destruct email as [|c email]; [split; [auto|intros _; eexists; reflexivity]|].
  destruct password as [|d password]; [split; [auto|intros _; eexists; reflexivity]|].
  simpl (Py.falsy _ || Py.falsy _). cbv iota.
  destruct (Db.exists_email db _); [split; [auto|intros _; eexists; reflexivity]|].
  pose proof (validate_password_no_user (String d password)) as Hpw.
  destruct (PasswordValidation.validate_password (String d password) None) as [[]|e] eqn:Hv.
  - destruct (proj1 Hpw eq_refl) as (Hlen & Hcommon & Hdigit).
    unfold mbind, result_bind. cbv beta iota.
    split.
    + intros [messages Hres].
      destruct (UserManager.create_user_with_profile _ _ _ _ _ _ _ _ _ _); discriminate.
    + intros [?|[?|[?|[?|[?|?]]]]]; try discriminate; try congruence; lia.
  - unfold mbind, result_bind. cbv beta iota.
    assert (He : exists messages, e = ValidationError messages).
    { revert Hv. unfold PasswordValidation.validate_password.
      destruct (omap id _); [discriminate|]. intros [= <-]. eexists. reflexivity. }
    destruct He as [messages ->].
    split; [|intros _; eexists; reflexivity].
    intros _. right. right. right.
    destruct (Z.ltb_spec (Py.len (String d password)) 8) as [Hlt|Hge]; [left; exact Hlt|].
    right.
    destruct (common_password (Py.strip (Py.lower (String d password)))) eqn:Hc;
      [left; reflexivity|].
    right. destruct (Py.isdigit (String d password)) eqn:Hd; [reflexivity|].
    assert (Hok : @Raise unit (ValidationError messages) = Ok tt) by (apply Hpw; auto).
    discriminate.
Qed.

(** Every other failure is the wrapped failure of the creation. *)
Lemma register_user_other_failure (self : AuthService.t) (db : table)
    (email password first_name last_name : string) (extra_fields : list kwarg)
    (fresh_id : N) (salt : string) (now now_updated : Z) (e : exn) :
  AuthService.register_user self db email password first_name last_name extra_fields
    fresh_id salt now now_updated = Raise e ->
  (exists messages, e = ValidationError messages)
  \/ (exists cause, e = AuthenticationError ("Failed to create user: " +:+ exn_str cause)).
Proof.
  unfold AuthService.register_user.
  destruct (_ || _); [intros [= <-]; left; eexists; reflexivity|].
  destruct (Db.exists_email _ _); [intros [= <-]; left; eexists; reflexivity|].
  unfold PasswordValidation.validate_password.
  destruct (omap id _); [|intros [= <-]; left; eexists; reflexivity].
  unfold mbind, result_bind. cbv beta iota.
  destruct (UserManager.create_user_with_profile _ _ _ _ _ _ _ _ _ _) as [r|cause];
    [discriminate|].
  intros [= <-]. right. eexists. reflexivity.
Qed.

(** A [username] among the extra fields makes the creation fail. *)
Lemma init_with_username (fresh_id : N) (email username first_name last_name : string)
    (extra_fields : list kwarg) :
  existsb UserModel.is_kw_username extra_fields = true ->
  UserModel.init fresh_id email username first_name last_name extra_fields
  = Raise (TypeError "User() got multiple values for keyword argument 'username'").
Proof. intros Hex. unfold UserModel.init. rewrite Hex. reflexivity. Qed.

Lemma apply_kwarg_names (u u' : User.t) (k : kwarg) :
  UserModel.apply_kwarg (Ok u) k = Ok u' ->
  User.email u' = User.email u /\ User.username u' = User.username u
  /\ User.id u' = User.id u.
Proof. destruct k; simpl; intros [= <-]; auto; discriminate. Qed.

Lemma fold_apply_kwarg_names (extra_fields : list kwarg) (r : result User.t) (u' : User.t) :
  fold_left UserModel.apply_kwarg extra_fields r = Ok u' ->
  exists u, r = Ok u /\ User.email u' = User.email u
            /\ User.username u' = User.username u /\ User.id u' = User.id u.
Proof.
  revert r. induction extra_fields as [|k ks IH]; intros r; simpl.
  - intros ->. eauto.
  - intros Hfold. destruct (IH _ Hfold) as (u1 & Happly & He & Hu & Hi).
    destruct r as [u|e]; [|destruct k; discriminate].
    destruct (apply_kwarg_names u u1 k Happly) as (He1 & Hu1 & Hi1).
    exists u. repeat split; congruence.
Qed.

(** On success the username and the email of the created user are both the
    lower-cased, trimmed input, no [username] was among the extra fields,
    and the user is the new last row. *)
Lemma register_user_success (self : AuthService.t) (db db' : table)
    (email password first_name last_name : string) (extra_fields : list kwarg)
    (fresh_id : N) (salt : string) (now now_updated : Z) (user : User.t) :
  AuthService.register_user self db email password first_name last_name extra_fields
    fresh_id salt now now_updated = Ok (user, db') ->
  User.username user = Py.strip (Py.lower email)
  /\ User.email user = Py.strip (Py.lower email)
  /\ existsb UserModel.is_kw_username extra_fields = false
  /\ db' = db ++ [user].
Proof.
  intros Hreg. rewrite <- (normalize_email_normalized email). pose proof (register_user_table _ _ _ _ _ _ _ _ _ _ _ _ _ Hreg) as Hdb.
  revert Hreg. unfold AuthService.register_user.
  destruct (_ || _); [discriminate|].
  destruct (Db.exists_email _ _); [discriminate|].
  destruct (PasswordValidation.validate_password _ _); [|discriminate].
  unfold mbind, result_bind. cbv beta iota.
  destruct (UserManager.create_user_with_profile _ _ _ _ _ _ _ _ _ _) as [[u d]|] eqn:Hcreate;
    [|discriminate].
  intros [= <- <-]. revert Hcreate.
  unfold UserManager.create_user_with_profile.
  destruct (Py.falsy _); [discriminate|].
  unfold UserModel.init.
  destruct (existsb UserModel.is_kw_username extra_fields) eqn:Hex; [discriminate|].
  destruct (fold_left _ _ _) as [u0|] eqn:Hfold; [|discriminate].
  apply fold_apply_kwarg_names in Hfold as (u1 & [= <-] & He & Hu & Hi).
  unfold mbind, result_bind. cbv beta iota.
  destruct (Db.insert _ _); [|discriminate].
  intros [= <- _]. simpl in *. auto.
Qed.

End Register.

(** C6. A registration with a password made of the local part of the email
    and two digits succeeds, although the similarity validator of the
    configured policy refuses this password for the user that was created
    (as [change_password], which passes the user, would). *)
Theorem register_user_similar_password :
  exists user db',
    AuthService.register_user (H := Demo.framework) Demo.service Demo.db
      "johnsmith@example.com" "johnsmith99" "John" "Smith" [] 3%N "salt" 1700000100000000
      1700000100000001
    = Ok (user, db')
    /\ User.username user = "johnsmith@example.com"
    /\ PasswordValidation.UserAttributeSimilarityValidator "johnsmith99" (Some user)
       = Some "The password is too similar to the username."
    /\ PasswordValidation.validate_password (H := Demo.framework) "johnsmith99" (Some user)
       = Raise (ValidationError ["The password is too similar to the username."]).
Proof.
  eexists. eexists. split; [vm_compute; reflexivity|].
  split; [reflexivity|]. split; vm_compute; reflexivity.
Qed.

(** ** Domain events *)

(** C10. Two events of the same class built without [occurred_at] carry the
    same timestamp, whenever they are built: it is the reading of the clock
    taken when the body of their class ran at import.  Each of the four
    classes has its own reading, taken in the order of the classes. *)
Theorem default_occurred_at_per_class (c : Events.clock) (e1 e2 : Events.event) :
  let m := (Events.import_module c).1 in
  Events.built_with_default m e1 -> Events.built_with_default m e2 ->
  Events.occurred_at e1
  = Events.reading c (Events.calls c + Events.position (Events.type_of e1))%nat
  /\ (Events.type_of e1 = Events.type_of e2 ->
      Events.occurred_at e1 = Events.occurred_at e2).
Proof.
  intros m H1 H2.
  assert (Hread : forall e, Events.built_with_default m e ->
            Events.occurred_at e
            = Events.reading c (Events.calls c + Events.position (Events.type_of e))%nat).
  { intros e He. destruct He; simpl; f_equal; lia. }
  split; [apply Hread, H1|].
  intros Hty. rewrite (Hread e1 H1), (Hread e2 H2), Hty. reflexivity.
Qed.

Lemma default_occurred_at_per_class_witness :
  Events.occurred_at
    (Events.new_UserLoggedIn Demo.events_module 1%N "alice@example.com" (Some "10.0.0.7") None)
  = Events.reading Demo.ticking_clock 2
  /\ (Events.TUserLoggedIn = Events.TUserLoggedIn ->
      Events.occurred_at
        (Events.new_UserLoggedIn Demo.events_module 1%N "alice@example.com"
           (Some "10.0.0.7") None)
      = Events.occurred_at
          (Events.new_UserLoggedIn Demo.events_module 2%N "dana@example.com" None None)).
Proof.
  apply (default_occurred_at_per_class Demo.ticking_clock
           (Events.new_UserLoggedIn Demo.events_module 1%N "alice@example.com"
              (Some "10.0.0.7") None)
           (Events.new_UserLoggedIn Demo.events_module 2%N "dana@example.com" None None));
    constructor.
Defined.

(** With a clock that advances by a microsecond per reading, a
    [UserRegistered] and a [UserEmailVerified] built without [occurred_at]
    carry different timestamps. *)
Lemma default_occurred_at_counterexample :
  Events.built_with_default Demo.events_module
    (Events.new_UserRegistered Demo.events_module 1%N "alice@example.com" "Alice Liddell" None)
  /\ Events.built_with_default Demo.events_module
       (Events.new_UserEmailVerified Demo.events_module 1%N "alice@example.com" None)
  /\ Events.occurred_at
       (Events.new_UserRegistered Demo.events_module 1%N "alice@example.com"
          "Alice Liddell" None) = 1700000000000000
  /\ Events.occurred_at
       (Events.new_UserEmailVerified Demo.events_module 1%N "alice@example.com" None)
     = 1700000000000001.
Proof.
  split; [constructor|]. split; [constructor|]. split; reflexivity.
Qed.

(* ===================================================================== *)
(** * Further properties of the identity context *)
(* ===================================================================== *)

(** ** The text of a UUID read back *)

Lemma hex_value_hex_digit (d : Z) : 0 <= d < 16 -> Uuid.hex_value (Py.hex_digit d) = Some d.
Proof.
  intros Hd.
  assert (Hcases : d = 0 \/ d = 1 \/ d = 2 \/ d = 3 \/ d = 4 \/ d = 5 \/ d = 6 \/ d = 7 \/
                   d = 8 \/ d = 9 \/ d = 10 \/ d = 11 \/ d = 12 \/ d = 13 \/ d = 14 \/ d = 15)
    by lia.
  repeat (destruct Hcases as [->|Hcases]; [reflexivity|]). subst d. reflexivity.
Qed.

Lemma hex_digit_not_underscore (d : Z) : 0 <= d < 16 -> Py.hex_digit d <> "_"%char.
Proof.
  intros Hd.
  assert (Hcases : d = 0 \/ d = 1 \/ d = 2 \/ d = 3 \/ d = 4 \/ d = 5 \/ d = 6 \/ d = 7 \/
                   d = 8 \/ d = 9 \/ d = 10 \/ d = 11 \/ d = 12 \/ d = 13 \/ d = 14 \/ d = 15)
    by lia.
  repeat (destruct Hcases as [->|Hcases]; [discriminate|]). subst d. discriminate.
Qed.

Lemma digits16_hex_fixed (width : nat) (z acc : Z) :
  0 <= z ->
  Uuid.digits16 acc false (Py.hex_fixed width z)
  = Some (acc * 16 ^ Z.of_nat width + z mod 16 ^ Z.of_nat width).
Proof.
  intros Hz. revert acc. induction width as [|w IH]; intros acc.
  - simpl. rewrite Z.mod_1_r. f_equal. lia.
  - cbn [Py.hex_fixed Uuid.digits16].
    rewrite bool_decide_false by apply hex_digit_not_underscore, land_15_bounds.
    rewrite hex_value_hex_digit by apply land_15_bounds.
    rewrite IH. f_equal.
    change 15 with (Z.ones 4). rewrite Z.land_ones by lia.
    rewrite Z.shiftr_div_pow2 by lia.
    replace (2 ^ (4 * Z.of_nat w)) with (16 ^ Z.of_nat w)
      by (change 16 with (2 ^ 4); rewrite <- Z.pow_mul_r by lia; reflexivity).
    replace (Z.of_nat (S w)) with (Z.of_nat w + 1) by lia.
    rewrite Z.pow_add_r by lia. change (16 ^ 1) with 16. change (2 ^ 4) with 16.
    assert (Hpow : 0 < 16 ^ Z.of_nat w) by (apply Z.pow_pos_nonneg; lia).
    rewrite (Z.rem_mul_r z (16 ^ Z.of_nat w) 16) by lia.
    ring.
Qed.

Lemma lstrip_space_fixed (l : list ascii) :
  match l with [] => True | c :: _ => Py.int_space c = false end ->
  Py.lstrip_space l = l.
Proof. destruct l as [|c l]; simpl; [reflexivity|]. intros ->. reflexivity. Qed.

Lemma is_hex_char_plain (c : ascii) :
  is_hex_char c = true ->
  Py.int_space c = false /\ c <> "+"%char /\ c <> "-"%char /\ c <> "_"%char
  /\ c <> "x"%char /\ c <> "X"%char.
Proof.
  destruct c as [[] [] [] [] [] [] [] []]; intros Hc; try discriminate Hc;
    repeat split; discriminate.
Qed.

(** On a text of hexadecimal digits [int(_, 16)] reads the digits. *)
Lemma int16_hex_chars (l : list ascii) :
  l <> [] -> Forall (fun c => is_hex_char c = true) l ->
  Uuid.int16 l = Uuid.digits16 0 false l.
Proof.
  intros Hne Hl. unfold Uuid.int16, Py.int_strip.
  assert (Hrev : Forall (fun c => is_hex_char c = true) (rev l)) by apply Forall_rev, Hl.
  rewrite (lstrip_space_fixed l)
    by (destruct Hl as [|c l Hc _]; [exact I | apply (is_hex_char_plain c Hc)]).
  rewrite (lstrip_space_fixed (rev l))
    by (destruct Hrev as [|c r Hc _]; [exact I | apply (is_hex_char_plain c Hc)]).
  rewrite rev_involutive.
  destruct Hl as [|c l Hc Hl]; [congruence|].
  destruct (is_hex_char_plain c Hc) as (_ & Hplus & Hminus & Hunder & _).
  rewrite (bool_decide_false (c = "+"%char)), (bool_decide_false (c = "-"%char))
    by assumption.
  assert (Hprefix :
            match c :: l with
            | z :: x :: l' =>
                if bool_decide (z = "0"%char)
                   && (bool_decide (x = "x"%char) || bool_decide (x = "X"%char))
                then match l' with
                     | u :: l'' => if bool_decide (u = "_"%char) then l'' else l'
                     | [] => l'
                     end
                else c :: l
            | _ => c :: l
            end = c :: l).
  { destruct Hl as [|x l Hx _]; [reflexivity|].
    destruct (is_hex_char_plain x Hx) as (_ & _ & _ & _ & Hx1 & Hx2).
    rewrite (bool_decide_false (x = "x"%char)), (bool_decide_false (x = "X"%char))
      by assumption.
    rewrite andb_false_r. reflexivity. }
  rewrite Hprefix. rewrite (bool_decide_false (c = "_"%char)) by assumption.
  destruct (Uuid.digits16 0 false (c :: l)); reflexivity.
Qed.

Lemma uuid_char_not (c d : ascii) :
  uuid_char c -> is_hex_char d = false -> d <> "-"%char -> c <> d.
Proof. intros [Hc| ->] Hd Hne; congruence. Qed.

Lemma remove_all_absent (fuel : nat) (p0 : ascii) (p l : list ascii) :
  Forall (fun c => c <> p0) l -> Uuid.remove_all fuel (p0 :: p) l = l.
Proof.
  revert l. induction fuel as [|f IH]; intros l Hl; [reflexivity|].
  destruct Hl as [|c l Hc Hl]; simpl; [reflexivity|].
  rewrite bool_decide_false by congruence. f_equal. apply IH, Hl.
Qed.

Lemma filter_hex_chars (l : list ascii) :
  Forall (fun c => is_hex_char c = true) l ->
  filter (fun c => negb (bool_decide (c = "-"%char))) l = l.
Proof.
  induction 1 as [|c l Hc _ IH]; [reflexivity|].
  rewrite filter_cons. destruct (decide _) as [Hd|Hd].
  - f_equal. exact IH.
  - exfalso. apply Hd. case_bool_decide as Heq; [subst c; discriminate|exact I].
Qed.

Lemma uuid_char_hex (c : ascii) : is_hex_char c = true -> uuid_char c.
Proof. left. assumption. Qed.

Lemma lstrip_braces_fixed (l : list ascii) :
  Forall uuid_char l -> Uuid.lstrip_braces l = l.
Proof.
  intros Hl. destruct Hl as [|c l Hc _]; [reflexivity|]. simpl.
  rewrite !bool_decide_false; [reflexivity| |];
    intros ->; destruct Hc as [Hc|Hc]; discriminate.
Qed.

Lemma str_chars (u : N) :
  exists p1 p2 p3 p4 p5,
    Uuid.str u
    = Py.of_chars (p1 ++ ["-"%char] ++ p2 ++ ["-"%char] ++ p3 ++ ["-"%char] ++ p4
                   ++ ["-"%char] ++ p5)
    /\ p1 ++ p2 ++ p3 ++ p4 ++ p5 = Py.hex_fixed 32 (Z.of_N u)
    /\ Forall (fun c => is_hex_char c = true) p1
    /\ Forall (fun c => is_hex_char c = true) p2
    /\ Forall (fun c => is_hex_char c = true) p3
    /\ Forall (fun c => is_hex_char c = true) p4
    /\ Forall (fun c => is_hex_char c = true) p5.
Proof.
  pose proof (hex_fixed_is_hex 32 (Z.of_N u)) as Hhex.
  unfold Uuid.str. set (h := Py.hex_fixed 32 (Z.of_N u)) in *.
  exists (take 8 h), (take 4 (drop 8 h)), (take 4 (drop 12 h)), (take 4 (drop 16 h)),
    (drop 20 h).
  split; [reflexivity|]. split.
  - clearbody h.
    replace (drop 20 h) with (drop 4 (drop 16 h)) by (rewrite drop_drop; reflexivity).
    rewrite take_drop.
    replace (drop 16 h) with (drop 4 (drop 12 h)) by (rewrite drop_drop; reflexivity).
    rewrite take_drop.
    replace (drop 12 h) with (drop 4 (drop 8 h)) by (rewrite drop_drop; reflexivity).
    rewrite take_drop. apply take_drop.
  - repeat split; auto using Forall_take, Forall_drop.
Qed.

(** [UUID(hex=str(u))] is [u]. *)
Lemma of_hex_str (u : N) : (u < 2 ^ 128)%N -> Uuid.of_hex (Uuid.str u) = Some u.
Proof.
  intros Hu. destruct (str_chars u) as (p1 & p2 & p3 & p4 & p5 & -> & Hh & H1 & H2 & H3 & H4 & H5).
  unfold Uuid.of_hex. rewrite String.list_ascii_of_string_of_list_ascii.
  set (l := p1 ++ ["-"%char] ++ p2 ++ ["-"%char] ++ p3 ++ ["-"%char] ++ p4 ++ ["-"%char] ++ p5).
  assert (Hl : Forall uuid_char l).
  { unfold l. repeat (apply Forall_app; split);
      try (eapply Forall_impl; [eassumption | exact uuid_char_hex]);
      repeat constructor; right; reflexivity. }
  assert (Hu' : Forall (fun c => c <> "u"%char) l).
  { eapply Forall_impl; [exact Hl|]. intros c [Hc| ->]; [intros ->|]; discriminate. }
  change (Py.chars "urn:") with ("u"%char :: Py.chars "rn:").
  rewrite remove_all_absent by exact Hu'.
  change (Py.chars "uuid:") with ("u"%char :: Py.chars "uid:").
  rewrite remove_all_absent by exact Hu'.
  rewrite (lstrip_braces_fixed l Hl).
  rewrite (lstrip_braces_fixed (rev l)) by (apply Forall_rev, Hl).
  rewrite rev_involutive.
  assert (Hfilter : filter (fun c => negb (bool_decide (c = "-"%char))) l
                    = Py.hex_fixed 32 (Z.of_N u)).
  { unfold l. rewrite !filter_app.
    rewrite (filter_hex_chars p1 H1), (filter_hex_chars p2 H2), (filter_hex_chars p3 H3),
      (filter_hex_chars p4 H4), (filter_hex_chars p5 H5).
    rewrite <- Hh. reflexivity. }
  rewrite Hfilter, hex_fixed_length. rewrite bool_decide_true by reflexivity.
  rewrite int16_hex_chars by (try apply hex_fixed_is_hex; discriminate).
  rewrite digits16_hex_fixed by apply N2Z.is_nonneg.
  rewrite Z.mul_0_l, Z.add_0_l.
  assert (Hrange : 0 <= Z.of_N u < 16 ^ Z.of_nat 32).
  { split; [apply N2Z.is_nonneg|].
    change (16 ^ Z.of_nat 32) with (Z.of_N (2 ^ 128)). lia. }
  rewrite Z.mod_small by exact Hrange.
  change (16 ^ Z.of_nat 32) with (2 ^ 128) in Hrange.
  destruct (Z.leb_spec 0 (Z.of_N u)); [|lia].
  destruct (Z.ltb_spec (Z.of_N u) (2 ^ 128)); [|lia].
  cbn [andb]. f_equal. apply N2Z.id.
Qed.

(** ** Tokens and the users they name *)

Section TokenUsers.
Context `{Framework}.

Lemma get_issued_id (db : table) (u : N) :
  (u < 2 ^ 128)%N ->
  Db.get db (JStr (Uuid.str u))
  = match find (fun row => N.eqb (User.id row) u) db with
    | Some row => Ok row
    | None => Raise DoesNotExist
    end.
Proof. intros Hu. unfold Db.get, Db.to_uuid. rewrite (of_hex_str u Hu). reflexivity. Qed.

Lemma load_active_user_found (db : table) (payload : gmap string json) (u : N)
    (row : User.t) :
  (u < 2 ^ 128)%N ->
  payload !! "user_id" = Some (JStr (Uuid.str u)) ->
  find (fun row => N.eqb (User.id row) u) db = Some row ->
  AuthService.load_active_user db payload
  = if User.is_active row then Ok row
    else Raise (AuthenticationError "User account is deactivated").
Proof.
  intros Hu Hid Hfind. unfold AuthService.load_active_user, AuthService.getitem.
  rewrite Hid. unfold mbind, result_bind. cbv beta iota.
  rewrite (get_issued_id db u Hu), Hfind.
  destruct (User.is_active row); reflexivity.
Qed.

(** X1. The access token issued to a user resolves, while it is valid, to
    the row that is stored under the user's identifier now, provided that
    row is active: the claims in the token are not consulted beyond
    [user_id]. *)
Theorem get_user_from_token_issued (key : string) (db : table) (user row : User.t)
    (issued now : Z) :
  let self := AuthService.new key in
  (User.id user < 2 ^ 128)%N ->
  find (fun r => N.eqb (User.id r) (User.id user)) db = Some row ->
  User.is_active row = true ->
  issued <= now -> now < (Datetime.timegm issued + 3600) * Datetime.second ->
  AuthService.get_user_from_token self db (signed self (access_claims self user issued)) now
  = Ok row.
Proof.
  intros self Hid Hfind Hactive Hissued Hexp.
  unfold AuthService.get_user_from_token.
  rewrite validate_access_token_signed. unfold self.
  rewrite validate_claims_access by exact Hissued.
  destruct (Z.leb_spec ((Datetime.timegm issued + 3600) * Datetime.second) now); [lia|].
  rewrite access_claims_type.
  rewrite bool_decide_false by (intros Hne; apply Hne; reflexivity).
  unfold mbind, result_bind. cbv beta iota.
  rewrite (load_active_user_found db _ (User.id user) row Hid
             (access_claims_user_id _ _ _) Hfind), Hactive.
  reflexivity.
Qed.

Lemma load_active_user_sound (db : table) (payload : gmap string json) (u : User.t) :
  AuthService.load_active_user db payload = Ok u ->
  User.is_active u = true /\ In u db
  /\ exists v, payload !! "user_id" = Some v /\ Db.to_uuid v = Ok (User.id u).
Proof.
  unfold AuthService.load_active_user, AuthService.getitem, Db.get.
  destruct (payload !! "user_id") as [v|]; [|discriminate].
  unfold mbind, result_bind. cbv beta iota.
  destruct (Db.to_uuid v) as [uid|e] eqn:Huuid; cbv beta iota;
    [|destruct e; discriminate].
  destruct (find _ db) as [row|] eqn:Hfind; cbv beta iota; [|discriminate].
  destruct (User.is_active row) eqn:Hactive; cbv beta iota delta [negb]; [|discriminate].
  intros [= <-]. apply find_some in Hfind as [Hin Heq].
  apply N.eqb_eq in Heq. subst uid. eauto 6.
Qed.

(** X2. Whatever the token, [get_user_from_token] returns only a row of the
    table that is active, whose identifier is the [user_id] claim of a token
    that [validate_access_token] accepts at that clock. *)
Theorem get_user_from_token_sound (self : AuthService.t) (db : table) (tok : Jwt.token)
    (now : Z) (u : User.t) :
  AuthService.get_user_from_token self db tok now = Ok u ->
  User.is_active u = true /\ In u db
  /\ exists claims v,
       AuthService.validate_access_token self tok now = Ok claims
       /\ claims !! "type" = Some (JStr "access")
       /\ claims !! "user_id" = Some v /\ Db.to_uuid v = Ok (User.id u).
Proof.
  unfold AuthService.get_user_from_token.
  destruct (AuthService.validate_access_token self tok now) as [claims|e] eqn:Hvalid;
    [|discriminate].
  unfold mbind, result_bind. cbv beta iota. intros Hload.
  destruct (load_active_user_sound db claims u Hload) as (Hactive & Hin & v & Hv & Huuid).
  split; [exact Hactive|]. split; [exact Hin|].
  exists claims, v. repeat split; auto.
  exact (validate_access_token_type self tok now claims Hvalid).
Qed.

End TokenUsers.

Lemma get_user_from_token_issued_witness :
  AuthService.get_user_from_token (H := Demo.framework) (AuthService.new "demo-signing-key")
    Demo.db
    (signed (H := Demo.framework) (AuthService.new "demo-signing-key")
       (access_claims (AuthService.new "demo-signing-key") Demo.alice 1700000100000000))
    1700000200000000
  = Ok Demo.alice.
Proof.
  apply (get_user_from_token_issued (H := Demo.framework) "demo-signing-key" Demo.db
           Demo.alice Demo.alice 1700000100000000 1700000200000000).
  - reflexivity.
  - reflexivity.
  - reflexivity.
  - lia.
  - vm_compute. reflexivity.
Defined.

Lemma get_user_from_token_sound_witness :
  User.is_active Demo.alice = true /\ In Demo.alice Demo.db
  /\ exists claims v,
       AuthService.validate_access_token (H := Demo.framework) Demo.service
         (signed (H := Demo.framework) Demo.service
            (access_claims Demo.service Demo.alice 1700000100000000)) 1700000200000000
       = Ok claims
       /\ claims !! "type" = Some (JStr "access")
       /\ claims !! "user_id" = Some v /\ Db.to_uuid v = Ok (User.id Demo.alice).
Proof.
  apply (get_user_from_token_sound (H := Demo.framework) Demo.service Demo.db
           (signed (H := Demo.framework) Demo.service
              (access_claims Demo.service Demo.alice 1700000100000000)) 1700000200000000).
  vm_compute. reflexivity.
Defined.

(** ** The tokens that the validators accept *)

Section Acceptance.
Context `{Framework}.

Lemma decode_Ok_iff (self : AuthService.t) (tok : Jwt.token) (now : Z)
    (claims : gmap string json) :
  Jwt.decode tok (AuthService.secret_key self) [AuthService.algorithm self] now = Ok claims
  <-> tok = signed self claims /\ Jwt.validate_claims claims now = Ok tt.
Proof.
  split.
  - unfold Jwt.decode. destruct tok as [why|[alg cl sig]]; [discriminate|]. simpl.
    destruct (String.eqb_spec alg (AuthService.algorithm self)) as [->|]; [|discriminate].
    simpl.
    destruct (String.eqb_spec sig
                (jws_sign (AuthService.algorithm self) (AuthService.secret_key self) cl))
      as [->|]; [|discriminate].
    simpl. destruct (Jwt.validate_claims cl now) as [[]|e] eqn:Hv; [|discriminate].
    simpl. intros [= ->]. split; [reflexivity|exact Hv].
  - intros [-> Hv]. rewrite decode_signed, Hv. reflexivity.
Qed.

Lemma decode_raises (self : AuthService.t) (tok : Jwt.token) (now : Z) (e : exn) :
  Jwt.decode tok (AuthService.secret_key self) [AuthService.algorithm self] now = Raise e ->
  exists j, e = JwtError j.
Proof.
  unfold Jwt.decode. destruct tok as [why|j]; [intros [= <-]; eauto|].
  destruct (negb _); [intros [= <-]; eauto|].
  destruct (negb _); [intros [= <-]; eauto|].
  unfold Jwt.validate_claims.
  destruct (Jwt.validate_iat _ now) as [[]|e1] eqn:Hiat.
  2: { destruct (validate_iat_raises _ _ _ Hiat) as (j1 & -> & _). intros [= <-]. eauto. }
  destruct (Jwt.validate_nbf _ now) as [[]|e1] eqn:Hnbf.
  2: { destruct (validate_nbf_raises _ _ _ Hnbf) as (j1 & -> & _). intros [= <-]. eauto. }
  destruct (Jwt.validate_exp _ now) as [[]|e1] eqn:Hexp.
  2: { destruct (validate_exp_raises _ _ _ Hexp) as (j1 & ->). intros [= <-]. eauto. }
  destruct (Jwt.validate_aud _) as [[]|e1] eqn:Haud.
  2: { destruct (validate_aud_raises _ _ Haud) as (j1 & -> & _). intros [= <-]. eauto. }
  destruct (Jwt.validate_sub _) as [[]|e1] eqn:Hsub.
  2: { destruct (validate_sub_raises _ _ Hsub) as (j1 & -> & _). intros [= <-]. eauto. }
  destruct (Jwt.validate_jti _) as [[]|e1] eqn:Hjti.
  2: { destruct (validate_jti_raises _ _ Hjti) as (j1 & -> & _). intros [= <-]. eauto. }
  discriminate.
Qed.

(** The checks of the codec refuse a [sub] or a [jti] that is no string. *)
Lemma validate_claims_sub_jti (claims : gmap string json) (now : Z) :
  Jwt.validate_claims claims now = Ok tt ->
  (forall v, claims !! "sub" = Some v -> exists s, v = JStr s)
  /\ (forall v, claims !! "jti" = Some v -> exists s, v = JStr s).
Proof.
  unfold Jwt.validate_claims.
  destruct (Jwt.validate_iat _ now) as [[]|e1]; [|discriminate].
  destruct (Jwt.validate_nbf _ now) as [[]|e1]; [|discriminate].
  destruct (Jwt.validate_exp _ now) as [[]|e1]; [|discriminate].
  destruct (Jwt.validate_aud _) as [[]|e1]; [|discriminate].
  unfold Jwt.validate_sub, Jwt.validate_jti. cbn.
  destruct (claims !! "sub") as [[s| |]|]; try discriminate;
    destruct (claims !! "jti") as [[t| |]|]; try discriminate;
    intros _; split; intros v [= <-]; eauto.
Qed.

Lemma validate_access_token_raises (self : AuthService.t) (tok : Jwt.token) (now : Z)
    (e : exn) :
  AuthService.validate_access_token self tok now = Raise e -> exists msg, e = TokenError msg.
Proof.
  unfold AuthService.validate_access_token.
  destruct (Jwt.decode tok _ _ now) as [payload|e'] eqn:Hdec.
  - case_bool_decide; [intros [= <-]; eauto|discriminate].
  - destruct (decode_raises _ _ _ _ Hdec) as [j ->]. destruct j; intros [= <-]; eauto.
Qed.

Lemma validate_refresh_token_raises (self : AuthService.t) (tok : Jwt.token) (now : Z)
    (e : exn) :
  AuthService.validate_refresh_token self tok now = Raise e -> exists msg, e = TokenError msg.
Proof.
  unfold AuthService.validate_refresh_token.
  destruct (Jwt.decode tok _ _ now) as [payload|e'] eqn:Hdec.
  - case_bool_decide; [intros [= <-]; eauto|discriminate].
  - destruct (decode_raises _ _ _ _ Hdec) as [j ->]. destruct j; intros [= <-]; eauto.
Qed.

(** X3. Over claims that are strings, booleans and integers,
    [validate_access_token] returns claims exactly for the tokens whose
    header names the service's algorithm, whose signature is the one the
    service's key gives for these claims, whose claims pass the checks of
    the codec at that clock ([iat], [nbf], [exp], [aud], [sub], [jti], in
    this order) and whose [type] is ["access"]; the same holds for
    [validate_refresh_token] and ["refresh"].  In particular neither
    validator accepts a token whose [sub] or [jti] is present and no
    string. *)
Theorem validators_accept_iff (self : AuthService.t) (tok : Jwt.token) (now : Z) :
  (forall claims,
     AuthService.validate_access_token self tok now = Ok claims
     <-> tok = signed self claims /\ Jwt.validate_claims claims now = Ok tt
         /\ claims !! "type" = Some (JStr "access"))
  /\ (forall claims,
        AuthService.validate_refresh_token self tok now = Ok claims
        <-> tok = signed self claims /\ Jwt.validate_claims claims now = Ok tt
            /\ claims !! "type" = Some (JStr "refresh"))
  /\ (forall claims,
        AuthService.validate_access_token self tok now = Ok claims
        \/ AuthService.validate_refresh_token self tok now = Ok claims ->
        (forall v, claims !! "sub" = Some v -> exists s, v = JStr s)
        /\ (forall v, claims !! "jti" = Some v -> exists s, v = JStr s)).
Proof.
  assert (Hraise := decode_raises self tok now).
  assert (Haccess : forall claims,
     AuthService.validate_access_token self tok now = Ok claims
     <-> tok = signed self claims /\ Jwt.validate_claims claims now = Ok tt
         /\ claims !! "type" = Some (JStr "access")).
  { intros claims.
    assert (Hd := decode_Ok_iff self tok now claims).
    unfold AuthService.validate_access_token.
    transitivity
      ((Jwt.decode tok (AuthService.secret_key self) [AuthService.algorithm self] now
        = Ok claims) /\ claims !! "type" = Some (JStr "access")); [|tauto].
    clear Hd.
    destruct (Jwt.decode tok _ _ now) as [payload|e] eqn:Hdec.
    + case_bool_decide as Htype.
      * split; [discriminate|]. intros [[= ->] Hty]. contradiction.
      * split.
        -- intros [= ->]. split; [reflexivity|].
           destruct (decide (claims !! "type" = Some (JStr "access")));
             [assumption|contradiction].
        -- intros [[= ->] _]. reflexivity.
    + destruct (Hraise e eq_refl) as [j ->].
      split; [destruct j; discriminate | intros [Hd _]; discriminate]. }
  assert (Hrefresh : forall claims,
        AuthService.validate_refresh_token self tok now = Ok claims
        <-> tok = signed self claims /\ Jwt.validate_claims claims now = Ok tt
            /\ claims !! "type" = Some (JStr "refresh")).
  { intros claims.
    assert (Hd := decode_Ok_iff self tok now claims).
    unfold AuthService.validate_refresh_token.
    transitivity
      ((Jwt.decode tok (AuthService.secret_key self) [AuthService.algorithm self] now
        = Ok claims) /\ claims !! "type" = Some (JStr "refresh")); [|tauto].
    clear Hd.
    destruct (Jwt.decode tok _ _ now) as [payload|e] eqn:Hdec.
    + case_bool_decide as Htype.
      * split; [discriminate|]. intros [[= ->] Hty]. contradiction.
      * split.
        -- intros [= ->]. split; [reflexivity|].
           destruct (decide (claims !! "type" = Some (JStr "refresh")));
             [assumption|contradiction].
        -- intros [[= ->] _]. reflexivity.
    + destruct (Hraise e eq_refl) as [j ->].
      split; [destruct j; discriminate | intros [Hd _]; discriminate]. }
  split; [exact Haccess|]. split; [exact Hrefresh|].
  intros claims [Hok|Hok].
  - apply Haccess in Hok as (_ & Hchecks & _).
    exact (validate_claims_sub_jti claims now Hchecks).
  - apply Hrefresh in Hok as (_ & Hchecks & _).
    exact (validate_claims_sub_jti claims now Hchecks).
Qed.

End Acceptance.

(** ** The bearer authentication *)

Section Bearer.
Context `{Framework}.

Lemma load_active_user_raises (db : table) (payload : gmap string json) (e : exn) :
  AuthService.load_active_user db payload = Raise e ->
  (exists msg, e = AuthenticationError msg)
  \/ (payload !! "user_id" = None /\ e = KeyError "user_id")
  \/ (exists v msgs, payload !! "user_id" = Some v
                     /\ Db.to_uuid v = Raise (ValidationError msgs)
                     /\ e = ValidationError msgs).
Proof.
  unfold AuthService.load_active_user, AuthService.getitem, Db.get.
  destruct (payload !! "user_id") as [v|]; [|intros [= <-]; auto].
  unfold mbind, result_bind. cbv beta iota.
  destruct (Db.to_uuid v) as [uid|e'] eqn:Huuid; cbv beta iota.
  - destruct (find _ db) as [row|]; cbv beta iota; [|intros [= <-]; eauto].
    destruct (negb (User.is_active row)); [intros [= <-]; eauto|discriminate].
  - assert (exists msgs, e' = ValidationError msgs) as [msgs ->].
    { unfold Db.to_uuid in Huuid. destruct v as [s|b|z].
      - destruct (Uuid.of_hex s); [discriminate|]. injection Huuid as <-. eauto.
      - discriminate.
      - destruct (_ && _); [discriminate|]. injection Huuid as <-. eauto. }
    intros [= <-]. right. right. eauto.
Qed.

(** X4. An endpoint behind the bearer authentication runs only with an
    active row of the table, the one that [get_user_from_token] finds for
    the token; in every other case the table is left as it was and the
    answer is 401, or 500 when a token that [validate_access_token] accepts
    has no [user_id] claim or one that is no UUID.  The endpoint is never
    run without a user. *)
Theorem with_jwt_auth_guard (self : AuthService.t) (db : table) (tok : Jwt.token)
    (now : Z) (endpoint : option User.t -> Z * Api.body * table) :
  (exists u, AuthService.get_user_from_token self db tok now = Ok u
             /\ In u db /\ User.is_active u = true
             /\ Api.with_jwt_auth self db tok now endpoint = endpoint (Some u))
  \/ Api.with_jwt_auth self db tok now endpoint = (401, Api.Detail "Unauthorized", db)
  \/ (exists claims body,
        AuthService.validate_access_token self tok now = Ok claims
        /\ (claims !! "user_id" = None
            \/ exists v e, claims !! "user_id" = Some v /\ Db.to_uuid v = Raise e)
        /\ Api.with_jwt_auth self db tok now endpoint = (500, body, db)).
Proof.
  unfold Api.with_jwt_auth, Api.JWTAuth_authenticate.
  destruct (AuthService.get_user_from_token self db tok now) as [u|e] eqn:Hget.
  - left. exists u.
    assert (Hu : User.is_active u = true /\ In u db).
    { unfold AuthService.get_user_from_token in Hget.
      destruct (AuthService.validate_access_token self tok now) as [claims|e'];
        [|discriminate].
      unfold mbind, result_bind in Hget. cbv beta iota in Hget.
      destruct (load_active_user_sound _ _ _ Hget) as (Ha & Hin & _). auto. }
    destruct Hu. auto.
  - right. unfold AuthService.get_user_from_token in Hget.
    destruct (AuthService.validate_access_token self tok now) as [claims|e'] eqn:Hv.
    + unfold mbind, result_bind in Hget. cbv beta iota in Hget.
      destruct (load_active_user_raises _ _ _ Hget)
        as [[msg ->]|[[Hnone ->]|(v & msgs & Hid & Huuid & ->)]].
      * left. reflexivity.
      * right. exists claims. eexists. split; [reflexivity|].
        split; [left; exact Hnone|reflexivity].
      * right. exists claims. eexists. split; [reflexivity|].
        split; [right; eauto|reflexivity].
    + unfold mbind, result_bind in Hget. cbv beta iota in Hget. injection Hget as <-.
      destruct (validate_access_token_raises _ _ _ _ Hv) as [msg ->]. left. reflexivity.
Qed.

(** X5. The two tokens of [create_tokens] are not interchangeable at the
    endpoints: at every clock the refresh token presented as bearer token is
    answered 401 without the endpoint being run, and the access token sent
    to the refresh endpoint is answered 401 [invalid_token]; the table stays
    as it was in both cases. *)
Theorem endpoints_refuse_other_token (self : AuthService.t) (db : table) (user : User.t)
    (issued now now' : Z) (endpoint : option User.t -> Z * Api.body * table) :
  Api.with_jwt_auth self db (signed self (refresh_claims self user issued)) now endpoint
  = (401, Api.Detail "Unauthorized", db)
  /\ exists msg,
       Api.refresh_token self db (signed self (access_claims self user issued)) now now'
       = (401, Api.ErrorResponse "invalid_token" msg None, db).
Proof.
  split.
  - unfold Api.with_jwt_auth, Api.JWTAuth_authenticate, AuthService.get_user_from_token.
    destruct (AuthService.validate_access_token self _ now) as [claims|e] eqn:Hv.
    + exfalso. pose proof (validate_access_token_type _ _ _ _ Hv) as Htype.
      rewrite validate_access_token_signed in Hv.
      destruct (Jwt.validate_claims _ now) as [[]|e]; [|destruct e as [| | | | | | | | | |[]]; discriminate].
      rewrite refresh_claims_type in Hv.
      rewrite bool_decide_true in Hv by discriminate. discriminate.
    + destruct (validate_access_token_raises _ _ _ _ Hv) as [msg ->]. reflexivity.
  - unfold Api.refresh_token, AuthService.refresh_access_token.
    destruct (AuthService.validate_refresh_token self _ now) as [claims|e] eqn:Hv.
    + exfalso. rewrite validate_refresh_token_signed in Hv.
      destruct (Jwt.validate_claims _ now) as [[]|e]; [|destruct e as [| | | | | | | | | |[]]; discriminate].
      rewrite access_claims_type in Hv.
      rewrite bool_decide_true in Hv by discriminate. discriminate.
    + destruct (validate_refresh_token_raises _ _ _ _ Hv) as [msg ->].
      exists msg. reflexivity.
Qed.

Lemma find_update (db : table) (sel : User.t -> bool) (f : User.t -> User.t) (u : N) :
  (forall row, User.id (f row) = User.id row) ->
  find (fun row => N.eqb (User.id row) u) (Db.update db sel f)
  = option_map (fun row => if sel row then f row else row)
      (find (fun row => N.eqb (User.id row) u) db).
Proof.
  intros Hf. unfold Db.update. induction db as [|row db IH]; [reflexivity|].
  cbn [map find].
  replace (User.id (if sel row then f row else row)) with (User.id row)
    by (destruct (sel row); [rewrite Hf|]; reflexivity).
  destruct (N.eqb (User.id row) u); [reflexivity|exact IH].
Qed.

Lemma validate_issued_access (key : string) (user : User.t) (issued now : Z) :
  issued <= now -> now < (Datetime.timegm issued + 3600) * Datetime.second ->
  AuthService.validate_access_token (AuthService.new key)
    (signed (AuthService.new key) (access_claims (AuthService.new key) user issued)) now
  = Ok (access_claims (AuthService.new key) user issued).
Proof.
  intros Hissued Hexp. rewrite validate_access_token_signed.
  rewrite validate_claims_access by exact Hissued.
  destruct (Z.leb_spec ((Datetime.timegm issued + 3600) * Datetime.second) now); [lia|].
  rewrite access_claims_type.
  rewrite bool_decide_false by (intros Hne; apply Hne; reflexivity). reflexivity.
Qed.

Lemma validate_issued_refresh (key : string) (user : User.t) (issued now : Z) :
  issued <= now -> now < (Datetime.timegm issued + 604800) * Datetime.second ->
  AuthService.validate_refresh_token (AuthService.new key)
    (signed (AuthService.new key) (refresh_claims (AuthService.new key) user issued)) now
  = Ok (refresh_claims (AuthService.new key) user issued).
Proof.
  intros Hissued Hexp. rewrite validate_refresh_token_signed.
  rewrite validate_claims_refresh by exact Hissued.
  destruct (Z.leb_spec ((Datetime.timegm issued + 604800) * Datetime.second) now); [lia|].
  rewrite refresh_claims_type.
  rewrite bool_decide_false by (intros Hne; apply Hne; reflexivity). reflexivity.
Qed.

(** X6. Once the admin action [deactivate_users] has been run over a
    selection that holds a user's row, the tokens issued to the user before
    are of no use although they are still valid: [get_user_from_token] and
    [refresh_access_token] raise ["User account is deactivated"], and an
    endpoint behind the bearer authentication answers 401. *)
Theorem deactivate_users_revokes_tokens (key : string) (db : table) (user row : User.t)
    (queryset : User.t -> bool) (issued now now' : Z)
    (endpoint : option User.t -> Z * Api.body * table) :
  let self := AuthService.new key in
  let db' := Admin.deactivate_users db queryset in
  (User.id user < 2 ^ 128)%N ->
  find (fun r => N.eqb (User.id r) (User.id user)) db = Some row ->
  queryset row = true ->
  issued <= now -> now < (Datetime.timegm issued + 3600) * Datetime.second ->
  AuthService.get_user_from_token self db' (signed self (access_claims self user issued)) now
  = Raise (AuthenticationError "User account is deactivated")
  /\ AuthService.refresh_access_token self db'
       (signed self (refresh_claims self user issued)) now now'
     = Raise (AuthenticationError "User account is deactivated")
  /\ Api.with_jwt_auth self db' (signed self (access_claims self user issued)) now endpoint
     = (401, Api.Detail "Unauthorized", db').
Proof.
  intros self db' Hid Hfind Hsel Hissued Hexp.
  assert (Hfind' : find (fun r => N.eqb (User.id r) (User.id user)) db'
                   = Some (User.set_is_active false row)).
  { unfold db', Admin.deactivate_users. rewrite find_update by reflexivity.
    rewrite Hfind. cbn [option_map]. rewrite Hsel. reflexivity. }
  assert (Hget : AuthService.get_user_from_token self db'
                   (signed self (access_claims self user issued)) now
                 = Raise (AuthenticationError "User account is deactivated")).
  { unfold AuthService.get_user_from_token, self.
    rewrite validate_issued_access by assumption.
    unfold mbind, result_bind. cbv beta iota.
    rewrite (load_active_user_found db' _ (User.id user) _ Hid
               (access_claims_user_id _ _ _) Hfind').
    reflexivity. }
  split; [exact Hget|]. split.
  - unfold AuthService.refresh_access_token, self.
    rewrite validate_issued_refresh
      by (unfold Datetime.second in *; lia).
    unfold mbind, result_bind. cbv beta iota.
    rewrite (load_active_user_found db' _ (User.id user) _ Hid
               (refresh_claims_user_id _ _ _) Hfind').
    reflexivity.
  - unfold Api.with_jwt_auth, Api.JWTAuth_authenticate. rewrite Hget. reflexivity.
Qed.

(** X7. When the access token has expired and the refresh token has not:
    [get_user_from_token] refuses the old access token with ["Token has
    expired"], [refresh_access_token] answers with a new access token, and
    that token resolves to the user's row for the hour after it was made. *)
Theorem refresh_after_access_expiry (key : string) (db : table) (user row : User.t)
    (issued now now' now'' : Z) :
  let self := AuthService.new key in
  (User.id user < 2 ^ 128)%N ->
  find (fun r => N.eqb (User.id r) (User.id user)) db = Some row ->
  User.is_active row = true ->
  (Datetime.timegm issued + 3600) * Datetime.second <= now ->
  now < (Datetime.timegm issued + 604800) * Datetime.second ->
  now' <= now'' -> now'' < (Datetime.timegm now' + 3600) * Datetime.second ->
  AuthService.get_user_from_token self db (signed self (access_claims self user issued)) now
  = Raise (TokenError "Token has expired")
  /\ exists tokens access_token,
       AuthService.refresh_access_token self db
         (signed self (refresh_claims self user issued)) now now' = Ok tokens
       /\ tokens !! "access_token" = Some (TToken access_token)
       /\ AuthService.get_user_from_token self db access_token now'' = Ok row.
Proof.
  intros self Hid Hfind Hactive Hexpired Hrefresh Hle Hnew.
  assert (Hissued : issued <= now).
  { pose proof (timegm_lt issued). unfold Datetime.second in *. lia. }
  assert (Hrow : User.id row = User.id user).
  { apply find_some in Hfind as [_ Heq]. apply N.eqb_eq in Heq. exact Heq. }
  split.
  - unfold AuthService.get_user_from_token, self.
    rewrite validate_access_token_signed, validate_claims_access by exact Hissued.
    destruct (Z.leb_spec ((Datetime.timegm issued + 3600) * Datetime.second) now); [|lia].
    reflexivity.
  - eexists. exists (signed self (access_claims self row now')).
    split; [|split].
    + apply (refresh_access_token_eq self db _ now now'
               (refresh_claims self user issued) row).
      * apply validate_issued_refresh; assumption.
      * rewrite (load_active_user_found db _ (User.id user) row Hid
                   (refresh_claims_user_id _ _ _) Hfind), Hactive. reflexivity.
    + destruct (refresh_tokens_lookups
                  (TToken (signed self (access_claims self row now'))) (TStr "Bearer")
                  (TInt (Datetime.total_seconds_int (AuthService.access_token_lifetime self))))
        as (Ha & _). exact Ha.
    + unfold AuthService.get_user_from_token, self.
      rewrite validate_issued_access by assumption.
      unfold mbind, result_bind. cbv beta iota.
      assert (Huid : access_claims (AuthService.new key) row now' !! "user_id"
                     = Some (JStr (Uuid.str (User.id user)))).
      { rewrite access_claims_user_id, Hrow. reflexivity. }
      rewrite (load_active_user_found db _ (User.id user) row Hid Huid Hfind), Hactive.
      reflexivity.
Qed.

End Bearer.

Lemma deactivate_users_revokes_tokens_witness :
  AuthService.get_user_from_token (H := Demo.framework) Demo.service
    (Admin.deactivate_users Demo.db (fun r => N.eqb (User.id r) 1))
    (signed (H := Demo.framework) Demo.service
       (access_claims Demo.service Demo.alice 1700000100000000)) 1700000200000000
  = Raise (AuthenticationError "User account is deactivated")
  /\ AuthService.refresh_access_token (H := Demo.framework) Demo.service
       (Admin.deactivate_users Demo.db (fun r => N.eqb (User.id r) 1))
       (signed (H := Demo.framework) Demo.service
          (refresh_claims Demo.service Demo.alice 1700000100000000))
       1700000200000000 1700000200000001
     = Raise (AuthenticationError "User account is deactivated")
  /\ Api.with_jwt_auth (H := Demo.framework) Demo.service
       (Admin.deactivate_users Demo.db (fun r => N.eqb (User.id r) 1))
       (signed (H := Demo.framework) Demo.service
          (access_claims Demo.service Demo.alice 1700000100000000)) 1700000200000000
       (Api.get_current_user Demo.db)
     = (401, Api.Detail "Unauthorized",
        Admin.deactivate_users Demo.db (fun r => N.eqb (User.id r) 1)).
Proof.
  apply (deactivate_users_revokes_tokens (H := Demo.framework) "demo-signing-key" Demo.db
           Demo.alice Demo.alice (fun r => N.eqb (User.id r) 1)
           1700000100000000 1700000200000000 1700000200000001
           (Api.get_current_user Demo.db)).
  - vm_compute. reflexivity.
  - reflexivity.
  - reflexivity.
  - lia.
  - vm_compute. reflexivity.
Defined.

Lemma refresh_after_access_expiry_witness :
  AuthService.get_user_from_token (H := Demo.framework) Demo.service Demo.db
    (signed (H := Demo.framework) Demo.service
       (access_claims Demo.service Demo.alice 1700000100000000)) 1700009000000000
  = Raise (TokenError "Token has expired")
  /\ exists tokens access_token,
       AuthService.refresh_access_token (H := Demo.framework) Demo.service Demo.db
         (signed (H := Demo.framework) Demo.service
            (refresh_claims Demo.service Demo.alice 1700000100000000))
         1700009000000000 1700009000000001 = Ok tokens
       /\ tokens !! "access_token" = Some (TToken access_token)
       /\ AuthService.get_user_from_token (H := Demo.framework) Demo.service Demo.db
            access_token 1700009000000002 = Ok Demo.alice.
Proof.
  apply (refresh_after_access_expiry (H := Demo.framework) "demo-signing-key" Demo.db
           Demo.alice Demo.alice 1700000100000000 1700009000000000 1700009000000001
           1700009000000002).
  - vm_compute. reflexivity.
  - reflexivity.
  - reflexivity.
  - vm_compute. discriminate.
  - vm_compute. reflexivity.
  - lia.
  - vm_compute. reflexivity.
Defined.

(** ** Sign-in *)

Section Login.
Context `{Framework}.


Lemma find_id_map (db : table) (g : User.t -> User.t) (u : N) :
  (forall row, User.id (g row) = User.id row) ->
  find (fun row => N.eqb (User.id row) u) (map g db)
  = option_map g (find (fun row => N.eqb (User.id row) u) db).
Proof.
  intros Hg. induction db as [|row db IH]; [reflexivity|].
  cbn [map find]. rewrite Hg.
  destruct (N.eqb (User.id row) u); [reflexivity|exact IH].
Qed.

Lemma rehashed_user_id (raw salt : string) (row : User.t) :
  User.id (rehashed_user raw salt row) = User.id row
  /\ User.email (rehashed_user raw salt row) = User.email row
  /\ User.is_active (rehashed_user raw salt row) = User.is_active row.
Proof. unfold rehashed_user. destruct (rehash_needed raw row); auto. Qed.

Lemma find_id_rehashed (db : table) (raw salt : string) (row : User.t) (u : N) :
  find (fun r => N.eqb (User.id r) u) (rehashed db raw salt row) = None
  <-> find (fun r => N.eqb (User.id r) u) db = None.
Proof.
  unfold rehashed. destruct (rehash_needed raw row); [|reflexivity].
  rewrite find_id_map by (intros r; destruct (N.eqb (User.id r) (User.id row)); reflexivity).
  destruct (find _ db); split; intros Heq; try discriminate; reflexivity.
Qed.


Lemma lower_strip_lower (s : string) :
  Py.lower (Py.strip (Py.lower s)) = Py.strip (Py.lower s).
Proof.
  assert (Hfixed : Forall (fun c => Py.lower_char c = c) (Py.chars (Py.strip (Py.lower s)))).
  { unfold Py.strip, Py.lower. rewrite !chars_of_chars. apply strip_chars_Forall.
    induction (Py.chars s) as [|c l IH]; simpl; constructor;
      [apply lower_char_idem | exact IH]. }
  unfold Py.lower at 1. rewrite (map_lower_char_fixed _ Hfixed). apply of_chars_chars.
Qed.

(** X8. A successful [authenticate_user] was given a non-empty email and
    password; the user it returns has the identifier and the email of a row
    of the table, the one stored under the email stripped and lower-cased;
    the password checks against the hash stored in that row, and the
    account is active, in the row and in the record returned.  The record
    returned carries the stored hash, or, when that one is outdated, the
    hash that [check_password] made from the password.  The stored email of
    the row has no upper-case letter: an account stored under an email with
    one cannot sign in. *)
Theorem authenticate_user_sound (self : AuthService.t) (db db' : table)
    (email password : string) (ip_address : option string) (salt : string) (now : Z)
    (user' : User.t) :
  AuthService.authenticate_user self db email password ip_address salt now
  = (Ok user', db') ->
  email <> "" /\ password <> ""
  /\ User.is_active user' = true
  /\ User.email user' = Py.strip (Py.lower email)
  /\ Py.lower (User.email user') = User.email user'
  /\ exists row, In row db /\ User.id row = User.id user'
                 /\ User.email row = User.email user'
                 /\ Db.get_by_natural_key db (Py.strip (Py.lower email)) = Ok row
                 /\ check_password password (User.password row) = true
                 /\ User.is_active row = true
                 /\ User.password user'
                    = (if must_update (User.password row)
                       then make_password salt password else User.password row).
Proof.
  intros Hres.
  destruct (authenticate_user_inv _ _ _ _ _ _ _ _ _ Hres)
    as (He & Hp & row & Hrow & Hpw & Hactive & Hcase).
  pose proof Hrow as Hkey.
  apply get_by_natural_key_inv in Hrow as [Hin Hemail].
  split; [exact He|]. split; [exact Hp|].
  assert (Hlower : Py.lower (User.email row) = User.email row)
    by (rewrite Hemail; apply lower_strip_lower).
  destruct (rehashed_user_id password salt row) as (Hid & Hem & Hact).
  destruct (rehashed_user_frame password salt row) as (_ & _ & _ & Hhash).
  assert (Hneed : rehash_needed password row = must_update (User.password row))
    by (unfold rehash_needed; rewrite Hpw; reflexivity).
  rewrite Hneed in Hhash.
  assert (Hfields : User.id user' = User.id row /\ User.email user' = User.email row
                    /\ User.is_active user' = User.is_active row
                    /\ User.password user' = User.password (rehashed_user password salt row)).
  { destruct Hcase as [(-> & _ & _)|(ip & _ & _ & -> & _)]; auto. }
  destruct Hfields as (Hid' & Hem' & Hact' & Hpw').
  split; [congruence|]. split; [congruence|]. split; [congruence|].
  exists row. repeat split; try congruence; assumption.
Qed.

(** What a failing [authenticate_user] has met, and the table it leaves. *)
Lemma authenticate_user_raises (self : AuthService.t) (db db1 : table)
    (email password : string) (ip_address : option string) (salt : string) (now : Z)
    (e : exn) :
  AuthService.authenticate_user self db email password ip_address salt now
  = (Raise e, db1) ->
  (e = AuthenticationError "Email and password are required"
   /\ (email = "" \/ password = "") /\ db1 = db)
  \/ (e = AuthenticationError "Invalid email or password"
      /\ email <> "" /\ password <> ""
      /\ Db.get_by_natural_key db (Py.strip (Py.lower email)) = Raise DoesNotExist
      /\ db1 = db)
  \/ (exists row,
        e = AuthenticationError "Invalid email or password"
        /\ email <> "" /\ password <> ""
        /\ Db.get_by_natural_key db (Py.strip (Py.lower email)) = Ok row
        /\ check_password password (User.password row) && User.is_active row = false
        /\ db1 = rehashed db password salt row)
  \/ (exists m row,
        e = DataError m
        /\ Db.get_by_natural_key db (Py.strip (Py.lower email)) = Ok row
        /\ check_password password (User.password row) = true
        /\ ((rehash_needed password row = true /\ db1 = db)
            \/ (User.is_active row = true /\ (exists ip, ip_address = Some ip)
                /\ db1 = rehashed db password salt row))).
Proof.
  unfold AuthService.authenticate_user, AuthService.authenticate_user_with.
  destruct email as [|c email]; [intros [= <- <-]; auto|].
  destruct password as [|d password]; [intros [= <- <-]; auto|].
  cbn [Py.falsy orb].
  destruct (Backend.authenticate db _ _ salt now) as [[found d1]|e0] eqn:Hauth.
  - destruct (authenticate_inv _ _ _ _ _ _ _ Hauth)
      as [(Hnone & -> & ->)|(row & Hrow & -> & ->)].
    { intros [= <- <-]. right. left. repeat split; try discriminate. exact Hnone. }
    destruct (check_password (String d password) (User.password row)
              && User.is_active row) eqn:Hok.
    2: { intros [= <- <-]. right. right. left. exists row.
         repeat split; try discriminate; assumption. }
    apply andb_prop in Hok as [Hpw Hactive].
    destruct (rehashed_user_id (String d password) salt row) as (Hid & _ & Hact).
    rewrite Hact, Hactive. cbn [negb].
    destruct ip_address as [ip|]; [|discriminate].
    destruct (Py.falsy ip); [discriminate|].
    destruct (UserModel.update_last_login_ip _ _ _ _) as [[u d']|e1] eqn:Hsave;
      [discriminate|].
    intros [= <- <-]. unfold UserModel.update_last_login_ip in Hsave.
    destruct (save_raises _ _ _ _ _ Hsave) as [[m ->]|[Hfind _]].
    + right. right. right. exists m, row. repeat split; try assumption. right. eauto.
    + exfalso. change (User.id (User.set_last_login_ip (Some ip)
                                  (rehashed_user (String d password) salt row)))
        with (User.id (rehashed_user (String d password) salt row)) in Hfind.
      rewrite Hid in Hfind. apply find_id_rehashed in Hfind.
      apply get_by_natural_key_inv in Hrow as [Hin _].
      exact (find_id_In db row Hin Hfind).
  - intros [= <- <-].
    unfold Backend.authenticate, Backend.ModelBackend_authenticate in Hauth.
    destruct (Db.get_by_natural_key db _) as [row|e1] eqn:Hrow; [|discriminate].
    destruct (UserModel.check_password db _ row salt now) as [[[ok u] d1]|e'] eqn:Hcheck.
    + destruct (ok && _); discriminate.
    + injection Hauth as <-.
      destruct (check_password_raises _ _ _ _ _ _ Hcheck) as (Hneed & [[m ->]|[Hfind _]]).
      * right. right. right. exists m, row. split; [reflexivity|]. split; [reflexivity|].
        split; [|left; auto].
        unfold rehash_needed in Hneed. apply andb_prop in Hneed as [Hpw _]. exact Hpw.
      * apply get_by_natural_key_inv in Hrow as [Hin _].
        exfalso. exact (find_id_In db row Hin Hfind).
Qed.

(** X9. The login endpoint, given the email and the password of the
    request.  When [authenticate_user] fails the answer is 401 with
    ["Email and password are required"] if one of the two is empty, 401
    with ["Invalid email or password"] alike when no row has the email,
    when the password does not check and when the account is inactive, and
    400 when the database refuses a row update.  The table of the answer is
    the one it was, except that a row found under the email whose password
    is right and whose hash is outdated has its hash made again, also when
    the login is then refused because the account is inactive.  An answer
    200 carries the user and the table that [authenticate_user] returned
    and the tokens that [create_tokens] made for the user. *)
Theorem login_outcomes (self : AuthService.t) (db : table) (META : gmap string string)
    (email password salt : string) (now now_tokens : Z) :
  let answer := Api.login self db META email password salt now now_tokens in
  let outcome := AuthService.authenticate_user self db email password
                   (Some (Api.get_client_ip META)) salt now in
  (forall e db1, outcome = (Raise e, db1) ->
     ((email = "" \/ password = "")
      /\ answer = (401, Api.ErrorResponse "authentication_failed"
                          "Email and password are required" None, db))
     \/ (email <> "" /\ password <> ""
         /\ Db.get_by_natural_key db (Py.strip (Py.lower email)) = Raise DoesNotExist
         /\ answer = (401, Api.ErrorResponse "authentication_failed"
                             "Invalid email or password" None, db))
     \/ (exists row,
           email <> "" /\ password <> ""
           /\ Db.get_by_natural_key db (Py.strip (Py.lower email)) = Ok row
           /\ check_password password (User.password row) && User.is_active row = false
           /\ answer = (401, Api.ErrorResponse "authentication_failed"
                               "Invalid email or password" None,
                        rehashed db password salt row))
     \/ (exists m row,
           e = DataError m
           /\ Db.get_by_natural_key db (Py.strip (Py.lower email)) = Ok row
           /\ check_password password (User.password row) = true
           /\ (answer = (400, Api.ErrorResponse "invalid_request" m None, db)
               \/ answer = (400, Api.ErrorResponse "invalid_request" m None,
                            rehashed db password salt row))))
  /\ (forall row,
        email <> "" -> password <> "" ->
        Db.get_by_natural_key db (Py.strip (Py.lower email)) = Ok row ->
        check_password password (User.password row) = true ->
        must_update (User.password row) = true ->
        User.is_active row = false ->
        answer = (401, Api.ErrorResponse "authentication_failed"
                         "Invalid email or password" None,
                  map (fun r => if N.eqb (User.id r) (User.id row)
                                then User.set_password_hash (make_password salt password) r
                                else r) db)
        \/ exists m, answer = (400, Api.ErrorResponse "invalid_request" m None, db))
  /\ (forall body db',
        answer = (200, body, db') ->
        exists user tokens,
          outcome = (Ok user, db')
          /\ AuthService.create_tokens self user now_tokens = Ok tokens
          /\ body = Api.AuthResponse user tokens).
Proof.
  intros answer outcome. unfold answer, outcome, Api.login. cbv zeta.
  split; [|split].
  - intros e db1 Hauth. rewrite Hauth.
    destruct (authenticate_user_raises _ _ _ _ _ _ _ _ _ Hauth)
      as [(-> & Hempty & ->)|[(-> & He & Hp & Hnone & ->)
          |[(row & -> & He & Hp & Hrow & Hok & ->)
           |(m & row & -> & Hrow & Hpw & [[_ ->]|(_ & _ & ->)])]]].
    + left. auto.
    + right. left. auto.
    + right. right. left. exists row. auto.
    + right. right. right. exists m, row. auto.
    + right. right. right. exists m, row. auto.
  - intros row He Hp Hrow Hpw Hupdate Hinactive.
    destruct (AuthService.authenticate_user _ _ _ _ _ _ _) as [out db1] eqn:Hauth.
    destruct (authenticate_user_inactive self db email password _ salt now row out db1
                Hrow Hpw Hinactive Hauth He Hp) as [[-> ->]|(m & -> & ->)].
    + left. unfold rehashed, rehash_needed. rewrite Hpw, Hupdate. reflexivity.
    + right. exists m. reflexivity.
  - intros body db'.
    destruct (AuthService.authenticate_user _ _ _ _ _ _ _) as [[user|e] d] eqn:Hauth.
    + rewrite create_tokens_eq. intros [= <- <-]. eauto.
    + destruct e; discriminate.
Qed.

Lemma get_user_from_token_found (key : string) (db : table) (user row : User.t)
    (issued now : Z) :
  (User.id user < 2 ^ 128)%N ->
  find (fun r => N.eqb (User.id r) (User.id user)) db = Some row ->
  issued <= now -> now < (Datetime.timegm issued + 3600) * Datetime.second ->
  AuthService.get_user_from_token (AuthService.new key) db
    (signed (AuthService.new key) (access_claims (AuthService.new key) user issued)) now
  = if User.is_active row then Ok row
    else Raise (AuthenticationError "User account is deactivated").
Proof.
  intros Hid Hfind Hissued Hexp. unfold AuthService.get_user_from_token.
  rewrite validate_issued_access by assumption.
  unfold mbind, result_bind. cbv beta iota.
  apply (load_active_user_found db _ (User.id user) row Hid
           (access_claims_user_id _ _ _) Hfind).
Qed.


End Login.


(** [erin] signs in with her password while her stored hash is outdated:
    the record returned carries the hash made again. *)
Lemma authenticate_user_sound_witness :
  "Erin@Example.com" <> "" /\ "open sesame" <> ""
  /\ User.is_active (User.set_password_hash "plain$open sesame" Demo.erin) = true
  /\ User.email (User.set_password_hash "plain$open sesame" Demo.erin)
     = Py.strip (Py.lower "Erin@Example.com")
  /\ Py.lower (User.email (User.set_password_hash "plain$open sesame" Demo.erin))
     = User.email (User.set_password_hash "plain$open sesame" Demo.erin)
  /\ exists row, In row [Demo.erin]
                 /\ User.id row = User.id (User.set_password_hash "plain$open sesame" Demo.erin)
                 /\ User.email row
                    = User.email (User.set_password_hash "plain$open sesame" Demo.erin)
                 /\ Db.get_by_natural_key [Demo.erin] (Py.strip (Py.lower "Erin@Example.com"))
                    = Ok row
                 /\ check_password (Framework := Demo.framework) "open sesame"
                      (User.password row) = true
                 /\ User.is_active row = true
                 /\ User.password (User.set_password_hash "plain$open sesame" Demo.erin)
                    = (if must_update (Framework := Demo.framework) (User.password row)
                       then make_password (Framework := Demo.framework) "salt" "open sesame"
                       else User.password row).
Proof.
  apply (authenticate_user_sound (H := Demo.framework) Demo.service [Demo.erin]
           [User.set_password_hash "plain$open sesame" Demo.erin]
           "Erin@Example.com" "open sesame" None "salt" 1700000100000000
           (User.set_password_hash "plain$open sesame" Demo.erin)).
  vm_compute. reflexivity.
Defined.

(** ** Registration *)

Section RegisterAccount.
Context `{Framework}.

Lemma exists_email_find (db : table) (email : string) (user : User.t) :
  Db.exists_email db email = false -> User.email user = email ->
  find (fun row => String.eqb (User.email row) email) (db ++ [user]) = Some user.
Proof.
  unfold Db.exists_email. intros Hex Hemail.
  induction db as [|row db IH]; cbn [app find existsb] in *.
  - rewrite Hemail, String.eqb_refl. reflexivity.
  - apply orb_false_elim in Hex as [Hrow Hex]. rewrite Hrow. exact (IH Hex).
Qed.

Lemma exists_email_app (db : table) (email : string) (user : User.t) :
  User.email user = email -> Db.exists_email (db ++ [user]) email = true.
Proof.
  intros Hemail. unfold Db.exists_email. rewrite existsb_app. cbn [existsb].
  rewrite Hemail, String.eqb_refl, orb_true_r. reflexivity.
Qed.

(** What a successful registration without extra fields has done. *)
Lemma register_user_inv (self : AuthService.t) (db db' : table)
    (email password first_name last_name : string)
    (fresh_id : N) (salt : string) (now now_updated : Z) (user : User.t) :
  AuthService.register_user self db email password first_name last_name []
    fresh_id salt now now_updated = Ok (user, db') ->
  let e := Py.strip (Py.lower email) in
  e <> "" /\ password <> ""
  /\ Db.exists_email db e = false
  /\ PasswordValidation.validate_password password None = Ok tt
  /\ user = User.mk fresh_id (make_password salt password) e false e first_name last_name
              None true false false now now_updated None
  /\ column_error user = None
  /\ existsb (fun row => N.eqb (User.id row) fresh_id) db = false
  /\ existsb (fun row => String.eqb (User.username row) e) db = false
  /\ db' = db ++ [user].
Proof.
  intros Hreg e. revert Hreg. unfold AuthService.register_user.
  destruct email as [|c email]; [discriminate|].
  destruct password as [|d password]; [discriminate|].
  cbn [Py.falsy orb]. fold e.
  destruct (Db.exists_email db e) eqn:Hex; [discriminate|].
  destruct (PasswordValidation.validate_password _ None) as [[]|] eqn:Hv; [|discriminate].
  unfold mbind, result_bind. cbv beta iota.
  unfold UserManager.create_user_with_profile.
  destruct (Py.falsy e) eqn:Hfalsy; [discriminate|].
  cbv zeta. unfold e at 1 2. rewrite normalize_email_normalized. fold e.
  unfold UserModel.init. cbn [existsb fold_left].
  unfold mbind, result_bind. cbv beta iota.
  unfold UserModel.set_password.
  change (User.set_updated_at now_updated
            (User.set_created_at now
               (User.set_password_hash (make_password salt (String d password))
                  (User.mk fresh_id "" e false e first_name last_name None
                     true false false 0 0 None))))
    with (User.mk fresh_id (make_password salt (String d password)) e false e
            first_name last_name None true false false now now_updated None).
  set (u := User.mk fresh_id _ e false e first_name last_name None true false false
              now now_updated None).
  unfold Db.insert.
  destruct (column_error u) eqn:Hcol; [discriminate|].
  change (User.id u) with fresh_id. change (User.email u) with e.
  change (User.username u) with e.
  destruct (existsb (fun row => N.eqb (User.id row) fresh_id) db) eqn:Hid; [discriminate|].
  rewrite <- Hex. unfold Db.exists_email.
  destruct (existsb (fun row => String.eqb (User.email row) e) db) eqn:Hem; [discriminate|].
  destruct (existsb (fun row => String.eqb (User.username row) e) db) eqn:Hun;
    [discriminate|].
  intros [= <- <-].
  split; [destruct e; [discriminate Hfalsy|discriminate]|].
  split; [discriminate|]. auto 10.
Qed.

Lemma register_user_fresh (self : AuthService.t) (db db' : table)
    (email password first_name last_name : string)
    (fresh_id : N) (salt : string) (now now_updated : Z) (user : User.t) :
  AuthService.register_user self db email password first_name last_name []
    fresh_id salt now now_updated = Ok (user, db') ->
  db' = db ++ [user]
  /\ User.is_staff user = false /\ User.is_superuser user = false
  /\ Forall (fun row => User.id row <> User.id user
                        /\ User.email row <> User.email user
                        /\ User.username row <> User.username user) db.
Proof.
  intros Hreg.
  destruct (register_user_inv _ _ _ _ _ _ _ _ _ _ _ _ Hreg)
    as (He & Hp & Hex & Hv & Hu & Hcol & Hid & Hun & Hdb).
  split; [exact Hdb|]. split; [subst user; reflexivity|].
  split; [subst user; reflexivity|].
  rewrite List.Forall_forall. intros row Hin. subst user.
  cbn [User.id User.email User.username].
  unfold Db.exists_email in Hex.
  rewrite <- not_true_iff_false, existsb_exists in Hid, Hex, Hun.
  repeat split; intros Heq.
  - apply Hid. exists row. split; [exact Hin|]. apply N.eqb_eq, Heq.
  - apply Hex. exists row. split; [exact Hin|]. apply String.eqb_eq, Heq.
  - apply Hun. exists row. split; [exact Hin|]. apply String.eqb_eq, Heq.
Qed.

(** X11. A registration through the service that succeeds has appended one
    row and returns it: identifier and hash are the ones drawn, [created_at]
    is the first reading of the clock and [updated_at] the second, email and
    username are both the email lower-cased and stripped, the names are the
    ones given, and the account is active, not verified, not staff and not
    superuser.  Before, no row had this email, this username or this
    identifier, and the password passed the validators. *)
Theorem register_user_creates (self : AuthService.t) (db db' : table)
    (email password first_name last_name : string)
    (fresh_id : N) (salt : string) (now now_updated : Z) (user : User.t) :
  AuthService.register_user self db email password first_name last_name []
    fresh_id salt now now_updated = Ok (user, db') ->
  user = User.mk fresh_id (make_password salt password) (Py.strip (Py.lower email)) false
           (Py.strip (Py.lower email)) first_name last_name None true false false
           now now_updated None
  /\ db' = db ++ [user]
  /\ Forall (fun row => User.id row <> User.id user
                        /\ User.email row <> User.email user
                        /\ User.username row <> User.username user) db
  /\ PasswordValidation.validate_password password None = Ok tt.
Proof.
  intros Hreg.
  destruct (register_user_inv _ _ _ _ _ _ _ _ _ _ _ _ Hreg)
    as (_ & _ & _ & Hv & Hu & _).
  destruct (register_user_fresh _ _ _ _ _ _ _ _ _ _ _ _ Hreg) as (Hdb & _ & _ & Hfresh).
  auto.
Qed.

(** X12. With a hasher whose [check_password] accepts what [make_password]
    made: the credentials of a successful registration sign in at once.
    When the hasher does not call the new hash outdated,
    [authenticate_user] returns the registered record and leaves the table
    as it is; in any case it returns the registered record with its hash
    made again if outdated, unless the database refuses the new hash.  A
    second registration under an email that differs from the first at most
    in case and in surrounding blanks is refused with ["User with this
    email already exists"]. *)
Theorem register_then_authenticate (self : AuthService.t) (db db' : table)
    (email password first_name last_name : string)
    (fresh_id : N) (salt : string) (now now_updated : Z) (user : User.t) :
  (forall salt raw, check_password raw (make_password salt raw) = true) ->
  AuthService.register_user self db email password first_name last_name []
    fresh_id salt now now_updated = Ok (user, db') ->
  (must_update (make_password salt password) = false ->
   forall salt' now', AuthService.authenticate_user self db' email password None salt' now'
                      = (Ok user, db'))
  /\ (forall salt' now',
        AuthService.authenticate_user self db' email password None salt' now'
        = (Ok (rehashed_user password salt' user), rehashed db' password salt' user)
        \/ exists m,
             AuthService.authenticate_user self db' email password None salt' now'
             = (Raise (DataError m), db'))
  /\ (forall email' password' first_name' last_name' extra_fields fresh_id' salt' now'
             now_updated',
        Py.strip (Py.lower email') = Py.strip (Py.lower email) ->
        email' <> "" -> password' <> "" ->
        AuthService.register_user self db' email' password' first_name' last_name'
          extra_fields fresh_id' salt' now' now_updated'
        = Raise (ValidationError ["User with this email already exists"])).
Proof.
  intros Hhasher Hreg.
  destruct (register_user_inv _ _ _ _ _ _ _ _ _ _ _ _ Hreg)
    as (He & Hp & Hex & Hv & Hu & Hcol & Hid & Hun & Hdb).
  assert (Hemail : User.email user = Py.strip (Py.lower email)) by (subst user; reflexivity).
  assert (Hhash : User.password user = make_password salt password)
    by (subst user; reflexivity).
  assert (Hactive : User.is_active user = true) by (subst user; reflexivity).
  assert (Hkey : Db.get_by_natural_key db' (Py.strip (Py.lower email)) = Ok user).
  { unfold Db.get_by_natural_key.
    rewrite Hdb, (exists_email_find db _ user Hex Hemail). reflexivity. }
  assert (Hne : email <> "") by (intros ->; apply He; reflexivity).
  assert (Hpw : check_password password (User.password user) = true)
    by (rewrite Hhash; apply Hhasher).
  split; [|split].
  - intros Hcurrent salt' now'.
    assert (Hneed : rehash_needed password user = false).
    { unfold rehash_needed. rewrite Hhash, Hcurrent. apply andb_false_r. }
    destruct (authenticate_user_right_password self db' email password salt' now' user
                Hne Hp Hkey Hpw Hactive) as [Hok|(m & Hm & _)]; [|congruence].
    rewrite Hok. unfold rehashed_user, rehashed. rewrite Hneed. reflexivity.
  - intros salt' now'.
    destruct (authenticate_user_right_password self db' email password salt' now' user
                Hne Hp Hkey Hpw Hactive) as [Hok|(m & _ & Hfail)]; [left|right]; eauto.
  - intros email' password' first_name' last_name' extra_fields fresh_id' salt' now'
      now_updated' Hsame He' Hp'.
    unfold AuthService.register_user.
    destruct email' as [|c email']; [congruence|].
    destruct password' as [|d password']; [congruence|].
    cbn [Py.falsy orb]. rewrite Hsame, Hdb, (exists_email_app db _ user Hemail).
    reflexivity.
Qed.

(** X13. The registration endpoint, given the data of the request: when
    [register_user] fails the table is left as it was and the answer is 400,
    [validation_error] with the messages under [general] for a
    [ValidationError] and [registration_failed] when the creation of the row
    failed; an answer 201 carries the user that [register_user] created and
    the tokens that [create_tokens] made for it. *)
Theorem register_outcomes (self : AuthService.t) (db : table)
    (email password first_name last_name : string) (fresh_id : N) (salt : string)
    (now now_updated now_tokens : Z) :
  let answer := Api.register self db email password first_name last_name fresh_id salt
                  now now_updated now_tokens in
  let outcome := AuthService.register_user self db email password first_name last_name []
                   fresh_id salt now now_updated in
  (forall e, outcome = Raise e ->
     (exists messages,
        e = ValidationError messages
        /\ answer = (400, Api.ErrorResponse "validation_error"
                            "Registration validation failed"
                            (Some ("general", messages)), db))
     \/ (exists cause,
           e = AuthenticationError ("Failed to create user: " +:+ exn_str cause)
           /\ answer = (400, Api.ErrorResponse "registration_failed"
                               ("Failed to create user: " +:+ exn_str cause) None, db)))
  /\ (forall body db',
        answer = (201, body, db') ->
        exists user tokens,
          outcome = Ok (user, db')
          /\ AuthService.create_tokens self user now_tokens = Ok tokens
          /\ body = Api.AuthResponse user tokens).
Proof.
  intros answer outcome. unfold answer, outcome, Api.register. split.
  - intros e Hreg. rewrite Hreg.
    destruct (register_user_other_failure _ _ _ _ _ _ _ _ _ _ _ _ Hreg)
      as [[messages ->]|[cause ->]]; [left|right]; eauto.
  - intros body db'.
    destruct (AuthService.register_user _ _ _ _ _ _ _ _ _ _ _) as [[user d]|e] eqn:Hreg.
    + rewrite create_tokens_eq. intros [= <- <-]. eauto.
    + destruct e; discriminate.
Qed.

End RegisterAccount.

Lemma register_user_creates_witness :
  User.mk 3 "plain$tr0ub4dor&3" "bob@example.com" false "bob@example.com" "Bob" "Ross"
    None true false false 1700000100000000 1700000100000007 None
  = User.mk 3 (make_password (Framework := Demo.framework) "salt" "tr0ub4dor&3")
      (Py.strip (Py.lower " Bob@Example.COM ")) false
      (Py.strip (Py.lower " Bob@Example.COM ")) "Bob" "Ross" None true false false
      1700000100000000 1700000100000007 None
  /\ Demo.db ++ [User.mk 3 "plain$tr0ub4dor&3" "bob@example.com" false "bob@example.com"
                   "Bob" "Ross" None true false false 1700000100000000 1700000100000007
                   None]
     = Demo.db ++ [User.mk 3 "plain$tr0ub4dor&3" "bob@example.com" false "bob@example.com"
                     "Bob" "Ross" None true false false 1700000100000000 1700000100000007
                     None]
  /\ Forall (fun row =>
               User.id row
               <> User.id (User.mk 3 "plain$tr0ub4dor&3" "bob@example.com" false
                             "bob@example.com" "Bob" "Ross" None true false false
                             1700000100000000 1700000100000007 None)
               /\ User.email row
                  <> User.email (User.mk 3 "plain$tr0ub4dor&3" "bob@example.com" false
                                   "bob@example.com" "Bob" "Ross" None true false false
                                   1700000100000000 1700000100000007 None)
               /\ User.username row
                  <> User.username (User.mk 3 "plain$tr0ub4dor&3" "bob@example.com" false
                                      "bob@example.com" "Bob" "Ross" None true false false
                                      1700000100000000 1700000100000007 None)) Demo.db
  /\ PasswordValidation.validate_password (H := Demo.framework) "tr0ub4dor&3" None = Ok tt.
Proof.
  apply (register_user_creates (H := Demo.framework) Demo.service Demo.db _
           " Bob@Example.COM " "tr0ub4dor&3" "Bob" "Ross" 3%N "salt" 1700000100000000
           1700000100000007).
  vm_compute. reflexivity.
Defined.

Lemma register_then_authenticate_witness :
  (must_update (Framework := Demo.framework)
     (make_password (Framework := Demo.framework) "salt" "tr0ub4dor&3") = false ->
   forall salt' now',
     AuthService.authenticate_user (H := Demo.framework) Demo.service
       (Demo.db ++ [User.mk 3 "plain$tr0ub4dor&3" "bob@example.com" false "bob@example.com"
                      "Bob" "Ross" None true false false 1700000100000000
                      1700000100000007 None])
       " Bob@Example.COM " "tr0ub4dor&3" None salt' now'
     = (Ok (User.mk 3 "plain$tr0ub4dor&3" "bob@example.com" false "bob@example.com"
              "Bob" "Ross" None true false false 1700000100000000 1700000100000007 None),
        Demo.db ++ [User.mk 3 "plain$tr0ub4dor&3" "bob@example.com" false
                      "bob@example.com" "Bob" "Ross" None true false false
                      1700000100000000 1700000100000007 None]))
  /\ (forall salt' now',
        AuthService.authenticate_user (H := Demo.framework) Demo.service
          (Demo.db ++ [User.mk 3 "plain$tr0ub4dor&3" "bob@example.com" false
                         "bob@example.com" "Bob" "Ross" None true false false
                         1700000100000000 1700000100000007 None])
          " Bob@Example.COM " "tr0ub4dor&3" None salt' now'
        = (Ok (rehashed_user (H := Demo.framework) "tr0ub4dor&3" salt'
                 (User.mk 3 "plain$tr0ub4dor&3" "bob@example.com" false "bob@example.com"
                    "Bob" "Ross" None true false false 1700000100000000
                    1700000100000007 None)),
           rehashed (H := Demo.framework)
             (Demo.db ++ [User.mk 3 "plain$tr0ub4dor&3" "bob@example.com" false
                            "bob@example.com" "Bob" "Ross" None true false false
                            1700000100000000 1700000100000007 None])
             "tr0ub4dor&3" salt'
             (User.mk 3 "plain$tr0ub4dor&3" "bob@example.com" false "bob@example.com"
                "Bob" "Ross" None true false false 1700000100000000 1700000100000007
                None))
        \/ exists m,
             AuthService.authenticate_user (H := Demo.framework) Demo.service
               (Demo.db ++ [User.mk 3 "plain$tr0ub4dor&3" "bob@example.com" false
                              "bob@example.com" "Bob" "Ross" None true false false
                              1700000100000000 1700000100000007 None])
               " Bob@Example.COM " "tr0ub4dor&3" None salt' now'
             = (Raise (DataError m),
                Demo.db ++ [User.mk 3 "plain$tr0ub4dor&3" "bob@example.com" false
                              "bob@example.com" "Bob" "Ross" None true false false
                              1700000100000000 1700000100000007 None]))
  /\ (forall email' password' first_name' last_name' extra_fields fresh_id' salt' now'
             now_updated',
        Py.strip (Py.lower email') = Py.strip (Py.lower " Bob@Example.COM ") ->
        email' <> "" -> password' <> "" ->
        AuthService.register_user (H := Demo.framework) Demo.service
          (Demo.db ++ [User.mk 3 "plain$tr0ub4dor&3" "bob@example.com" false
                         "bob@example.com" "Bob" "Ross" None true false false
                         1700000100000000 1700000100000007 None])
          email' password' first_name' last_name' extra_fields fresh_id' salt' now'
          now_updated'
        = Raise (ValidationError ["User with this email already exists"])).
Proof.
  apply (register_then_authenticate (H := Demo.framework) Demo.service Demo.db _
           " Bob@Example.COM " "tr0ub4dor&3" "Bob" "Ross" 3%N "salt" 1700000100000000
           1700000100000007).
  - intros salt raw. cbn. rewrite String.eqb_refl. reflexivity.
  - vm_compute. reflexivity.
Defined.

(** ** Invariants of the table *)

Section Accounts.
Context `{Framework}.

Lemma account_kept_refl (u : User.t) : account_kept u u.
Proof. repeat split. Qed.

Lemma table_step_refl (db : table) : table_step db db.
Proof.
  left. exists (fun row => row). split; [intros row; apply account_kept_refl|].
  symmetry. apply map_id.
Qed.

Lemma updated_row_kept (obj : User.t) (fields : list User.field) (row : User.t) :
  account_kept row (Db.updated_row obj fields row).
Proof.
  unfold Db.updated_row. revert row.
  induction fields as [|f fields IH]; intros row; cbn [fold_left];
    [apply account_kept_refl|].
  destruct (IH (User.assign obj row f)) as (H1 & H2 & H3 & H4 & H5 & H6).
  unfold account_kept. rewrite H1, H2, H3, H4, H5, H6. destruct f; repeat split.
Qed.

Lemma save_table_step (db db' : table) (obj obj' : User.t) (fields : list User.field)
    (now : Z) :
  Db.save db obj fields now = Ok (obj', db') -> table_step db db'.
Proof.
  intros Hsave. apply save_inv in Hsave as [_ ->]. left. eexists. split; [|reflexivity].
  intros row. cbv beta. destruct (N.eqb (User.id row) (User.id obj'));
    [apply updated_row_kept | apply account_kept_refl].
Qed.

Lemma account_kept_trans (u1 u2 u3 : User.t) :
  account_kept u1 u2 -> account_kept u2 u3 -> account_kept u1 u3.
Proof.
  intros (A1 & A2 & A3 & A4 & A5 & A6) (B1 & B2 & B3 & B4 & B5 & B6).
  repeat split; congruence.
Qed.

Lemma kept_map_refl (db : table) :
  exists g, (forall row, account_kept row (g row)) /\ db = map g db.
Proof.
  exists (fun row => row). split; [intros row; apply account_kept_refl|].
  symmetry. apply map_id.
Qed.

Lemma kept_map_trans (db d1 d2 : table) :
  (exists g, (forall row, account_kept row (g row)) /\ d1 = map g db) ->
  (exists g, (forall row, account_kept row (g row)) /\ d2 = map g d1) ->
  exists g, (forall row, account_kept row (g row)) /\ d2 = map g db.
Proof.
  intros (g1 & Hg1 & ->) (g2 & Hg2 & ->). exists (fun row => g2 (g1 row)).
  split; [|apply map_map].
  intros row. exact (account_kept_trans _ _ _ (Hg1 row) (Hg2 (g1 row))).
Qed.

Lemma save_kept_map (db db' : table) (obj obj' : User.t) (fields : list User.field)
    (now : Z) :
  Db.save db obj fields now = Ok (obj', db') ->
  exists g, (forall row, account_kept row (g row)) /\ db' = map g db.
Proof.
  intros Hsave. apply save_inv in Hsave as [_ ->]. eexists. split; [|reflexivity].
  intros row. cbv beta. destruct (N.eqb (User.id row) (User.id obj'));
    [apply updated_row_kept | apply account_kept_refl].
Qed.

Lemma rehashed_kept_map (db : table) (raw salt : string) (row : User.t) :
  exists g, (forall r, account_kept r (g r)) /\ rehashed db raw salt row = map g db.
Proof.
  unfold rehashed. destruct (rehash_needed raw row); [|apply kept_map_refl].
  eexists. split; [|reflexivity]. intros r. cbv beta.
  destruct (N.eqb (User.id r) (User.id row)); repeat split.
Qed.

Lemma authenticate_user_kept_map (self : AuthService.t) (db : table)
    (email password : string) (ip_address : option string) (salt : string) (now : Z) :
  exists g,
    (forall row, account_kept row (g row))
    /\ (AuthService.authenticate_user self db email password ip_address salt now).2
       = map g db.
Proof.
  unfold AuthService.authenticate_user, AuthService.authenticate_user_with.
  destruct (_ || _); [apply kept_map_refl|].
  destruct (Backend.authenticate _ _ _ _ _) as [[found d]|e] eqn:Hauth;
    [|apply kept_map_refl].
  assert (Hd : exists g, (forall row, account_kept row (g row)) /\ d = map g db).
  { destruct (authenticate_inv _ _ _ _ _ _ _ Hauth) as [(_ & _ & ->)|(row & _ & -> & _)];
      [apply kept_map_refl | apply rehashed_kept_map]. }
  destruct found as [user|]; [|exact Hd].
  destruct (negb _); [exact Hd|].
  destruct ip_address as [ip|]; [|exact Hd].
  destruct (Py.falsy ip); [exact Hd|].
  destruct (UserModel.update_last_login_ip _ _ _ _) as [[u d']|e] eqn:Hsave; [|exact Hd].
  cbn [snd]. apply (kept_map_trans _ _ _ Hd).
  unfold UserModel.update_last_login_ip in Hsave.
  exact (save_kept_map _ _ _ _ _ _ Hsave).
Qed.

Lemma update_table_step (db : table) (sel : User.t -> bool) (f : User.t -> User.t) :
  (forall row, account_kept row (f row)) -> table_step db (Db.update db sel f).
Proof.
  intros Hf. left. eexists. split; [|reflexivity]. intros row. cbv beta.
  destruct (sel row); [apply Hf | apply account_kept_refl].
Qed.

Variable self : AuthService.t.

Lemma with_jwt_auth_table_step (db : table) (token : Jwt.token) (now_auth : Z)
    (endpoint : option User.t -> Z * Api.body * table) :
  (forall user, table_step db (endpoint user).2) ->
  table_step db (Api.with_jwt_auth self db token now_auth endpoint).2.
Proof.
  intros Hend. unfold Api.with_jwt_auth.
  destruct (Api.JWTAuth_authenticate _ _ _ _) as [[user|]|e]; cbn [snd];
    auto using table_step_refl.
Qed.

Lemma update_profile_table_step (db : table) (user : option User.t)
    (first_name last_name avatar_url : option string) (now : Z) :
  table_step db (Api.update_profile db user first_name last_name avatar_url now).2.
Proof.
  unfold Api.update_profile. destruct user as [user|]; [|apply table_step_refl].
  destruct (Db.save _ _ _ _) as [[u d]|e] eqn:Hsave; cbn [snd]; [|apply table_step_refl].
  exact (save_table_step _ _ _ _ _ _ Hsave).
Qed.

Lemma change_password_table_step (db : table) (user : option User.t)
    (current_password new_password rehash_salt salt : string) (now : Z) :
  table_step db
    (Api.change_password db user current_password new_password rehash_salt salt now).2.
Proof.
  left. unfold Api.change_password. destruct user as [user|]; [|apply kept_map_refl].
  destruct (UserModel.check_password _ _ _ _ _) as [[[ok u1] d1]|e] eqn:Hcheck;
    [|apply kept_map_refl].
  apply check_password_inv in Hcheck as (_ & _ & ->).
  pose proof (rehashed_kept_map db current_password rehash_salt user) as Hd.
  destruct ok; [|exact Hd].
  destruct (PasswordValidation.validate_password _ _) as [[]|[]];
    cbn [snd]; try exact Hd.
  destruct (Db.save _ _ _ _) as [[u d]|e] eqn:Hsave; cbn [snd]; [|exact Hd].
  apply (kept_map_trans _ _ _ Hd). exact (save_kept_map _ _ _ _ _ _ Hsave).
Qed.

Lemma verify_email_table_step (db : table) (user : option User.t) (now : Z) :
  table_step db (Api.verify_email db user now).2.
Proof.
  unfold Api.verify_email. destruct user as [user|]; [|apply table_step_refl].
  destruct (User.email_verified user); [apply table_step_refl|].
  unfold UserModel.verify_email.
  destruct (Db.save _ _ _ _) as [[u d]|e] eqn:Hsave; cbn [snd]; [|apply table_step_refl].
  exact (save_table_step _ _ _ _ _ _ Hsave).
Qed.

Lemma login_table_step (db : table) (META : gmap string string)
    (email password salt : string) (now now_tokens : Z) :
  table_step db (Api.login self db META email password salt now now_tokens).2.
Proof.
  left. unfold Api.login. cbv zeta.
  pose proof (authenticate_user_kept_map self db email password
                (Some (Api.get_client_ip META)) salt now) as Hd.
  destruct (AuthService.authenticate_user _ _ _ _ _ _ _) as [[user|e] db'].
  - rewrite create_tokens_eq. exact Hd.
  - destruct e; exact Hd.
Qed.

Lemma register_table_step (db : table) (email password first_name last_name : string)
    (fresh_id : N) (salt : string) (now now_updated now_tokens : Z) :
  table_step db
    (Api.register self db email password first_name last_name fresh_id salt now
       now_updated now_tokens).2.
Proof.
  unfold Api.register.
  destruct (AuthService.register_user _ _ _ _ _ _ _ _ _ _ _) as [[user db']|e] eqn:Hreg.
  - rewrite create_tokens_eq. cbn [snd]. right. exists user.
    exact (register_user_fresh _ _ _ _ _ _ _ _ _ _ _ _ Hreg).
  - destruct e; apply table_step_refl.
Qed.

Lemma handle_table_step (req : System.request) (e : System.env) (db : table) :
  table_step db (System.handle self req e db).
Proof.
  destruct req; cbn [System.handle].
  - apply login_table_step.
  - apply register_table_step.
  - change (table_step db (System.handle self (System.RefreshToken refresh_token) e db)).
    rewrite handle_refresh_token. apply table_step_refl.
  - apply with_jwt_auth_table_step. intros [user|]; apply table_step_refl.
  - apply with_jwt_auth_table_step. intros user. apply update_profile_table_step.
  - apply with_jwt_auth_table_step. intros user. apply change_password_table_step.
  - apply with_jwt_auth_table_step. intros user. apply verify_email_table_step.
  - apply update_table_step. intros row. repeat split.
  - apply update_table_step. intros row. repeat split.
  - apply update_table_step. intros row. repeat split.
Qed.

Lemma accounts_kept_refl (db : table) : accounts_kept db db.
Proof.
  split.
  - intros i u Hi. exists u. split; [exact Hi|apply account_kept_refl].
  - intros i u' Hi Hle. apply lookup_lt_Some in Hi. lia.
Qed.

Lemma accounts_kept_length (db db' : table) :
  accounts_kept db db' -> (length db <= length db')%nat.
Proof.
  intros [Hkept _]. destruct (decide (length db = 0)%nat) as [|Hne]; [lia|].
  destruct (lookup_lt_is_Some_2 db (length db - 1)) as [u Hu]; [lia|].
  destruct (Hkept _ _ Hu) as (u' & Hu' & _). apply lookup_lt_Some in Hu'. lia.
Qed.

Lemma accounts_kept_trans (db1 db2 db3 : table) :
  accounts_kept db1 db2 -> accounts_kept db2 db3 -> accounts_kept db1 db3.
Proof.
  intros H12 H23. split.
  - intros i u Hi. destruct (proj1 H12 i u Hi) as (u2 & Hi2 & Hk2).
    destruct (proj1 H23 i u2 Hi2) as (u3 & Hi3 & Hk3).
    exists u3. split; [exact Hi3|]. exact (account_kept_trans _ _ _ Hk2 Hk3).
  - intros i u3 Hi3 Hle.
    destruct (decide (i < length db2)%nat) as [Hlt|Hge].
    + destruct (lookup_lt_is_Some_2 db2 i Hlt) as [u2 Hi2].
      destruct (proj1 H23 i u2 Hi2) as (u3' & Hi3' & Hk).
      assert (u3' = u3) as -> by congruence.
      destruct (proj2 H12 i u2 Hi2 Hle) as [Hs Hsu].
      destruct Hk as (_ & _ & _ & K4 & K5 & _). split; congruence.
    + apply (proj2 H23 i u3 Hi3). lia.
Qed.

Lemma table_step_accounts_kept (db db' : table) :
  table_step db db' -> accounts_kept db db'.
Proof.
  intros [(g & Hg & ->)|(user & -> & Hstaff & Hsuper & _)].
  - split.
    + intros i u Hi. exists (g u). split; [|apply Hg].
      change (map g db) with (g <$> db). rewrite list_lookup_fmap, Hi. reflexivity.
    + intros i u' Hi Hle. apply lookup_lt_Some in Hi. rewrite length_map in Hi. lia.
  - split.
    + intros i u Hi. exists u. split; [|apply account_kept_refl].
      apply lookup_app_l_Some. exact Hi.
    + intros i u' Hi Hle. rewrite lookup_app_r in Hi by exact Hle.
      destruct (i - length db)%nat; [|discriminate].
      injection Hi as <-. auto.
Qed.

Lemma map_key_kept (A : Type) (key : User.t -> A) (g : User.t -> User.t) (db : table) :
  (forall row, key (g row) = key row) -> map key (map g db) = map key db.
Proof. intros Hg. rewrite map_map. apply map_ext. exact Hg. Qed.

Lemma NoDup_snoc_key (A : Type) (key : User.t -> A) (db : table) (user : User.t) :
  NoDup (map key db) -> Forall (fun row => key row <> key user) db ->
  NoDup (map key (db ++ [user])).
Proof.
  intros Hnd Hfresh. rewrite map_app. apply NoDup_app. split; [exact Hnd|].
  split; [|apply NoDup_singleton].
  intros x Hx Hx'. apply list_elem_of_singleton in Hx'. subst x.
  apply list_elem_of_In, in_map_iff in Hx as (row & Heq & Hin).
  rewrite List.Forall_forall in Hfresh. exact (Hfresh row Hin Heq).
Qed.

Lemma table_step_unique_keys (db db' : table) :
  table_step db db' -> unique_keys db -> unique_keys db'.
Proof.
  intros [(g & Hg & ->)|(user & -> & _ & _ & Hfresh)] (Hid & Hemail & Huser).
  - unfold unique_keys.
    rewrite !map_key_kept by (intros row; apply (Hg row)).
    auto.
  - repeat split; apply NoDup_snoc_key; try assumption;
      eapply List.Forall_impl; try exact Hfresh; cbv beta; tauto.
Qed.

(** X14. The three unique indexes of the table hold through every sequence
    of requests, the seven endpoints of the API and the three admin actions
    alike: a table without two rows of one identifier, one email or one
    username stays so.  (The change form of the admin is not among the
    requests.) *)
Theorem run_unique_keys (reqs : list (System.request * System.env)) (db : table) :
  unique_keys db -> unique_keys (System.run self reqs db).
Proof.
  revert db. induction reqs as [|[req e] reqs IH]; intros db Hdb; cbn [System.run].
  - exact Hdb.
  - apply IH. exact (table_step_unique_keys _ _ (handle_table_step req e db) Hdb).
Qed.

(** X15. No sequence of requests, of the seven endpoints of the API and the
    three admin actions, grants rights or moves an identity: every row keeps
    its place, its identifier, email, username and creation time and its
    [is_staff] and [is_superuser] flags, whatever the tokens and the inputs,
    and every account that the requests have added is neither staff nor
    superuser.  (The change form of the admin, which edits these flags, is
    not among the requests.) *)
Theorem run_accounts_kept (reqs : list (System.request * System.env)) (db : table) :
  accounts_kept db (System.run self reqs db).
Proof.
  revert db. induction reqs as [|[req e] reqs IH]; intros db; cbn [System.run].
  - apply accounts_kept_refl.
  - eapply accounts_kept_trans; [|apply IH].
    apply table_step_accounts_kept, handle_table_step.
Qed.

End Accounts.

(** ** The profile endpoints *)

Section Profile.
Context `{Framework}.

Lemma validate_password_iff (password : string) (user : option User.t) :
  PasswordValidation.validate_password password user = Ok tt
  <-> (PasswordValidation.UserAttributeSimilarityValidator password user = None
       /\ 8 <= Py.len password
       /\ common_password (Py.strip (Py.lower password)) = false
       /\ Py.isdigit password = false).
Proof.
  unfold PasswordValidation.validate_password,
    PasswordValidation.MinimumLengthValidator, PasswordValidation.CommonPasswordValidator,
    PasswordValidation.NumericPasswordValidator.
  destruct (PasswordValidation.UserAttributeSimilarityValidator password user);
    destruct (Z.ltb_spec (Py.len password) 8);
    destruct (common_password _); destruct (Py.isdigit password); cbn;
    split; intros Hyp; try discriminate;
    try (destruct Hyp as (? & ? & ? & ?); try lia; discriminate);
    repeat split; auto; lia.
Qed.

Lemma find_email_map (db : table) (g : User.t -> User.t) (email : string) :
  (forall row, User.email (g row) = User.email row) ->
  find (fun row => String.eqb (User.email row) email) (map g db)
  = option_map g (find (fun row => String.eqb (User.email row) email) db).
Proof.
  intros Hg. induction db as [|row db IH]; [reflexivity|].
  cbn [map find]. rewrite Hg.
  destruct (String.eqb (User.email row) email); [reflexivity|exact IH].
Qed.

(** X16. A password change answered 200 was asked with the current
    password of the user and a new one that passes all four validators, the
    similarity to the user's attributes included; it has rewritten the hash
    and [updated_at] of the rows under the user's identifier and nothing
    else.  With a hasher whose [check_password] accepts what [make_password]
    made, the new password signs in at once: [authenticate_user] returns
    the changed record, with its hash made again if the hasher calls it
    outdated, unless the database refuses that hash. *)
Theorem change_password_effect (self : AuthService.t) (db db' : table) (user : User.t)
    (current_password new_password rehash_salt salt : string) (now : Z)
    (body : Api.body) :
  (forall salt raw, check_password raw (make_password salt raw) = true) ->
  Api.change_password db (Some user) current_password new_password rehash_salt salt now
  = (200, body, db') ->
  let changed row := User.set_updated_at now
                       (User.set_password_hash (make_password salt new_password) row) in
  check_password current_password (User.password user) = true
  /\ PasswordValidation.UserAttributeSimilarityValidator new_password (Some user) = None
  /\ 8 <= Py.len new_password
  /\ common_password (Py.strip (Py.lower new_password)) = false
  /\ Py.isdigit new_password = false
  /\ body = Api.MessageResponse "Password changed successfully"
  /\ db' = map (fun row => if N.eqb (User.id row) (User.id user) then changed row else row)
             db
  /\ forall email row salt' now',
       email <> "" ->
       Db.get_by_natural_key db (Py.strip (Py.lower email)) = Ok row ->
       User.id row = User.id user -> User.is_active row = true ->
       (must_update (make_password salt new_password) = false ->
        AuthService.authenticate_user self db' email new_password None salt' now'
        = (Ok (changed row), db'))
       /\ (AuthService.authenticate_user self db' email new_password None salt' now'
           = (Ok (rehashed_user new_password salt' (changed row)),
              rehashed db' new_password salt' (changed row))
           \/ exists m,
                AuthService.authenticate_user self db' email new_password None salt' now'
                = (Raise (DataError m), db')).
Proof.
  intros Hhasher Hres changed. revert Hres. unfold Api.change_password.
  destruct (UserModel.check_password db current_password user rehash_salt now)
    as [[[ok u1] d1]|e] eqn:Hcheck; [|discriminate].
  destruct ok; [|discriminate].
  apply check_password_inv in Hcheck as (Hcur & -> & ->).
  destruct (rehashed_user_id current_password rehash_salt user) as (Hrid & _ & _).
  assert (Hsame : PasswordValidation.validate_password new_password
                    (Some (rehashed_user current_password rehash_salt user))
                  = PasswordValidation.validate_password new_password (Some user)).
  { unfold rehashed_user. destruct (rehash_needed _ _); reflexivity. }
  rewrite Hsame.
  destruct (PasswordValidation.validate_password new_password (Some user))
    as [[]|e] eqn:Hv; [|destruct e; discriminate].
  apply validate_password_iff in Hv as (Hsim & Hlen & Hcommon & Hdigit).
  destruct (Db.save _ _ _ _) as [[u d]|e] eqn:Hsave; [|discriminate].
  intros [= <- <-]. apply save_inv in Hsave as [Hu Hd].
  rewrite bool_decide_true in Hu by (repeat constructor).
  assert (Hdb : d = map (fun row => if N.eqb (User.id row) (User.id user)
                                    then changed row else row) db).
  { rewrite Hd, Hu.
    change (User.id (User.set_updated_at now
                       (UserModel.set_password salt new_password
                          (rehashed_user current_password rehash_salt user))))
      with (User.id (rehashed_user current_password rehash_salt user)).
    rewrite Hrid. unfold rehashed. destruct (rehash_needed current_password user).
    - rewrite map_map. apply map_ext. intros row.
      destruct (N.eqb (User.id row) (User.id user)) eqn:Heq.
      + change (User.id (User.set_password_hash
                           (make_password rehash_salt current_password) row))
          with (User.id row).
        rewrite Heq. reflexivity.
      + rewrite Heq. reflexivity.
    - apply map_ext. intros row.
      destruct (N.eqb (User.id row) (User.id user)); reflexivity. }
  split; [symmetry; exact Hcur|].
  repeat (split; [assumption || reflexivity|]).
  intros email row salt' now' He Hrow Hid Hactive.
  assert (Hp : new_password <> "").
  { intros ->. revert Hlen. vm_compute. intros Hlen. apply Hlen. reflexivity. }
  assert (Hkey : Db.get_by_natural_key d (Py.strip (Py.lower email)) = Ok (changed row)).
  { rewrite Hdb. unfold Db.get_by_natural_key.
    rewrite find_email_map
      by (intros r; destruct (N.eqb (User.id r) (User.id user)); reflexivity).
    unfold Db.get_by_natural_key in Hrow.
    destruct (find _ db) as [r|]; [|discriminate]. injection Hrow as ->.
    cbn [option_map]. rewrite Hid, N.eqb_refl. reflexivity. }
  assert (Hpw : check_password new_password (User.password (changed row)) = true)
    by apply Hhasher.
  assert (Hact : User.is_active (changed row) = true) by exact Hactive.
  split.
  - intros Hcurrent.
    assert (Hneed : rehash_needed new_password (changed row) = false).
    { unfold rehash_needed.
      change (User.password (changed row)) with (make_password salt new_password).
      rewrite Hcurrent. apply andb_false_r. }
    destruct (authenticate_user_right_password self d email new_password salt' now'
                (changed row) He Hp Hkey Hpw Hact) as [Hok|(m & Hm & _)]; [|congruence].
    rewrite Hok. unfold rehashed_user, rehashed. rewrite Hneed. reflexivity.
  - destruct (authenticate_user_right_password self d email new_password salt' now'
                (changed row) He Hp Hkey Hpw Hact) as [Hok|(m & _ & Hfail)];
      [left|right]; eauto.
Qed.

(** X17. A profile update answered 200 changes only the names, the avatar
    and [updated_at], and only in the rows under the user's identifier: a
    field that the request leaves out keeps the value of the record the
    request was authenticated with, and the answer carries that record with
    the new values.  An avatar cannot be removed this way. *)
Theorem update_profile_effect (db db' : table) (user : User.t)
    (first_name last_name avatar_url : option string) (now : Z) (body : Api.body) :
  Api.update_profile db (Some user) first_name last_name avatar_url now
  = (200, body, db') ->
  let first_name' := default (User.first_name user) first_name in
  let last_name' := default (User.last_name user) last_name in
  let avatar_url' := match avatar_url with
                     | Some v => Some v
                     | None => User.avatar_url user
                     end in
  body = Api.UserResponse
           (User.mk (User.id user) (User.password user) (User.email user)
              (User.email_verified user) (User.username user) first_name' last_name'
              avatar_url' (User.is_active user) (User.is_staff user)
              (User.is_superuser user) (User.created_at user) now
              (User.last_login_ip user))
  /\ db' = map (fun row =>
                  if N.eqb (User.id row) (User.id user)
                  then User.mk (User.id row) (User.password row) (User.email row)
                         (User.email_verified row) (User.username row) first_name'
                         last_name' avatar_url' (User.is_active row) (User.is_staff row)
                         (User.is_superuser row) (User.created_at row) now
                         (User.last_login_ip row)
                  else row) db
  /\ (avatar_url' = None -> avatar_url = None /\ User.avatar_url user = None).
Proof.
  unfold Api.update_profile.
  destruct (Db.save _ _ _ _) as [[u d]|e] eqn:Hsave; [|discriminate].
  intros [= <- <-]. apply save_inv in Hsave as [Hu Hd].
  rewrite bool_decide_true in Hu by (repeat constructor).
  cbv zeta. split; [|split].
  - rewrite Hu. destruct first_name, last_name, avatar_url; reflexivity.
  - assert (Hid : User.id u = User.id user)
      by (rewrite Hu; destruct first_name, last_name, avatar_url; reflexivity).
    rewrite Hd. apply map_ext. intros row. rewrite Hid.
    destruct (N.eqb (User.id row) (User.id user)); [|reflexivity].
    rewrite Hu. destruct first_name, last_name, avatar_url; reflexivity.
  - destruct avatar_url; [discriminate|auto].
Qed.

End Profile.

Lemma change_password_effect_witness :
  check_password (Framework := Demo.framework) "correct horse" (User.password Demo.alice)
  = true
  /\ PasswordValidation.UserAttributeSimilarityValidator "tr0ub4dor&3" (Some Demo.alice)
     = None
  /\ 8 <= Py.len "tr0ub4dor&3"
  /\ common_password (Framework := Demo.framework) (Py.strip (Py.lower "tr0ub4dor&3"))
     = false
  /\ Py.isdigit "tr0ub4dor&3" = false
  /\ Api.MessageResponse "Password changed successfully"
     = Api.MessageResponse "Password changed successfully"
  /\ [User.set_updated_at 1700000100000000
        (User.set_password_hash "plain$tr0ub4dor&3" Demo.alice); Demo.dana]
     = map (fun row =>
              if N.eqb (User.id row) (User.id Demo.alice)
              then User.set_updated_at 1700000100000000
                     (User.set_password_hash
                        (make_password (Framework := Demo.framework) "salt" "tr0ub4dor&3")
                        row)
              else row) Demo.db
  /\ forall email row salt' now',
       email <> "" ->
       Db.get_by_natural_key Demo.db (Py.strip (Py.lower email)) = Ok row ->
       User.id row = User.id Demo.alice -> User.is_active row = true ->
       (must_update (Framework := Demo.framework)
          (make_password (Framework := Demo.framework) "salt" "tr0ub4dor&3") = false ->
        AuthService.authenticate_user (H := Demo.framework) Demo.service
          [User.set_updated_at 1700000100000000
             (User.set_password_hash "plain$tr0ub4dor&3" Demo.alice); Demo.dana]
          email "tr0ub4dor&3" None salt' now'
        = (Ok (User.set_updated_at 1700000100000000
                 (User.set_password_hash
                    (make_password (Framework := Demo.framework) "salt" "tr0ub4dor&3")
                    row)),
           [User.set_updated_at 1700000100000000
              (User.set_password_hash "plain$tr0ub4dor&3" Demo.alice); Demo.dana]))
       /\ (AuthService.authenticate_user (H := Demo.framework) Demo.service
             [User.set_updated_at 1700000100000000
                (User.set_password_hash "plain$tr0ub4dor&3" Demo.alice); Demo.dana]
             email "tr0ub4dor&3" None salt' now'
           = (Ok (rehashed_user (H := Demo.framework) "tr0ub4dor&3" salt'
                    (User.set_updated_at 1700000100000000
                       (User.set_password_hash
                          (make_password (Framework := Demo.framework) "salt"
                             "tr0ub4dor&3") row))),
              rehashed (H := Demo.framework)
                [User.set_updated_at 1700000100000000
                   (User.set_password_hash "plain$tr0ub4dor&3" Demo.alice); Demo.dana]
                "tr0ub4dor&3" salt'
                (User.set_updated_at 1700000100000000
                   (User.set_password_hash
                      (make_password (Framework := Demo.framework) "salt" "tr0ub4dor&3")
                      row)))
           \/ exists m,
                AuthService.authenticate_user (H := Demo.framework) Demo.service
                  [User.set_updated_at 1700000100000000
                     (User.set_password_hash "plain$tr0ub4dor&3" Demo.alice); Demo.dana]
                  email "tr0ub4dor&3" None salt' now'
                = (Raise (DataError m),
                   [User.set_updated_at 1700000100000000
                      (User.set_password_hash "plain$tr0ub4dor&3" Demo.alice);
                    Demo.dana])).
Proof.
  apply (change_password_effect (H := Demo.framework) Demo.service Demo.db _ Demo.alice
           "correct horse" "tr0ub4dor&3" "pepper" "salt" 1700000100000000
           (Api.MessageResponse "Password changed successfully")).
  - intros salt raw. cbn. rewrite String.eqb_refl. reflexivity.
  - vm_compute. reflexivity.
Defined.

Lemma update_profile_effect_witness :
  Api.UserResponse
    (User.mk 1 "plain$correct horse" "alice@example.com" false "alice@example.com"
       "Alice" "Hargreaves" None true false false 1700000000000000 1700000100000000 None)
  = Api.UserResponse
      (User.mk (User.id Demo.alice) (User.password Demo.alice) (User.email Demo.alice)
         (User.email_verified Demo.alice) (User.username Demo.alice)
         (default (User.first_name Demo.alice) None)
         (default (User.last_name Demo.alice) (Some "Hargreaves"))
         (User.avatar_url Demo.alice) (User.is_active Demo.alice)
         (User.is_staff Demo.alice) (User.is_superuser Demo.alice)
         (User.created_at Demo.alice) 1700000100000000 (User.last_login_ip Demo.alice))
  /\ [User.mk 1 "plain$correct horse" "alice@example.com" false "alice@example.com"
        "Alice" "Hargreaves" None true false false 1700000000000000 1700000100000000 None;
      Demo.dana]
     = map (fun row =>
              if N.eqb (User.id row) (User.id Demo.alice)
              then User.mk (User.id row) (User.password row) (User.email row)
                     (User.email_verified row) (User.username row)
                     (default (User.first_name Demo.alice) None)
                     (default (User.last_name Demo.alice) (Some "Hargreaves"))
                     (User.avatar_url Demo.alice) (User.is_active row) (User.is_staff row)
                     (User.is_superuser row) (User.created_at row) 1700000100000000
                     (User.last_login_ip row)
              else row) Demo.db
  /\ (User.avatar_url Demo.alice = None ->
      @None string = None /\ User.avatar_url Demo.alice = None).
Proof.
  apply (update_profile_effect (H := Demo.framework) Demo.db _ Demo.alice None
           (Some "Hargreaves") None 1700000100000000 _).
  vm_compute. reflexivity.
Defined.

(** ** The client address, the event dispatcher and the query sets *)

Section ClientIp.

Lemma before_comma_no_comma (l : list ascii) :
  Forall (fun c => c <> ","%char) (Api.before_comma l).
Proof.
  induction l as [|c l IH]; cbn [Api.before_comma]; [constructor|].
  case_bool_decide as Hc; [constructor|]. constructor; assumption.
Qed.

Lemma contains_char_false (c : ascii) (s : string) :
  Forall (fun d => d <> c) (Py.chars s) -> Py.contains_char c s = false.
Proof.
  unfold Py.contains_char. induction 1 as [|d l Hd _ IH]; cbn [existsb]; [reflexivity|].
  rewrite bool_decide_false by exact Hd. exact IH.
Qed.

Lemma first_ip_Some (META : gmap string string) (headers : list string) (ip : string) :
  Api.first_ip META headers = Some ip ->
  ip <> "" /\ ip <> "unknown" /\ Py.contains_char ","%char ip = false
  /\ exists header v, In header headers /\ META !! header = Some v
                      /\ (ip = v \/ (Py.contains_char ","%char v = true
                                     /\ ip = Py.strip (Py.of_chars
                                                         (Api.before_comma (Py.chars v))))).
Proof.
  induction headers as [|header rest IH]; cbn [Api.first_ip]; [discriminate|].
  assert (Hrest : Api.first_ip META rest = Some ip ->
                  ip <> "" /\ ip <> "unknown" /\ Py.contains_char ","%char ip = false
                  /\ exists header0 v, In header0 (header :: rest) /\ META !! header0 = Some v
                      /\ (ip = v \/ (Py.contains_char ","%char v = true
                                     /\ ip = Py.strip (Py.of_chars
                                                         (Api.before_comma (Py.chars v)))))).
  { intros Hr. destruct (IH Hr) as (H1 & H2 & H3 & h & v & Hin & Hv & Hip).
    repeat (split; [assumption|]). exists h, v. split; [right; exact Hin|]. auto. }
  destruct (META !! header) as [v|] eqn:Hv; [|exact Hrest].
  destruct (Py.falsy v); [exact Hrest|]. cbv zeta.
  destruct (Py.contains_char ","%char v) eqn:Hcomma.
  - set (ip' := Py.strip _).
    destruct (negb (Py.falsy ip') && negb (String.eqb ip' "unknown")) eqn:Hok;
      [|exact Hrest].
    intros [= <-]. apply andb_prop in Hok as [Hne Hunk].
    split; [intros Heq; rewrite Heq in Hne; discriminate|].
    split; [intros Heq; rewrite Heq in Hunk; discriminate|].
    split.
    + apply contains_char_false. unfold ip', Py.strip. rewrite !chars_of_chars.
      apply strip_chars_Forall, before_comma_no_comma.
    + exists header, v. split; [left; reflexivity|]. split; [exact Hv|]. right. auto.
  - destruct (negb (Py.falsy v) && negb (String.eqb v "unknown")) eqn:Hok; [|exact Hrest].
    intros [= <-]. apply andb_prop in Hok as [Hne Hunk].
    split; [intros Heq; rewrite Heq in Hne; discriminate|].
    split; [intros Heq; rewrite Heq in Hunk; discriminate|].
    split; [exact Hcomma|].
    exists header, v. split; [left; reflexivity|]. auto.
Qed.

Lemma first_ip_None (META : gmap string string) (headers : list string) :
  Api.first_ip META headers = None ->
  forall header, In header headers ->
    META !! header = None
    \/ exists v, META !! header = Some v
                 /\ (v = "" \/ v = "unknown" \/ Py.contains_char ","%char v = true).
Proof.
  induction headers as [|header rest IH]; cbn [Api.first_ip]; [intros _ h []|].
  intros Hnone h [<-|Hin].
  - destruct (META !! header) as [v|] eqn:Hv; [|left; reflexivity].
    right. exists v. split; [reflexivity|].
    destruct v as [|c v]; [left; reflexivity|]. right.
    cbn [Py.falsy] in Hnone. cbv zeta in Hnone.
    destruct (Py.contains_char ","%char (String c v)); [right; reflexivity|].
    left. cbn [Py.falsy negb andb] in Hnone.
    destruct (String.eqb_spec (String c v) "unknown") as [Heq|Hne]; [exact Heq|].
    discriminate.
  - apply IH; [|exact Hin].
    destruct (META !! header) as [v|]; [|exact Hnone].
    destruct (Py.falsy v); [exact Hnone|]. cbv zeta in Hnone.
    destruct (negb _ && negb _); [discriminate|exact Hnone].
Qed.

Lemma first_ip_ext (META META' : gmap string string) (headers : list string) :
  (forall header, In header headers -> META' !! header = META !! header) ->
  Api.first_ip META' headers = Api.first_ip META headers.
Proof.
  induction headers as [|header rest IH]; intros Hagree; cbn [Api.first_ip]; [reflexivity|].
  rewrite (Hagree header) by (left; reflexivity).
  rewrite IH by (intros h Hin; apply Hagree; right; exact Hin). reflexivity.
Qed.

(** X18. The address that [get_client_ip] returns depends on the five
    headers it lists and on nothing else in the request.  It is never empty,
    never ["unknown"] and never a comma-separated list, except when all five
    headers are unusable: then it is [REMOTE_ADDR] as it came, empty,
    ["unknown"] or with its commas, or ["0.0.0.0"] without that header. *)
Theorem get_client_ip_spec (META : gmap string string) :
  let ip := Api.get_client_ip META in
  ((ip <> "" /\ ip <> "unknown" /\ Py.contains_char ","%char ip = false)
   \/ (ip = default "0.0.0.0" (META !! "REMOTE_ADDR")
       /\ forall header, In header Api.headers_to_check ->
            META !! header = None
            \/ exists v, META !! header = Some v
                         /\ (v = "" \/ v = "unknown"
                             \/ Py.contains_char ","%char v = true)))
  /\ forall META' : gmap string string,
       (forall header, In header Api.headers_to_check -> META' !! header = META !! header) ->
       Api.get_client_ip META' = ip.
Proof.
  intros ip. unfold ip, Api.get_client_ip. split.
  - destruct (Api.first_ip META Api.headers_to_check) as [found|] eqn:Hfirst.
    + left. destruct (first_ip_Some _ _ _ Hfirst) as (H1 & H2 & H3 & _). auto.
    + right. split; [reflexivity|]. exact (first_ip_None _ _ Hfirst).
  - intros META' Hagree. rewrite (first_ip_ext META META' _ Hagree).
    rewrite (Hagree "REMOTE_ADDR") by (cbn; auto 10). reflexivity.
Qed.

End ClientIp.

Section Dispatcher.
Variable world : Type.

Lemma register_lookup (self : DomainEventDispatcher.t world)
    (event_type ty : Events.event_type) (h : DomainEventDispatcher.handler world) :
  DomainEventDispatcher.register world self event_type h !! ty
  = if decide (event_type = ty) then Some (default [] (self !! event_type) ++ [h])
    else self !! ty.
Proof.
  unfold DomainEventDispatcher.register, DomainEventDispatcher.t in *. cbv zeta.
  destruct (decide (event_type = ty)) as [<-|Hne].
  - rewrite lookup_insert_eq. f_equal. f_equal.
    case_bool_decide as Hdom; [reflexivity|].
    rewrite lookup_insert_eq. apply not_elem_of_dom in Hdom. rewrite Hdom. reflexivity.
  - rewrite lookup_insert_ne by exact Hne.
    case_bool_decide; [reflexivity|]. rewrite lookup_insert_ne by exact Hne. reflexivity.
Qed.

Lemma registered_lookup
    (regs : list (Events.event_type * DomainEventDispatcher.handler world))
    (self : DomainEventDispatcher.t world) (ty : Events.event_type) :
  default [] (fold_left (fun d r => DomainEventDispatcher.register world d r.1 r.2) regs self
              !! ty)
  = default [] (self !! ty) ++ map snd (List.filter (fun r => bool_decide (r.1 = ty)) regs).
Proof.
  revert self. induction regs as [|[ty' h] regs IH]; intros self; cbn [fold_left].
  - cbn. rewrite app_nil_r. reflexivity.
  - rewrite IH, register_lookup. cbn [fst snd].
    change (List.filter (fun r => bool_decide (r.1 = ty)) ((ty', h) :: regs))
      with (if bool_decide (ty' = ty)
            then (ty', h) :: List.filter (fun r => bool_decide (r.1 = ty)) regs
            else List.filter (fun r => bool_decide (r.1 = ty)) regs).
    destruct (decide (ty' = ty)) as [->|Hne]; cbv beta iota.
    + rewrite bool_decide_true by reflexivity. cbn [default map snd].
      unfold id. rewrite <- List.app_assoc. reflexivity.
    + rewrite bool_decide_false by exact Hne. reflexivity.
Qed.

(** X19. A dispatcher on which handlers were registered one after the other
    dispatches an event to the handlers registered for the class of the
    event, each once per registration and in the order of registration, and
    to no other; the first handler that raises ends the dispatch with its
    exception.  Without a handler for the class nothing happens. *)
Theorem dispatch_registered
    (regs : list (Events.event_type * DomainEventDispatcher.handler world))
    (event : Events.event) (w : world) :
  DomainEventDispatcher.dispatch world
    (fold_left (fun d r => DomainEventDispatcher.register world d r.1 r.2) regs
       (DomainEventDispatcher.__init__ world)) event w
  = DomainEventDispatcher.run_handlers world
      (map snd (List.filter (fun r => bool_decide (r.1 = Events.type_of event)) regs)) event w.
Proof.
  pose proof (registered_lookup regs (DomainEventDispatcher.__init__ world)
                (Events.type_of event)) as Hlookup.
  unfold DomainEventDispatcher.dispatch, DomainEventDispatcher.__init__,
    DomainEventDispatcher.t in *.
  rewrite lookup_empty in Hlookup. cbn [default app] in Hlookup.
  destruct (fold_left _ regs _ !! Events.type_of event) as [handlers|];
    cbn [default] in Hlookup; rewrite <- Hlookup; reflexivity.
Qed.

End Dispatcher.

Section QuerySets.
Context `{Framework}.

Lemma lower_idem (s : string) : Py.lower (Py.lower s) = Py.lower s.
Proof.
  unfold Py.lower. rewrite chars_of_chars, map_map. f_equal.
  apply map_ext. intros c. apply lower_char_idem.
Qed.

Lemma filter_comm (A : Type) (P Q : A -> Prop)
    `{forall x, Decision (P x)} `{forall x, Decision (Q x)} (l : list A) :
  filter P (filter Q l) = filter Q (filter P l).
Proof.
  induction l as [|x l IH]; [reflexivity|]. rewrite !filter_cons.
  destruct (decide (Q x)), (decide (P x)); rewrite ?filter_cons;
    repeat case_decide; try contradiction; rewrite ?IH; reflexivity.
Qed.

(** X20. The query sets of the manager: [by_email] ignores the case of the
    email it is given and of the emails stored, and keeps exactly the rows
    whose email is the given one up to case; the row that the natural-key
    lookup of the sign-in finds for an email is among them; narrowing by
    [active], [by_email] and [verified] gives the same rows in either
    order. *)
Theorem by_email_spec (db : table) (email : string) :
  UserManager.by_email db (Py.lower email) = UserManager.by_email db email
  /\ (forall u, In u (UserManager.by_email db email)
                <-> In u db /\ Py.lower (User.email u) = Py.lower email)
  /\ (forall row, Db.get_by_natural_key db email = Ok row ->
                  In row (UserManager.by_email db email))
  /\ UserQuerySet.active (UserManager.by_email db email)
     = UserQuerySet.by_email (UserManager.active db) email
  /\ UserQuerySet.verified (UserManager.active db)
     = UserQuerySet.active (UserQuerySet.verified db).
Proof.
  unfold UserManager.by_email, UserManager.active, UserManager.get_queryset,
    UserQuerySet.by_email, UserQuerySet.active, UserQuerySet.verified.
  assert (Hin : forall u,
            In u (filter (fun u => String.eqb (Py.lower (User.email u)) (Py.lower email)) db)
            <-> In u db /\ Py.lower (User.email u) = Py.lower email).
  { intros u. rewrite <- !list_elem_of_In, list_elem_of_filter, Is_true_true, String.eqb_eq.
    tauto. }
  split; [rewrite lower_idem; reflexivity|].
  split; [exact Hin|].
  split; [|split; apply filter_comm].
  intros row Hrow. apply get_by_natural_key_inv in Hrow as [Hrow Hemail].
  apply Hin. split; [exact Hrow|]. rewrite Hemail. reflexivity.
Qed.

(** X21. The admin action [activate_users] over a selection that holds a
    user's row gives the tokens issued to the user their use back: while the
    access token is valid it resolves to the row, now active, whether the
    row was active before or not. *)
Theorem activate_users_restores_tokens (key : string) (db : table) (user row : User.t)
    (queryset : User.t -> bool) (issued now : Z) :
  let self := AuthService.new key in
  (User.id user < 2 ^ 128)%N ->
  find (fun r => N.eqb (User.id r) (User.id user)) db = Some row ->
  queryset row = true ->
  issued <= now -> now < (Datetime.timegm issued + 3600) * Datetime.second ->
  AuthService.get_user_from_token self (Admin.activate_users db queryset)
    (signed self (access_claims self user issued)) now
  = Ok (User.set_is_active true row).
Proof.
  intros self Hid Hfind Hsel Hissued Hexp. unfold self.
  rewrite (get_user_from_token_found key _ user (User.set_is_active true row) issued now);
    try assumption; [reflexivity|].
  unfold Admin.activate_users. rewrite find_update by reflexivity.
  rewrite Hfind. cbn [option_map]. rewrite Hsel. reflexivity.
Qed.

End QuerySets.

Lemma activate_users_restores_tokens_witness :
  AuthService.get_user_from_token (H := Demo.framework) (AuthService.new "demo-signing-key")
    (Admin.activate_users Demo.db (fun r => N.eqb (User.id r) 2))
    (signed (H := Demo.framework) (AuthService.new "demo-signing-key")
       (access_claims (AuthService.new "demo-signing-key") Demo.dana 1700000100000000))
    1700000200000000
  = Ok (User.set_is_active true Demo.dana).
Proof.
  apply (activate_users_restores_tokens (H := Demo.framework) "demo-signing-key" Demo.db
           Demo.dana Demo.dana (fun r => N.eqb (User.id r) 2)
           1700000100000000 1700000200000000).
  - vm_compute. reflexivity.
  - reflexivity.
  - reflexivity.
  - lia.
  - vm_compute. reflexivity.
Defined.

Lemma run_unique_keys_witness :
  unique_keys
    (System.run (H := Demo.framework) Demo.service
       [ (System.Register " Bob@Example.COM " "tr0ub4dor&3" "Bob" "Ross",
          {| System.now_auth := 1700000100000000; System.now := 1700000100000001;
             System.now_updated := 1700000100000002;
             System.now_tokens := 1700000100000002; System.rehash_salt := "pepper";
             System.salt := "salt";
             System.fresh_id := 3 |});
         (System.Register "alice@example.com" "tr0ub4dor&3" "Alice" "Again",
          {| System.now_auth := 1700000200000000; System.now := 1700000200000001;
             System.now_updated := 1700000200000002;
             System.now_tokens := 1700000200000002; System.rehash_salt := "pepper";
             System.salt := "salt";
             System.fresh_id := 4 |});
         (System.AdminVerifyEmails (fun _ => true),
          {| System.now_auth := 1700000300000000; System.now := 1700000300000001;
             System.now_updated := 1700000300000002;
             System.now_tokens := 1700000300000002; System.rehash_salt := "pepper";
             System.salt := "salt";
             System.fresh_id := 5 |}) ]
       Demo.db).
Proof.
  apply (run_unique_keys (H := Demo.framework)).
  repeat split; apply (bool_decide_unpack _); vm_compute; exact I.
Defined.

